(** * busybox util-linux/mount.c: a shallow embedding and its properties

    The development follows the layering of the source:
    [parse_mount_options] over the [mount_options] table,
    [get_block_backed_filesystems], [mount_it_now], [singlemount] and the
    table loops of [mount_main].  Pure string code is embedded as functions
    over character buffers; code that talks to the kernel or to libbb is
    embedded in a state monad over an abstract world, with process exit
    ([bb_error_msg_and_die]) as a second outcome. *)

From Stdlib Require Import ZArith List String Ascii Bool Lia.
From Stdlib Require Import Decimal DecimalString.
Import ListNotations.

Local Open Scope string_scope.
Local Open Scope list_scope.
Local Open Scope Z_scope.

(** ** Machine integers *)

(** [int] is 32 bits wide, two's complement; [sint32] is the value a
    conversion to [int] stores. *)
Definition sint32 (z : Z) : Z := (z + 2 ^ 31) mod 2 ^ 32 - 2 ^ 31.

(** ** Constants of the C library and of the kernel interface *)

(** Modelled from the spec: the MS_* mount flags come from <sys/mount.h>
    (through busybox.h), which lies outside util-linux/mount.c; the spec
    names them only as bits (silent, read-only, bind, ...).  The values
    are those of the Linux mount(2) interface. *)
Definition MS_RDONLY      : Z := 1.
Definition MS_NOSUID      : Z := 2.
Definition MS_NODEV       : Z := 4.
Definition MS_NOEXEC      : Z := 8.
Definition MS_SYNCHRONOUS : Z := 16.
Definition MS_REMOUNT     : Z := 32.
Definition MS_MANDLOCK    : Z := 64.
Definition MS_NOATIME     : Z := 1024.
Definition MS_NODIRATIME  : Z := 2048.
Definition MS_BIND        : Z := 4096.
Definition MS_MOVE        : Z := 8192.
Definition MS_RECURSIVE   : Z := 16384.
Definition MS_SILENT      : Z := 32768.
Definition MS_UNBINDABLE  : Z := Z.shiftl 1 17.
Definition MS_PRIVATE     : Z := Z.shiftl 1 18.
Definition MS_SLAVE       : Z := Z.shiftl 1 19.
Definition MS_SHARED      : Z := Z.shiftl 1 20.

(** Not real flags, but we want to be able to check for this. *)
Definition MOUNT_NOAUTO : Z := Z.shiftl 1 29.
Definition MOUNT_SWAP   : Z := Z.shiftl 1 30.

(** Modelled from the spec: the errno values come from <errno.h>, which
    lies outside util-linux/mount.c; the spec names them as error classes
    (operation not permitted, access denied, busy, read-only filesystem).
    The values are those of Linux. *)
Definition EPERM  : Z := 1.
Definition EACCES : Z := 13.
Definition EBUSY  : Z := 16.
Definition EROFS  : Z := 30.

(** Modelled from the spec: the message constants and the path of the
    legacy mount table live in libbb/messages.c, outside
    util-linux/mount.c; the spec calls the first one the "are you root?"
    diagnostic. *)
Definition bb_msg_perm_denied_are_you_root : string :=
  "permission denied. (are you root?)".
Definition bb_path_mtab_file : string := "/etc/mtab".

(** ** Build configuration *)

(** The ENABLE_FEATURE_x / USE_FEATURE_x(...) switches the file consults. *)
Record config : Type := Config {
  FEATURE_MOUNT_LOOP   : bool;
  FEATURE_MOUNT_FSTAB  : bool;
  FEATURE_MOUNT_FLAGS  : bool;
  FEATURE_MOUNT_CIFS   : bool;
  FEATURE_MOUNT_NFS    : bool;
  FEATURE_MTAB_SUPPORT : bool;
  FEATURE_CLEAN_UP     : bool
}.

(** Everything switched on. *)
Definition full_config : config := Config true true true true true true true.

(** ** The option table *)

(** One row of [mount_options]: a name and a [long] of flags.
    MS_FLAGS set a bit, ~MS_FLAGS disable that bit, 0 flags are NOPs. *)
Definition mount_option : Type := (string * Z)%type.

Definition USE (feature : bool) (rows : list mount_option) : list mount_option :=
  if feature then rows else [].

Definition mount_options (cfg : config) : list mount_option :=
  (USE (FEATURE_MOUNT_LOOP cfg)
    [ ("loop", 0) ]
  ++
  USE (FEATURE_MOUNT_FSTAB cfg)
    [ ("defaults", 0);
      ("quiet", 0);
      ("noauto", MOUNT_NOAUTO);
      ("swap", MOUNT_SWAP) ]
  ++
  USE (FEATURE_MOUNT_FLAGS cfg)
    [ (* vfs flags *)
      ("nosuid", MS_NOSUID);
      ("suid", Z.lnot MS_NOSUID);
      ("dev", Z.lnot MS_NODEV);
      ("nodev", MS_NODEV);
      ("exec", Z.lnot MS_NOEXEC);
      ("noexec", MS_NOEXEC);
      ("sync", MS_SYNCHRONOUS);
      ("async", Z.lnot MS_SYNCHRONOUS);
      ("atime", Z.lnot MS_NOATIME);
      ("noatime", MS_NOATIME);
      ("diratime", Z.lnot MS_NODIRATIME);
      ("nodiratime", MS_NODIRATIME);
      ("loud", Z.lnot MS_SILENT);
      (* action flags *)
      ("bind", MS_BIND);
      ("move", MS_MOVE);
      ("shared", MS_SHARED);
      ("slave", MS_SLAVE);
      ("private", MS_PRIVATE);
      ("unbindable", MS_UNBINDABLE);
      ("rshared", Z.lor MS_SHARED MS_RECURSIVE);
      ("rslave", Z.lor MS_SLAVE MS_RECURSIVE);
      ("rprivate", Z.lor MS_SLAVE MS_RECURSIVE);
      ("runbindable", Z.lor MS_UNBINDABLE MS_RECURSIVE) ]
  ++
  (* Always understood. *)
  [ ("ro", MS_RDONLY);
    ("rw", Z.lnot MS_RDONLY);
    ("remount", MS_REMOUNT) ])%list.

(** ** C strings *)

(** A character buffer in memory; a C string is the run of characters from
    an offset up to the first NUL. *)
Definition buffer : Type := list ascii.

Definition NUL : ascii := "000"%char.

Definition is_nul (c : ascii) : bool := Ascii.eqb c NUL.

(** The bytes of a character array initialised from a string literal. *)
Definition chars (s : string) : buffer := list_ascii_of_string s.

(** The array holding [s] with its terminator. *)
Definition c_array (s : string) : buffer := (chars s ++ [NUL])%list.

(** The C string that starts at the head of [l]. *)
Fixpoint until_nul (l : buffer) : list ascii :=
  match l with
  | [] => []
  | c :: l' => if is_nul c then [] else c :: until_nul l'
  end.

(** The C string a pointer [p] into [mem] designates. *)
Definition c_str (mem : buffer) (p : nat) : string :=
  string_of_list_ascii (until_nul (skipn p mem)).

(** [mem[i] = c]. *)
Definition store (mem : buffer) (i : nat) (c : ascii) : buffer :=
  (firstn i mem ++ c :: skipn (S i) mem)%list.

(** [strchr(mem + p, c)] for a character [c] other than NUL: the offset of
    the first [c] in the string at [p], [None] for a null pointer. *)
Fixpoint strchr_from (l : buffer) (c : ascii) (p : nat) : option nat :=
  match l with
  | [] => None
  | x :: l' =>
      if Ascii.eqb x c then Some p
      else if is_nul x then None
      else strchr_from l' c (S p)
  end.

Definition strchr (mem : buffer) (p : nat) (c : ascii) : option nat :=
  strchr_from (skipn p mem) c p.

(** [tolower] in the C locale, on character codes. *)
Definition tolower (c : ascii) : ascii :=
  let n := nat_of_ascii c in
  if (65 <=? n)%nat && (n <=? 90)%nat then ascii_of_nat (n + 32) else c.

(** [strcasecmp]: the difference of the first pair of characters that
    differ after [tolower], the end of a string counting as 0. *)
Fixpoint strcasecmp (a b : string) : Z :=
  match a, b with
  | EmptyString, EmptyString => 0
  | EmptyString, String y _ => 0 - Z.of_nat (nat_of_ascii (tolower y))
  | String x _, EmptyString => Z.of_nat (nat_of_ascii (tolower x))
  | String x a', String y b' =>
      if Ascii.eqb (tolower x) (tolower y) then strcasecmp a' b'
      else Z.of_nat (nat_of_ascii (tolower x)) - Z.of_nat (nat_of_ascii (tolower y))
  end.

(** [strcmp], likewise. *)
Fixpoint strcmp (a b : string) : Z :=
  match a, b with
  | EmptyString, EmptyString => 0
  | EmptyString, String y _ => 0 - Z.of_nat (nat_of_ascii y)
  | String x _, EmptyString => Z.of_nat (nat_of_ascii x)
  | String x a', String y b' =>
      if Ascii.eqb x y then strcmp a' b'
      else Z.of_nat (nat_of_ascii x) - Z.of_nat (nat_of_ascii y)
  end.

(** [isspace] in the C locale: space, \t, \n, \v, \f, \r. *)
Definition isspace (c : ascii) : bool :=
  let n := nat_of_ascii c in
  (n =? 32)%nat || ((9 <=? n)%nat && (n <=? 13)%nat).

(** ** Option strings *)

(** A [char *] that may be null. *)
Definition cptr : Type := option string.

(** Append mount options to string.  The result is what [*oldopts] holds
    afterwards, which is never null. *)
Definition append_mount_options (oldopts : cptr) (newopts : string) : string :=
  match oldopts with
  | Some old =>
      if (0 <? String.length old)%nat then (old ++ "," ++ newopts)%string
      else newopts
  | None => newopts
  end.

(** The inner [for] of [parse_mount_options]: the index of the first row
    whose name equals [tok] up to case, together with its flags; when no
    row matches, the index is the number of rows. *)
Fixpoint find_option (rows : list mount_option) (tok : string) (i : nat)
  : nat * option Z :=
  match rows with
  | [] => (i, None)
  | (name, fl) :: rows' =>
      if strcasecmp name tok =? 0 then (i, Some fl)
      else find_option rows' tok (S i)
  end.

(** One turn of the outer loop on the token [tok]: the new [flags] and the
    new contents of [*unrecognized].  [unrecognized] is [None] for a null
    collector, [Some p] for a collector that holds the pointer [p]. *)
Definition parse_token (cfg : config) (tok : string)
    (flags : Z) (unrecognized : option cptr) : Z * option cptr :=
  let '(i, found) := find_option (mount_options cfg) tok 0 in
  let flags' :=
    match found with
    | Some fl => if fl <? 0 then sint32 (Z.land flags fl)
                 else sint32 (Z.lor flags fl)
    | None => flags
    end in
  let unrecognized' :=
    match unrecognized with
    | Some p =>
        if (i =? List.length (mount_options cfg))%nat then
          (* Comma separated if it's not the first one *)
          let old := match p with Some s => s | None => "" end in
          if (0 <? String.length old)%nat then Some (Some (old ++ "," ++ tok)%string)
          else Some (Some tok)
        else unrecognized
    | None => None
    end in
  (flags', unrecognized').

(** The outer loop of [parse_mount_options] over the buffer [mem] that
    holds the option string at offset [options].  Each turn overwrites the
    next comma with NUL, looks the token up, writes the comma back and
    moves past it.  The result carries the buffer as the loop leaves it. *)
Fixpoint parse_loop (cfg : config) (fuel : nat) (mem : buffer) (options : nat)
    (flags : Z) (unrecognized : option cptr)
  : option (Z * option cptr * buffer) :=
  match fuel with
  | O => None
  | S fuel' =>
      let comma := strchr mem options ","%char in
      let mem1 := match comma with Some c => store mem c NUL | None => mem end in
      let '(flags', unrecognized') :=
        parse_token cfg (c_str mem1 options) flags unrecognized in
      match comma with
      | Some c =>
          parse_loop cfg fuel' (store mem1 c ","%char) (S c) flags' unrecognized'
      | None => Some (flags', unrecognized', mem1)
      end
  end.

(** Use the mount_options list to parse options into flags.
    Also return list of unrecognized options if unrecognized!=NULL.
    Every turn of the loop moves [options] forward, so the length of the
    buffer bounds the number of turns. *)
Definition parse_mount_options (cfg : config) (mem : buffer) (options : nat)
    (unrecognized : option cptr) : option (Z * option cptr * buffer) :=
  parse_loop cfg (S (List.length mem)) mem options MS_SILENT unrecognized.

(** ** The list of block device backed filesystems *)

(** [strncmp(a, b, n)]. *)
Fixpoint strncmp (a b : string) (n : nat) : Z :=
  match n with
  | O => 0
  | S n' =>
      match a, b with
      | EmptyString, EmptyString => 0
      | EmptyString, String y _ => 0 - Z.of_nat (nat_of_ascii y)
      | String x _, EmptyString => Z.of_nat (nat_of_ascii x)
      | String x a', String y b' =>
          if Ascii.eqb x y then strncmp a' b' n'
          else Z.of_nat (nat_of_ascii x) - Z.of_nat (nat_of_ascii y)
      end
  end.

(** [s[i]], the terminator included. *)
Definition char_at (s : string) (i : nat) : ascii :=
  match String.get i s with Some c => c | None => NUL end.

(** [while(isspace( *fs)) fs++]. *)
Fixpoint skip_spaces (fs : string) : string :=
  match fs with
  | EmptyString => EmptyString
  | String c fs' => if isspace c then skip_spaces fs' else fs
  end.

(** Modelled from the spec: [bb_get_chomped_line_from_file] belongs to
    libbb, outside util-linux/mount.c.  Called again and
    again on a file it yields the lines of the file, each without its
    newline, and a null pointer at the end of the file. *)
Fixpoint chomped_lines (contents : string) : list string :=
  match contents with
  | EmptyString => []
  | String c rest =>
      if Ascii.eqb c "010"%char then EmptyString :: chomped_lines rest
      else match chomped_lines rest with
           | [] => [String c EmptyString]
           | line :: lines => String c line :: lines
           end
  end.

(** The body of the inner [for] of [get_block_backed_filesystems] over the
    lines still to come; [lst] is the list built so far. *)
Fixpoint add_filesystems (lines : list string) (lst : list string) : list string :=
  match lines with
  | [] => lst
  | buf :: lines' =>
      if (strncmp buf "nodev" 5 =? 0) && isspace (char_at buf 5)
      then add_filesystems lines' lst
      else
        let fs := skip_spaces buf in
        if Ascii.eqb (char_at fs 0) "#"%char || Ascii.eqb (char_at fs 0) "*"%char
        then add_filesystems lines' lst
        else if is_nul (char_at fs 0) then add_filesystems lines' lst
        else add_filesystems lines' (lst ++ [fs])  (* llist_add_to_end *)
  end.

(** ** The world outside *)

Inductive file_kind : Type := S_IFREG | S_IFDIR | S_IFOTHER.

(** struct mntent, with the four fields the file uses. *)
Record mntent : Type := Mntent {
  mnt_fsname : string;
  mnt_dir    : string;
  mnt_type   : cptr;
  mnt_opts   : string
}.

Definition set_fsname (mp : mntent) (v : string) : mntent :=
  Mntent v (mnt_dir mp) (mnt_type mp) (mnt_opts mp).
Definition set_dir (mp : mntent) (v : string) : mntent :=
  Mntent (mnt_fsname mp) v (mnt_type mp) (mnt_opts mp).
Definition set_type (mp : mntent) (v : cptr) : mntent :=
  Mntent (mnt_fsname mp) (mnt_dir mp) v (mnt_opts mp).
Definition set_opts (mp : mntent) (v : string) : mntent :=
  Mntent (mnt_fsname mp) (mnt_dir mp) (mnt_type mp) v.

(** A line of a mount table as [getmntent_r] hands it over: all four
    strings are there. *)
Record fstab_entry : Type := FstabEntry {
  fs_spec    : string;
  fs_file    : string;
  fs_vfstype : string;
  fs_mntops  : string
}.

Definition mntent_of_entry (e : fstab_entry) : mntent :=
  Mntent (fs_spec e) (fs_file e) (Some (fs_vfstype e)) (fs_mntops e).

(** What the file asks of the kernel, the C library and the rest of
    busybox.  [W] is the state of that world; every call may change it.
    [errno] reads the error number the last failing call left there. *)
Class Collaborators (W : Type) : Type := {
  errno : W -> Z;
  (** mount(2): source, target, type, flags, data *)
  mount : cptr -> cptr -> cptr -> Z -> cptr -> W -> Z * W;
  (** lstat(2): the kind of file when it returns 0 *)
  lstat : string -> W -> option file_kind * W;
  (** the four bytes of [h_addr], as [char]s, when the host resolves *)
  gethostbyname : string -> W -> option (Z * Z * Z * Z) * W;
  nfsmount : mntent -> Z -> cptr -> W -> Z * W;
  (** set_loop(&device, file, 0) with a null device: the result and the
      device it stored *)
  set_loop : string -> W -> Z * string * W;
  del_loop : string -> W -> W;
  bb_simplify_path : string -> W -> string;
  (** fopen(path, "r"): the contents of the file when it opens *)
  fopen : string -> W -> option string * W;
  (** setmntent(path, mode): the entries [getmntent_r] will deliver when
      the table opens *)
  setmntent : string -> string -> W -> option (list fstab_entry) * W
}.

(** What a run leaves behind, in the order it happened. *)
Inductive event : Type :=
| EvMount (source target fstype : cptr) (flags : Z) (data : cptr)
| EvNfsmount (mp : mntent) (flags : Z) (data : cptr)
| EvSetLoop (file : string)
| EvDelLoop (device : string)
| EvFopen (path : string)
| EvSetmntent (path mode : string)
| EvAddmntent (mp : mntent)
| EvEndmntent
| EvErrorMsg (msg : string)
| EvPrintf (line : string).

(** The state of the process: the world, the globals of the file and the
    events so far. *)
Record state (W : Type) : Type := State {
  world   : W;
  fslist  : list string;
  useMtab : bool;
  fakeIt  : bool;
  trace   : list event
}.
Arguments State {W}.
Arguments world {W}.
Arguments fslist {W}.
Arguments useMtab {W}.
Arguments fakeIt {W}.
Arguments trace {W}.

(** A call returns, or ends the process ([bb_error_msg_and_die]), or a loop
    modelled with fuel has none left. *)
Inductive outcome (A : Type) : Type :=
| Ret (a : A)
| Die (msg : string)
| OutOfFuel.
Arguments Ret {A}.
Arguments Die {A}.
Arguments OutOfFuel {A}.

Definition M (W A : Type) : Type := state W -> outcome A * state W.

Definition ret {W A} (a : A) : M W A := fun s => (Ret a, s).

Definition bind {W A B} (m : M W A) (k : A -> M W B) : M W B :=
  fun s =>
    match m s with
    | (Ret a, s') => k a s'
    | (Die msg, s') => (Die msg, s')
    | (OutOfFuel, s') => (OutOfFuel, s')
    end.

Declare Scope mount_scope.
Delimit Scope mount_scope with mount.
Notation "x <- m ;; k" := (bind m (fun x => k))
  (at level 61, m at next level, right associativity) : mount_scope.
Notation "' p <- m ;; k" := (bind m (fun x => match x with p => k end))
  (at level 61, p pattern, m at next level, right associativity) : mount_scope.
Notation "m ;;; k" := (bind m (fun _ => k))
  (at level 61, right associativity) : mount_scope.
Local Open Scope mount_scope.

(** ** More of the C library, on strings *)

(** [strlen], as a C integer. *)
Definition strlen (s : string) : nat := String.length s.

(** The string that starts [i] characters into [s]. *)
Definition str_from (s : string) (i : nat) : string :=
  substring i (String.length s - i) s.

(** The index of the first [c] in [s], as [strchr] finds it. *)
Fixpoint str_index (s : string) (c : ascii) (i : nat) : option nat :=
  match s with
  | EmptyString => None
  | String x s' => if Ascii.eqb x c then Some i else str_index s' c (S i)
  end.

(** The index of the last [c] in [s], as [strrchr] finds it. *)
Fixpoint str_rindex (s : string) (c : ascii) (i : nat) : option nat :=
  match s with
  | EmptyString => None
  | String x s' =>
      match str_rindex s' c (S i) with
      | Some j => Some j
      | None => if Ascii.eqb x c then Some i else None
      end
  end.

(** [for (s = ...; *s; ++s) if ( *s == '/') *s = '\\';] *)
Fixpoint slashes_to_backslashes (s : string) : string :=
  match s with
  | EmptyString => EmptyString
  | String x s' =>
      String (if Ascii.eqb x "/"%char then "\"%char else x)
             (slashes_to_backslashes s')
  end.

(** What printf's %d prints. *)
Definition percent_d (z : Z) : string := NilZero.string_of_int (Z.to_int z).

(** The walk over [mount_options] that adds the vfs string flags to
    [mnt_opts] before the mtab entry is written: it stops at the row whose
    flags are MS_REMOUNT. *)
Fixpoint add_vfs_string_flags (rows : list mount_option) (opts : string) : string :=
  match rows with
  | [] => opts
  | (name, fl) :: rows' =>
      if fl =? MS_REMOUNT then opts
      else add_vfs_string_flags rows'
             (if 0 <? fl then append_mount_options (Some opts) name else opts)
  end.

(** Remove trailing / (if any) from directory we mounted on. *)
Definition remove_trailing_slash (dir : string) : string :=
  let i := strlen dir in
  if (1 <? i)%nat && Ascii.eqb (char_at dir (i - 1)) "/"%char
  then substring 0 (i - 1) dir
  else dir.

(** [!p || !*p] *)
Definition null_or_empty (p : cptr) : bool :=
  match p with
  | None => true
  | Some s => is_nul (char_at s 0)
  end.

(** [p && !strcmp(p, s)] *)
Definition is_str (p : cptr) (s : string) : bool :=
  match p with
  | None => false
  | Some t => strcmp t s =? 0
  end.

(** ** The program *)

Section Program.

Context {W : Type} {K : Collaborators W}.
Variable cfg : config.

Definition with_world (s : state W) (w : W) : state W :=
  State w (fslist s) (useMtab s) (fakeIt s) (trace s).

Definition with_fslist (s : state W) (l : list string) : state W :=
  State (world s) l (useMtab s) (fakeIt s) (trace s).

Definition emit (e : event) : M W unit :=
  fun s => (Ret tt, State (world s) (fslist s) (useMtab s) (fakeIt s) (trace s ++ [e])).

Definition call {A : Type} (f : W -> A * W) : M W A :=
  fun s => let '(a, w) := f (world s) in (Ret a, with_world s w).

Definition get_errno : M W Z := fun s => (Ret (errno (world s)), s).

Definition get {A : Type} (f : state W -> A) : M W A := fun s => (Ret (f s), s).

Definition bb_error_msg (msg : string) : M W unit := emit (EvErrorMsg msg).

Definition bb_error_msg_and_die {A : Type} (msg : string) : M W A :=
  fun s => (Die msg, s).

Definition lift_fuel {A : Type} (o : option A) : M W A :=
  match o with
  | Some a => ret a
  | None => fun s => (OutOfFuel, s)
  end.

(** [parse_mount_options] on a string held in an array of its own. *)
Definition parse_options_of (opts : string) (unrecognized : option cptr)
  : M W (Z * option cptr) :=
  '(flags, unrec, _) <- lift_fuel (parse_mount_options cfg (c_array opts) 0 unrecognized) ;;
  ret (flags, unrec).

(** The two sources of [get_block_backed_filesystems], in order. *)
Definition filesystems : list string := ["/etc/filesystems"; "/proc/filesystems"].

Fixpoint read_filesystems (files : list string) (lst : list string) : M W (list string) :=
  match files with
  | [] => ret lst
  | path :: files' =>
      emit (EvFopen path) ;;;
      f <- call (fopen path) ;;
      match f with
      | None => read_filesystems files' lst
      | Some contents =>
          read_filesystems files' (add_filesystems (chomped_lines contents) lst)
      end
  end.

(** Return a list of all block device backed filesystems. *)
Definition get_block_backed_filesystems : M W (list string) :=
  read_filesystems filesystems [].

(** The [for(;;)] of [mount_it_now]: mount, with fallback to read-only if
    necessary.  Returns [rc] and the flags of the last attempt. *)
Fixpoint mount_loop (fuel : nat) (mp : mntent) (vfsflags : Z) (filteropts : cptr)
  : M W (Z * Z) :=
  match fuel with
  | O => fun s => (OutOfFuel, s)
  | S fuel' =>
      emit (EvMount (Some (mnt_fsname mp)) (Some (mnt_dir mp)) (mnt_type mp)
                    vfsflags filteropts) ;;;
      rc <- call (mount (Some (mnt_fsname mp)) (Some (mnt_dir mp)) (mnt_type mp)
                        vfsflags filteropts) ;;
      e <- get_errno ;;
      if (rc =? 0) || negb (Z.land vfsflags MS_RDONLY =? 0)
         || (negb (e =? EACCES) && negb (e =? EROFS))
      then ret (rc, vfsflags)
      else
        bb_error_msg (mnt_fsname mp ++ " is write-protected, mounting read-only") ;;;
        mount_loop fuel' mp (Z.lor vfsflags MS_RDONLY) filteropts
  end.

(** [useMtab] and [fakeIt] are variables with mtab support and the
    constant 0 without. *)
Definition get_useMtab : M W bool :=
  get (fun s => FEATURE_MTAB_SUPPORT cfg && useMtab s).
Definition get_fakeIt : M W bool :=
  get (fun s => FEATURE_MTAB_SUPPORT cfg && fakeIt s).

(** Perform actual mount of specific filesystem at specific location.
    The result is [rc] and [*mp] as the call leaves it. *)
Definition mount_it_now (mp : mntent) (vfsflags : Z) (filteropts : cptr)
  : M W (Z * mntent) :=
  fake <- get_fakeIt ;;
  if fake then ret (0, mp) else
  (* Mount, with fallback to read-only if necessary. *)
  '(rc, _) <- mount_loop 2 mp vfsflags filteropts ;;
  (* Abort entirely if permission denied. *)
  e <- get_errno ;;
  if negb (rc =? 0) && (e =? EPERM)
  then bb_error_msg_and_die bb_msg_perm_denied_are_you_root
  else
  (* If the mount was successful, and we're maintaining an old-style
     mtab file by hand, add the new entry to it now. *)
  mtab <- get_useMtab ;;
  if mtab && (rc =? 0) then
    emit (EvSetmntent bb_path_mtab_file "a+") ;;;
    mountTable <- call (setmntent bb_path_mtab_file "a+") ;;
    match mountTable with
    | None => bb_error_msg ("no " ++ bb_path_mtab_file)
    | Some _ => ret tt
    end ;;;
    (* Add vfs string flags *)
    let mp := set_opts mp (add_vfs_string_flags (mount_options cfg) (mnt_opts mp)) in
    (* Remove trailing / (if any) from directory we mounted on *)
    let mp := set_dir mp (remove_trailing_slash (mnt_dir mp)) in
    (* Write and close.  The call of addmntent is commented out. *)
    let mp := if null_or_empty (mnt_type mp) then set_type mp (Some "--bind") else mp in
    emit EvEndmntent ;;;
    let mp := if FEATURE_CLEAN_UP cfg && negb (is_str (mnt_type mp) "--bind")
              then set_type mp None else mp in
    ret (rc, mp)
  else ret (rc, mp).

(** The tail of [singlemount] from the label [report_error] on. *)
Definition report_error (mp : mntent) (ignore_busy : bool) (rc : Z)
  : M W (Z * mntent) :=
  e <- get_errno ;;
  let rc := if negb (rc =? 0) && (e =? EBUSY) && ignore_busy then 0 else rc in
  (if rc <? 0
   then bb_error_msg ("mounting " ++ mnt_fsname mp ++ " on " ++ mnt_dir mp ++ " failed")
   else ret tt) ;;;
  ret (rc, mp).

(** Loop through filesystem types until mount succeeds or we run out. *)
Fixpoint try_filesystems (fl : list string) (mp : mntent) (vfsflags : Z)
    (filteropts : cptr) (rc : Z) : M W (Z * mntent) :=
  match fl with
  | [] => ret (rc, mp)
  | data :: link =>
      '(rc, mp) <- mount_it_now (set_type mp (Some data)) vfsflags filteropts ;;
      if rc =? 0 then ret (rc, mp)
      else try_filesystems link (set_type mp None) vfsflags filteropts rc
  end.

(** Might this be an CIFS filesystem? *)
Definition looks_like_cifs (mp : mntent) : bool :=
  FEATURE_MOUNT_CIFS cfg
  && (negb (match mnt_type mp with Some _ => true | None => false end)
      || is_str (mnt_type mp) "cifs")
  && (Ascii.eqb (char_at (mnt_fsname mp) 0) (char_at (mnt_fsname mp) 1)
      && (Ascii.eqb (char_at (mnt_fsname mp) 0) "/"%char
          || Ascii.eqb (char_at (mnt_fsname mp) 0) "\"%char)).

(** Might this be an NFS filesystem? *)
Definition looks_like_nfs (mp : mntent) : bool :=
  FEATURE_MOUNT_NFS cfg
  && (negb (match mnt_type mp with Some _ => true | None => false end)
      || is_str (mnt_type mp) "nfs")
  && match str_index (mnt_fsname mp) ":"%char 0 with Some _ => true | None => false end.

(** The CIFS branch of [singlemount]; its result goes to [report_error]. *)
Definition mount_cifs (mp : mntent) (vfsflags : Z) (filteropts : cptr)
  : M W (Z * mntent) :=
  (* Replace '/' with '\' and verify that unc points to "//server/share". *)
  let mp := set_fsname mp (slashes_to_backslashes (mnt_fsname mp)) in
  (* get server IP *)
  match str_rindex (mnt_fsname mp) "\"%char 0 with
  | None => ret (1, mp)
  | Some s =>
      if (s =? 1)%nat then ret (1, mp) else
      he <- call (gethostbyname (substring 2 (s - 2) (mnt_fsname mp))) ;;
      match he with
      | None => ret (1, mp)
      | Some (a0, a1, a2, a3) =>
          (* Insert ip=... option into string flags. *)
          let ip := ("ip=" ++ percent_d a0 ++ "." ++ percent_d a1 ++ "."
                     ++ percent_d a2 ++ "." ++ percent_d a3)%string in
          '(_, unrec) <- parse_options_of ip (Some filteropts) ;;
          let filteropts := match unrec with Some p => p | None => filteropts end in
          (* compose new unc '\\server-ip\share' *)
          let share :=
            match str_index (str_from (mnt_fsname mp) 2) "\"%char 2 with
            | Some i => str_from (mnt_fsname mp) i
            | None => "(null)"  (* not reached: the last '\' is at 2 or later *)
            end in
          let mp := set_fsname mp ("\\" ++ str_from ip 3 ++ share) in
          (* lock is required *)
          let vfsflags := Z.lor vfsflags MS_MANDLOCK in
          let mp := set_type mp (Some "cifs") in
          mount_it_now mp vfsflags filteropts
      end
  end.

(** Mount one directory.  Handles CIFS, NFS, loopback, autobind, and
    filesystem type detection.  Returns 0 for success, nonzero for failure;
    the second component is [*mp] as the call leaves it. *)
Definition singlemount (mp : mntent) (ignore_busy : bool) : M W (Z * mntent) :=
  '(vfsflags, unrec) <- parse_options_of (mnt_opts mp) (Some None) ;;
  let filteropts : cptr := match unrec with Some p => p | None => None end in
  (* Treat fstype "auto" as unspecified. *)
  let mp := if is_str (mnt_type mp) "auto" then set_type mp None else mp in
  if looks_like_cifs mp then
    '(rc, mp) <- mount_cifs mp vfsflags filteropts ;;
    report_error mp ignore_busy rc
  else if looks_like_nfs mp then
    emit (EvNfsmount mp vfsflags filteropts) ;;;
    rc <- call (nfsmount mp vfsflags filteropts) ;;
    report_error mp ignore_busy rc
  else
    (* Look at the file.  (Not found isn't a failure for remount, or for
       a synthetic filesystem like proc or sysfs.) *)
    st <- call (lstat (mnt_fsname mp)) ;;
    let action := Z.lor MS_REMOUNT (Z.lor MS_BIND MS_MOVE) in
    let examine : M W (Z * mntent * option string + Z * mntent) :=
      match st with
      | Some kind =>
          if Z.land vfsflags action =? 0 then
            match kind with
            | S_IFREG =>
                if FEATURE_MOUNT_LOOP cfg then
                  (* Do we need to allocate a loopback device for it? *)
                  loopFile <- get (fun s => bb_simplify_path (mnt_fsname mp) (world s)) ;;
                  emit (EvSetLoop loopFile) ;;;
                  '(r, device) <- call (set_loop loopFile) ;;
                  if (r =? 0) || (r =? 1)
                  then ret (inl (vfsflags, set_fsname mp device, Some loopFile))
                  else
                    e <- get_errno ;;
                    bb_error_msg (if (e =? EPERM) || (e =? EACCES)
                                  then bb_msg_perm_denied_are_you_root
                                  else "cannot setup loop device") ;;;
                    ret (inr (e, set_fsname mp device))
                else ret (inl (vfsflags, mp, None))
            | S_IFDIR =>
                (* Autodetect bind mounts *)
                match mnt_type mp with
                | None => ret (inl (Z.lor vfsflags MS_BIND, mp, None))
                | Some _ => ret (inl (vfsflags, mp, None))
                end
            | S_IFOTHER => ret (inl (vfsflags, mp, None))
            end
          else ret (inl (vfsflags, mp, None))
      | None => ret (inl (vfsflags, mp, None))
      end in
    x <- examine ;;
    match x with
    | inr (e, mp) => ret (e, mp)  (* return errno; *)
    | inl (vfsflags, mp, loopFile) =>
        '(rc, mp) <-
          (* If we know the fstype (or don't need to), jump straight
             to the actual mount. *)
          (if match mnt_type mp with Some _ => true | None => false end
              || negb (Z.land vfsflags action =? 0)
           then mount_it_now mp vfsflags filteropts
           else
             (* Initialize list of block backed filesystems. *)
             fl <- get fslist ;;
             (match fl with
              | [] =>
                  l <- get_block_backed_filesystems ;;
                  fun s => (Ret tt, with_fslist s l)
              | _ :: _ => ret tt
              end) ;;;
             fl <- get fslist ;;
             try_filesystems fl mp vfsflags filteropts (-1)) ;;
        (* If mount failed, clean up loop file (if any). *)
        (match loopFile with
         | Some _ =>
             if FEATURE_MOUNT_LOOP cfg && negb (rc =? 0)
             then emit (EvDelLoop (mnt_fsname mp)) ;;; 
                  call (fun w => (tt, del_loop (mnt_fsname mp) w))
             else ret tt
         | None => ret tt
         end) ;;;
        report_error mp ignore_busy rc
    end.

(** ** mount_main, from the end of option parsing on *)

(** What the option loops of [mount_main] leave: the merged -o string, the
    -t type, the -a flag and the operands [argv[optind]] to [argv[argc-1]]. *)
Record invocation : Type := Invocation {
  cmdopts  : string;
  fstype   : cptr;
  all      : bool;
  operands : list string
}.

(** One of the two slots of [mtpair]; [None] is the slot as [memset] left
    it, with a null [mnt_fsname]. *)
Definition slot : Type := option mntent.

(** [mtpair] with the slot [mtcur] points to overwritten: [mtcur] is
    [false] when it points to [mtpair[0]]. *)
Definition write_slot (mtpair : slot * slot) (mtcur : bool) (m : mntent)
  : slot * slot :=
  if mtcur then (fst mtpair, Some m) else (Some m, snd mtpair).

Definition read_slot (mtpair : slot * slot) (mt : bool) : slot :=
  if mt then snd mtpair else fst mtpair.

(** Is this what we're looking for? *)
Definition is_what_we_look_for (arg storage_path : string) (m : mntent) : bool :=
  negb (negb (strcmp arg (mnt_fsname m) =? 0)
        && negb (strcmp storage_path (mnt_fsname m) =? 0)
        && negb (strcmp arg (mnt_dir m) =? 0)
        && negb (strcmp storage_path (mnt_dir m) =? 0)).

(** The loop through the entries of the table.  [entries] are the entries
    [getmntent_r] has yet to deliver; [target] is [argv[optind]] when there
    is one.

    Strings are values here, not pointers.  A targeted mount works on a
    copy of the record's options ([xstrdup]), but a "mount all" turn hands
    [singlemount] the record as [getmntent_r] left it in
    [bb_common_bufsiz1]: when [mount_it_now] goes on to append to
    [mnt_opts], which it does after a successful mount with the legacy
    mount table maintained, the source passes a pointer into that static
    buffer to [free].  The "mount all" branch stands for the source on the
    runs that do not get there: those with the legacy table not
    maintained, and those in which no mount succeeds. *)
Fixpoint scan_table (inv : invocation) (fstabname : string) (target : cptr)
    (storage_path : string) (entries : list fstab_entry)
    (mtpair : slot * slot) (mtcur : bool) (rc : Z) : M W Z :=
  let mtnext := negb mtcur in
  match entries with
  | [] =>
      (* Were we looking for something specific? *)
      match target with
      | Some arg =>
          match read_slot mtpair mtnext with
          | None =>
              (* If we didn't find anything, complain. *)
              bb_error_msg_and_die ("can't find " ++ arg ++ " in " ++ fstabname)
          | Some m =>
              (* Mount the last thing we found. *)
              let m := set_opts m (append_mount_options (Some (mnt_opts m)) (cmdopts inv)) in
              '(rc, _) <- singlemount m false ;;
              ret rc
          end
      | None => ret rc
      end
  | e :: entries' =>
      (* Get next fstab entry *)
      let mtpair := write_slot mtpair mtcur (mntent_of_entry e) in
      let m := mntent_of_entry e in
      match target with
      | Some arg =>
          if is_what_we_look_for arg storage_path m
          then
            (* Remember this entry.  Something later may have overmounted
               it, and we want the _last_ match. *)
            scan_table inv fstabname target storage_path entries' mtpair mtnext rc
          else scan_table inv fstabname target storage_path entries' mtpair mtcur rc
      | None =>
          (* Do we need to match a filesystem type? *)
          if match fstype inv with
             | Some t => negb (strcmp (fs_vfstype e) t =? 0)
             | None => false
             end
          then scan_table inv fstabname target storage_path entries' mtpair mtcur rc
          else
            (* Skip noauto and swap anyway. *)
            '(fl, _) <- parse_options_of (mnt_opts m) None ;;
            if negb (Z.land fl (Z.lor MOUNT_NOAUTO MOUNT_SWAP) =? 0)
            then scan_table inv fstabname target storage_path entries' mtpair mtcur rc
            else
              (* Mount this thing. *)
              '(r, m') <- singlemount m true ;;
              (* Count number of failed mounts *)
              let rc := if negb (r =? 0) then sint32 (rc + 1) else rc in
              scan_table inv fstabname target storage_path entries'
                         (write_slot mtpair mtcur m') mtcur rc
      end
  end.

(** If we have no arguments, show currently mounted filesystems. *)
Fixpoint show_mounted (inv : invocation) (entries : list fstab_entry) : M W unit :=
  match entries with
  | [] => ret tt
  | e :: entries' =>
      (if strcmp (fs_spec e) "rootfs" =? 0 then ret tt  (* Don't show rootfs. *)
       else if match fstype inv with
               | Some t => strcmp (fs_vfstype e) t =? 0
               | None => true
               end
       then emit (EvPrintf (fs_spec e ++ " on " ++ fs_file e ++ " type "
                            ++ fs_vfstype e ++ " (" ++ fs_mntops e ++ ")"))
       else ret tt) ;;;
      show_mounted inv entries'
  end.

(** [mount_main] once the options are parsed.  The test for three or more
    operands compares [optind-argc], which is never positive, with 2, so
    it lets every command line through.  A message that ends the process
    stands without the text [strerror] adds to it.

    The calls of [free] at [clean_up] leave no mark here.  With two
    operands [mnt_opts] is [cmdopts] itself, so that under
    FEATURE_CLEAN_UP the source frees [cmdopts] a second time at
    [clean_up] once [mount_it_now] has appended to it; the two-operand
    branch stands for the source on the other runs. *)
Definition mount_main (inv : invocation) : M W Z :=
  let target : cptr := nth_error (operands inv) 0 in
  match target, all inv with
  | None, false =>
      emit (EvSetmntent bb_path_mtab_file "r") ;;;
      mountTable <- call (setmntent bb_path_mtab_file "r") ;;
      match mountTable with
      | None => bb_error_msg_and_die ("no " ++ bb_path_mtab_file)
      | Some entries =>
          show_mounted inv entries ;;;
          (if FEATURE_CLEAN_UP cfg then emit EvEndmntent else ret tt) ;;;
          ret 0
      end
  | _, _ =>
      storage_path <- get (fun s => match target with
                                    | Some arg => bb_simplify_path arg (world s)
                                    | None => ""
                                    end) ;;
      (* When we have two arguments, the second is the directory and we can
         skip looking at fstab entirely. *)
      match operands inv with
      | [fsname; dir] =>
          '(rc, _) <- singlemount (Mntent fsname dir (fstype inv) (cmdopts inv)) false ;;
          ret rc
      | _ =>
          (* If we have a shared subtree flag, don't worry about fstab or mtab. *)
          '(i, _) <- parse_options_of (cmdopts inv) None ;;
          if FEATURE_MOUNT_FLAGS cfg
             && negb (Z.land i (Z.lor MS_SHARED (Z.lor MS_PRIVATE
                                  (Z.lor MS_SLAVE MS_UNBINDABLE))) =? 0)
          then
            emit (EvMount (Some "") target (Some "") i (Some "")) ;;;
            rc <- call (mount (Some "") target (Some "") i (Some "")) ;;
            if negb (rc =? 0)
            then bb_error_msg_and_die (match target with Some arg => arg | None => "(null)" end)
            else ret rc
          else
            (* Open either fstab or mtab *)
            let fstabname :=
              if negb (Z.land i MS_REMOUNT =? 0) then bb_path_mtab_file
              else "/etc/fstab" in
            emit (EvSetmntent fstabname "r") ;;;
            fstab <- call (setmntent fstabname "r") ;;
            match fstab with
            | None => bb_error_msg_and_die ("cannot read " ++ fstabname)
            | Some entries =>
                (* Loop through entries until we find what we're looking for. *)
                scan_table inv fstabname target storage_path entries
                           (None, None) false 0
            end
      end
  end.

End Program.

(** ** The resolver as the specification words it *)

(** Splits on [,]. *)
Fixpoint split_commas (s : string) : list string :=
  match s with
  | EmptyString => [EmptyString]
  | String c s' =>
      if Ascii.eqb c ","%char then EmptyString :: split_commas s'
      else match split_commas s' with
           | [] => [String c EmptyString]
           | tok :: toks => String c tok :: toks
           end
  end.

Fixpoint lowercase (s : string) : string :=
  match s with
  | EmptyString => EmptyString
  | String c s' => String (tolower c) (lowercase s')
  end.

(** Case-insensitive equality of names. *)
Definition same_name (a b : string) : bool := String.eqb (lowercase a) (lowercase b).

(** Case-insensitive lookup in the Option Table: the mask of the entry
    that matches [tok]. *)
Definition table_lookup (cfg : config) (tok : string) : option Z :=
  option_map snd (find (fun row => same_name (fst row) tok) (mount_options cfg)).

(** A non-negative mask is OR-ed into the accumulator, a negative mask is
    AND-ed with it. *)
Definition apply_mask (acc mask : Z) : Z :=
  if mask <? 0 then Z.land acc mask else Z.lor acc mask.

(** An unmatched token goes to the collector when there is one, behind a
    comma when the collector already holds text. *)
Definition collect (unrecognized : option cptr) (tok : string) : option cptr :=
  match unrecognized with
  | None => None
  | Some None => Some (Some tok)
  | Some (Some old) =>
      if String.eqb old "" then Some (Some tok)
      else Some (Some (old ++ "," ++ tok)%string)
  end.

Definition resolve_token (cfg : config) (acc : Z * option cptr) (tok : string)
  : Z * option cptr :=
  match table_lookup cfg tok with
  | Some mask => (apply_mask (fst acc) mask, snd acc)
  | None => (fst acc, collect (snd acc) tok)
  end.

(** Tokens are processed left to right from the seed MS_SILENT. *)
Definition resolve_from (cfg : config) (s : string) (acc : Z * option cptr)
  : Z * option cptr :=
  fold_left (resolve_token cfg) (split_commas s) acc.

Definition resolve (cfg : config) (s : string) (unrecognized : option cptr)
  : Z * option cptr :=
  resolve_from cfg s (MS_SILENT, unrecognized).

(** The flags alone, with no collector. *)
Definition resolve_flags (cfg : config) (s : string) : Z := fst (resolve cfg s None).

(** No NUL inside: the string is what a C string can hold. *)
Fixpoint nul_free (s : string) : bool :=
  match s with
  | EmptyString => true
  | String c s' => negb (is_nul c) && nul_free s'
  end.

(** A row of the table holds a C string and a mask that fits an [int]. *)
Definition row_ok (row : mount_option) : Prop :=
  nul_free (fst row) = true /\ - 2 ^ 31 <= snd row < 2 ^ 31.

(** The values [flags] takes: non-negative [int]s. *)
Definition int_flags (flags : Z) : Prop := 0 <= flags < 2 ^ 31.

(** The tokens of [s] that match no entry of the table. *)
Definition unmatched_tokens (cfg : config) (s : string) : list string :=
  filter (fun tok => match table_lookup cfg tok with Some _ => false | None => true end)
         (split_commas s).

(** The collector after the tokens [toks] went to it: what it held, when
    that was not empty, and the tokens, with commas in between. *)
Definition joined (old : cptr) (toks : list string) : cptr :=
  match toks with
  | [] => old
  | _ :: _ =>
      Some (String.concat ","
              (match old with
               | Some (String c rest) => [String c rest]
               | _ => []
               end ++ toks))
  end.

(** The bits an option touches: those of the mask it sets, or those of
    the complement it clears. *)
Definition touched_bits (mask : Z) : Z :=
  if mask <? 0 then Z.lnot mask else mask.

(** The text of [s] before its first comma, and the text after it when
    there is one. *)
Fixpoint first_token (s : string) : string :=
  match s with
  | EmptyString => EmptyString
  | String c s' =>
      if Ascii.eqb c ","%char then EmptyString else String c (first_token s')
  end.

Fixpoint after_comma (s : string) : option string :=
  match s with
  | EmptyString => None
  | String c s' => if Ascii.eqb c ","%char then Some s' else after_comma s'
  end.

(** The flags [parse_mount_options] returns for the option string [s] with
    no collector. *)
Definition flags_of (cfg : config) (s : string) : option Z :=
  option_map (fun r => fst (fst r)) (parse_mount_options cfg (c_array s) 0 None).

(** Neither a comma nor a NUL inside: the string is one token. *)
Fixpoint one_token (s : string) : bool :=
  match s with
  | EmptyString => true
  | String c s' => negb (Ascii.eqb c ","%char) && negb (is_nul c) && one_token s'
  end.

(** The option clears a bit that the seed has set. *)
Definition clears_seed (mask : Z) : bool :=
  (mask <? 0) && negb (Z.land (Z.lnot mask) MS_SILENT =? 0).

(** ** The table loops as the specification words them *)

(** The events of a run that are mount attempts. *)
Definition is_mount_attempt (e : event) : bool :=
  match e with
  | EvMount _ _ _ _ _ => true
  | _ => false
  end.

Definition mount_attempts (t : list event) : list event := filter is_mount_attempt t.

(** A record's source or target field equals the requested string either
    literally or in its simplified form. *)
Definition matches_request (arg storage_path : string) (e : fstab_entry) : bool :=
  String.eqb arg (fs_spec e) || String.eqb storage_path (fs_spec e)
  || String.eqb arg (fs_file e) || String.eqb storage_path (fs_file e).

(** The last record in file order that matches. *)
Fixpoint last_match (arg storage_path : string) (entries : list fstab_entry)
  : option fstab_entry :=
  match entries with
  | [] => None
  | e :: entries' =>
      match last_match arg storage_path entries' with
      | Some e' => Some e'
      | None => if matches_request arg storage_path e then Some e else None
      end
  end.

(** All four strings of a record are C strings. *)
Definition entry_nul_free (e : fstab_entry) : bool :=
  nul_free (fs_spec e) && nul_free (fs_file e)
  && nul_free (fs_vfstype e) && nul_free (fs_mntops e).

(** "Mount all" skips a record whose type differs from the requested
    filter type or whose parsed options carry noauto or swap. *)
Definition skipped (cfg : config) (inv : invocation) (e : fstab_entry) : bool :=
  match fstype inv with
  | Some t => negb (strcmp (fs_vfstype e) t =? 0)
  | None => false
  end
  || match flags_of cfg (fs_mntops e) with
     | Some fl => negb (Z.land fl (Z.lor MOUNT_NOAUTO MOUNT_SWAP) =? 0)
     | None => false
     end.

(** Call [singlemount] on every record of [ms] in order, busy tolerated,
    and count the calls that return something other than 0. *)
Fixpoint mount_each {W : Type} {K : Collaborators W} (cfg : config)
    (ms : list mntent) (failed : nat) : M W nat :=
  match ms with
  | [] => ret failed
  | m :: ms' =>
      '(r, _) <- singlemount cfg m true ;;
      mount_each cfg ms' (if r =? 0 then failed else S failed)
  end.

(** The records "mount all" attempts. *)
Definition attempted (cfg : config) (inv : invocation) (entries : list fstab_entry)
  : list mntent :=
  map mntent_of_entry (filter (fun e => negb (skipped cfg inv e)) entries).

(** ** The list of filesystems as the specification words it *)

(** The first five characters are "nodev" and a whitespace character
    follows. *)
Definition nodev_line (line : string) : bool :=
  String.eqb (substring 0 5 line) "nodev" && isspace (char_at line 5).

(** The first character of a line that is not whitespace, when there is
    one. *)
Definition first_non_whitespace (line : string) : option ascii :=
  find (fun c => negb (isspace c)) (list_ascii_of_string line).

(** The first non-whitespace character is # or *. *)
Definition comment_line (line : string) : bool :=
  match first_non_whitespace line with
  | Some c => Ascii.eqb c "#"%char || Ascii.eqb c "*"%char
  | None => false
  end.

(** Nothing but whitespace. *)
Definition blank_line (line : string) : bool :=
  forallb isspace (list_ascii_of_string line).

(** The number of whitespace characters a line starts with. *)
Fixpoint leading_whitespace (line : list ascii) : nat :=
  match line with
  | c :: rest => if isspace c then S (leading_whitespace rest) else O
  | [] => O
  end.

(** The text of a line with its leading whitespace trimmed. *)
Definition trim_leading_whitespace (line : string) : string :=
  string_of_list_ascii
    (skipn (leading_whitespace (list_ascii_of_string line)) (list_ascii_of_string line)).

(** The names one source contributes. *)
Definition block_backed (lines : list string) : list string :=
  map trim_leading_whitespace
      (filter (fun l => negb (nodev_line l) && negb (comment_line l) && negb (blank_line l))
              lines).

Definition block_backed_of_file (f : option string) : list string :=
  match f with
  | Some contents => block_backed (chomped_lines contents)
  | None => []
  end.

(** The file of the specification's example: a nodev line, a comment, a
    name and a blank line. *)
Definition newline : string := String "010"%char EmptyString.

Definition example_filesystems : string :=
  ("nodev proc" ++ newline ++ "# comment" ++ newline ++ "ext4" ++ newline ++ newline)%string.

Definition tab : string := String "009"%char EmptyString.

(** A file with indented lines: an indented name, an indented comment, a
    line of whitespace, an indented *, a line that is nodev alone, and an
    indented nodev line, which does not start with "nodev". *)
Definition indented_filesystems : string :=
  (tab ++ "ext3" ++ newline ++ "  # comment" ++ newline ++ " " ++ tab ++ newline
   ++ " *" ++ newline ++ "nodev" ++ newline ++ "  nodev ramfs" ++ newline)%string.

(** What the kernel lists, a filesystem of the other file among it. *)
Definition proc_filesystems : string :=
  ("nodev" ++ tab ++ "sysfs" ++ newline ++ tab ++ "ext3" ++ newline
   ++ tab ++ "vfat" ++ newline)%string.

(** ** A small world to run the program in *)

Module Sim.

(** The next results of mount(2), each a return value and the error number
    a failure leaves; the directories, the readable files and the mount
    tables there are. *)
Record kernel : Type := Kernel {
  err     : Z;
  mounts  : list (Z * Z);
  dirs    : list string;
  files   : list (string * string);
  tables  : list (string * list fstab_entry)
}.

Fixpoint lookup {A : Type} (key : string) (l : list (string * A)) : option A :=
  match l with
  | [] => None
  | (k, v) :: l' => if String.eqb k key then Some v else lookup key l'
  end.

Definition do_mount (w : kernel) : Z * kernel :=
  match mounts w with
  | [] => (0, w)
  | (rc, e) :: rest =>
      (rc, Kernel (if rc =? 0 then err w else e) rest (dirs w) (files w) (tables w))
  end.

#[global] Instance collaborators : Collaborators kernel := {|
  errno := err;
  mount := fun _ _ _ _ _ w => do_mount w;
  lstat := fun path w =>
    (if existsb (String.eqb path) (dirs w) then Some S_IFDIR else None, w);
  gethostbyname := fun _ w => (None, w);
  nfsmount := fun _ _ _ w => (0, w);
  set_loop := fun _ w => (0, "/dev/loop0", w);
  del_loop := fun _ w => w;
  bb_simplify_path := fun path _ => path;
  fopen := fun path w => (lookup path (files w), w);
  setmntent := fun path _ w => (lookup path (tables w), w)
|}.

(** A process that has done nothing yet, with mtab support as [mtab]
    says. *)
Definition start (mtab : bool) (w : kernel) : state kernel :=
  State w [] mtab false [].

(** Two records for /mnt, from /dev/A and then from /dev/B. *)
Definition fstab_mnt_twice : list fstab_entry :=
  [ FstabEntry "/dev/A" "/mnt" "ext2" "defaults";
    FstabEntry "/dev/B" "/mnt" "ext2" "defaults" ].

(** Three records, the first of them noauto. *)
Definition fstab_with_noauto : list fstab_entry :=
  [ FstabEntry "/dev/A" "/a" "ext2" "noauto";
    FstabEntry "/dev/B" "/b" "ext2" "defaults";
    FstabEntry "/dev/C" "/c" "ext2" "ro" ].

(** Every mount succeeds; /srv/www is a directory. *)
Definition calm : kernel :=
  Kernel 0 [] ["/srv/www"] [("/etc/filesystems", example_filesystems)]
         [("/etc/fstab", fstab_mnt_twice); ("/etc/mtab", [])].

(** The first mount fails with EACCES, the next one succeeds. *)
Definition write_protected : kernel :=
  Kernel 0 [(-1, EACCES); (0, 0)] [] [] [].

(** The first mount fails with EPERM. *)
Definition not_root : kernel :=
  Kernel 0 [(-1, EPERM)] [] [] [("/etc/fstab", fstab_mnt_twice)].

(** The first mount fails with EINVAL (22). *)
Definition one_bad_entry : kernel :=
  Kernel 0 [(-1, 22)] [] [] [("/etc/fstab", fstab_with_noauto)].

(** /etc/filesystems has indented lines, and /proc/filesystems lists ext3
    once more. *)
Definition indented : kernel :=
  Kernel 0 [] []
         [("/etc/filesystems", indented_filesystems);
          ("/proc/filesystems", proc_filesystems)] [].

(** A record for a device, and a network share whose name holds no share. *)
Definition fstab_device_then_share : list fstab_entry :=
  [ FstabEntry "/dev/A" "/a" "ext2" "defaults";
    FstabEntry "//server" "/b" "cifs" "defaults" ].

(** The first mount fails with EBUSY. *)
Definition busy : kernel :=
  Kernel 0 [(-1, EBUSY)] [] [] [("/etc/fstab", fstab_device_then_share)].

End Sim.

(** ** The entry for the legacy mount table *)

(** The entry [mount_it_now] prepares for [addmntent]: the names of the
    vfs flags added to the options, one trailing / removed from the
    directory, "--bind" for an empty type. *)
Definition mtab_record (cfg : config) (mp : mntent) : mntent :=
  let mp := set_opts mp (add_vfs_string_flags (mount_options cfg) (mnt_opts mp)) in
  let mp := set_dir mp (remove_trailing_slash (mnt_dir mp)) in
  if null_or_empty (mnt_type mp) then set_type mp (Some "--bind") else mp.

(** What is left of it in [*mp] when [mount_it_now] returns. *)
Definition mtab_cleanup (cfg : config) (mp : mntent) : mntent :=
  if FEATURE_CLEAN_UP cfg && negb (is_str (mnt_type mp) "--bind")
  then set_type mp None else mp.

Definition is_addmntent (e : event) : bool :=
  match e with
  | EvAddmntent _ => true
  | _ => false
  end.

(** The C string a string holds when it is copied into an array: its
    characters up to the first NUL. *)
Definition c_string (s : string) : string := c_str (c_array s) 0.

(** How [mount_it_now] ends after a last attempt that returned [rc] and
    left the world [w]. *)
Definition ends_with {W : Type} {K : Collaborators W} (rc : Z) (w : W)
    (o : outcome (Z * mntent)) : Prop :=
  if negb (rc =? 0) && (errno w =? EPERM)
  then o = Die bb_msg_perm_denied_are_you_root
  else exists mp', o = Ret (rc, mp').

(** The caller's options appended to the options of a record: behind a
    comma, or alone when the record has no options. *)
Definition with_caller_options (record_opts caller_opts : string) : string :=
  match record_opts with
  | EmptyString => caller_opts
  | String _ _ => (record_opts ++ "," ++ caller_opts)%string
  end.

(** The end of a targeted scan: complain when nothing was found, or merge
    the caller's options onto the record found and mount it once. *)
Definition mount_found {W : Type} {K : Collaborators W} (cfg : config)
    (inv : invocation) (name arg : string) (found : option mntent) : M W Z :=
  match found with
  | None => bb_error_msg_and_die ("can't find " ++ arg ++ " in " ++ name)
  | Some m =>
      '(rc, _) <- singlemount cfg
                    (Mntent (mnt_fsname m) (mnt_dir m) (mnt_type m)
                            (with_caller_options (mnt_opts m) (cmdopts inv)))
                    false ;;
      ret rc
  end.

(** The caller's options carry a shared subtree flag, which keeps
    [mount_main] away from the tables. *)
Definition shared_subtree (cfg : config) (inv : invocation) : bool :=
  FEATURE_MOUNT_FLAGS cfg
  && negb (Z.land (resolve_flags cfg (c_string (cmdopts inv)))
                  (Z.lor MS_SHARED (Z.lor MS_PRIVATE (Z.lor MS_SLAVE MS_UNBINDABLE)))
           =? 0).

(** The table [mount_main] scans: the legacy mount table for a remount,
    fstab otherwise. *)
Definition table_name (cfg : config) (inv : invocation) : string :=
  if negb (Z.land (resolve_flags cfg (c_string (cmdopts inv))) MS_REMOUNT =? 0)
  then bb_path_mtab_file else "/etc/fstab".

(** The process once the table is open. *)
Definition table_opened {W : Type} (s : state W) (name : string) (w : W) : state W :=
  State w (fslist s) (useMtab s) (fakeIt s) (trace s ++ [EvSetmntent name "r"]).

Definition is_fopen (e : event) : bool :=
  match e with
  | EvFopen _ => true
  | _ => false
  end.

(** The contents of a file that opened hold no NUL. *)
Definition text_file (f : option string) : bool :=
  match f with
  | Some contents => nul_free contents
  | None => true
  end.

(** The legacy mount table is opened for appending, which is how
    [mount_it_now] starts on the record for it. *)
Definition is_mtab_append (e : event) : bool :=
  match e with
  | EvSetmntent _ mode => String.eqb mode "a+"
  | _ => false
  end.

(** The legacy mount table is not maintained, and has not been opened for
    appending since [s0]. *)
Definition table_left_alone {W : Type} (cfg : config) (s0 s : state W) : Prop :=
  FEATURE_MTAB_SUPPORT cfg && useMtab s = false
  /\ exists later,
       trace s = trace s0 ++ later
       /\ forallb (fun e => negb (is_mtab_append e)) later = true.

(** A computation that keeps it so, however it ends. *)
Definition leaves_table_alone {W A : Type} (cfg : config) (s0 : state W) (m : M W A)
  : Prop :=
  forall s, table_left_alone cfg s0 s -> table_left_alone cfg s0 (snd (m s)).

(** A computation that has all the fuel it needs, in every state. *)
Definition total {W A : Type} (m : M W A) : Prop :=
  forall s, fst (m s) <> OutOfFuel.

(** ** Further definitions for the properties of the code *)

(** The bits [parse_mount_options] can leave set: the seed and the bits of
    the non-negative masks of the table. *)
Definition table_bits (cfg : config) : Z :=
  fold_right (fun row acc => if snd row <? 0 then acc else Z.lor (snd row) acc)
             MS_SILENT (mount_options cfg).

(** One token's effect on the flags alone. *)
Definition flag_step (cfg : config) (flags : Z) (tok : string) : Z :=
  match table_lookup cfg tok with
  | Some mask => apply_mask flags mask
  | None => flags
  end.

(** What an entry of the list of filesystems looks like: it is not empty
    and starts with a character that is neither whitespace nor # nor *. *)
Definition filesystem_name (name : string) : bool :=
  match name with
  | EmptyString => false
  | String c _ =>
      negb (isspace c) && negb (is_nul c)
      && negb (Ascii.eqb c "#"%char) && negb (Ascii.eqb c "*"%char)
  end.

(** The globals of the file are as in [s0], and what was done since [s0]
    has opened no file. *)
Definition steady {W : Type} (s0 s : state W) : Prop :=
  fslist s = fslist s0 /\ useMtab s = useMtab s0 /\ fakeIt s = fakeIt s0
  /\ exists later, trace s = trace s0 ++ later
                   /\ forallb (fun e => negb (is_fopen e)) later = true.

(** A computation that keeps [steady s0], however it ends. *)
Definition keeps {W A : Type} (s0 : state W) (m : M W A) : Prop :=
  forall s, steady s0 s -> steady s0 (snd (m s)).

(** The state after [set_loop] was called for [file]. *)
Definition loop_set_up {W : Type} (s : state W) (file : string) (w : W) : state W :=
  State w (fslist s) (useMtab s) (fakeIt s) (trace s ++ [EvSetLoop file]).

(** A kernel with regular files and a loop driver, for the loop device
    path of [singlemount]. *)
Module SimLoop.

(** The error number, the next results of mount(2), the regular files, and
    what [set_loop] returns and leaves in [errno]. *)
Record kernel : Type := Kernel {
  err         : Z;
  mounts      : list (Z * Z);
  regular     : list string;
  loop_result : Z;
  loop_errno  : Z
}.

Definition do_mount (w : kernel) : Z * kernel :=
  match mounts w with
  | [] => (0, w)
  | (rc, e) :: rest =>
      (rc, Kernel (if rc =? 0 then err w else e) rest (regular w)
                  (loop_result w) (loop_errno w))
  end.

#[global] Instance collaborators : Collaborators kernel := {|
  errno := err;
  mount := fun _ _ _ _ _ w => do_mount w;
  lstat := fun path w =>
    (if existsb (String.eqb path) (regular w) then Some S_IFREG else None, w);
  gethostbyname := fun _ w => (None, w);
  nfsmount := fun _ _ _ w => (0, w);
  set_loop := fun _ w =>
    (loop_result w, "/dev/loop0",
     Kernel (loop_errno w) (mounts w) (regular w) (loop_result w) (loop_errno w));
  del_loop := fun _ w => w;
  bb_simplify_path := fun path _ => path;
  fopen := fun _ w => (None, w);
  setmntent := fun _ _ w => (None, w)
|}.

Definition start (w : kernel) : state kernel := State w [] false false [].

(** /tmp/disk.img is a regular file; the loop driver works and the mount
    fails with EINVAL (22). *)
Definition bad_image : kernel := Kernel 0 [(-1, 22)] ["/tmp/disk.img"] 0 0.

(** /tmp/disk.img is a regular file; no loop device is free. *)
Definition no_loop : kernel := Kernel 0 [] ["/tmp/disk.img"] (-1) 6.

End SimLoop.

(** The line the listing prints for an entry of the mount table. *)
Definition mounted_line (e : fstab_entry) : string :=
  (fs_spec e ++ " on " ++ fs_file e ++ " type " ++ fs_vfstype e
   ++ " (" ++ fs_mntops e ++ ")")%string.

(** The entries the listing shows: not rootfs, and of the type asked for
    with -t when there is one. *)
Definition listed (inv : invocation) (e : fstab_entry) : bool :=
  negb (String.eqb (fs_spec e) "rootfs")
  && match fstype inv with
     | Some t => String.eqb (fs_vfstype e) t
     | None => true
     end.

(** The -t type, when there is one, is a C string. *)
Definition fstype_nul_free (inv : invocation) : bool :=
  match fstype inv with
  | Some t => nul_free t
  | None => true
  end.

(** A legacy mount table with rootfs, the root device and proc. *)
Definition mounted_example : list fstab_entry :=
  [ FstabEntry "rootfs" "/" "rootfs" "rw";
    FstabEntry "/dev/root" "/" "ext2" "rw";
    FstabEntry "proc" "/proc" "proc" "rw" ].

(** ** mount_main, the options *)

(** [argv[i][0] == '-' && argv[i][1] == '-'] *)
Definition is_long_option (arg : string) : bool :=
  Ascii.eqb (char_at arg 0) "-"%char && Ascii.eqb (char_at arg 1) "-"%char.

(** [argv[i]+2], for a string of two characters at least. *)
Definition after_dashes (arg : string) : string :=
  substring 2 (String.length arg) arg.

(** Parse long options, like --bind and --move: -o option and --option
    are synonymous.  The result is [cmdopts] and what the loop leaves of
    [argv], the name of the program included. *)
Fixpoint long_options (argv : list string) (cmdopts : string) : string * list string :=
  match argv with
  | [] => (cmdopts, [])
  | arg :: argv' =>
      if is_long_option arg
      then long_options argv' (append_mount_options (Some cmdopts) (after_dashes arg))
      else let '(c, kept) := long_options argv' cmdopts in (c, arg :: kept)
  end.

(** One result of [getopt(argc, argv, "o:t:rwavnf")]: the option
    character, which is ? for what the option string does not allow, and
    [optarg]. *)
Definition getopt_result : Type := (ascii * string)%type.

Section Options.

Context {W : Type} {K : Collaborators W}.
Variable cfg : config.

(** Modelled from the spec: [bb_show_usage] belongs to libbb, outside
    util-linux/mount.c; usage-message printing is an external collaborator
    that ends the process. *)
Definition bb_show_usage {A : Type} : M W A := fun s => (Die "usage", s).

Definition set_useMtab (v : bool) : M W unit :=
  fun s => (Ret tt, State (world s) (fslist s) v (fakeIt s) (trace s)).

Definition set_fakeIt (v : bool) : M W unit :=
  fun s => (Ret tt, State (world s) (fslist s) (useMtab s) v (trace s)).

(** Parse remaining options: the [switch] on each result [getopt]
    delivers before it returns -1. *)
Fixpoint short_options (results : list getopt_result) (inv : invocation)
  : M W invocation :=
  match results with
  | [] => ret inv
  | (opt, optarg) :: rest =>
      if Ascii.eqb opt "o"%char then
        short_options rest
          (Invocation (append_mount_options (Some (cmdopts inv)) optarg)
                      (fstype inv) (all inv) (operands inv))
      else if Ascii.eqb opt "t"%char then
        short_options rest (Invocation (cmdopts inv) (Some optarg) (all inv) (operands inv))
      else if Ascii.eqb opt "r"%char then
        short_options rest
          (Invocation (append_mount_options (Some (cmdopts inv)) "ro")
                      (fstype inv) (all inv) (operands inv))
      else if Ascii.eqb opt "w"%char then
        short_options rest
          (Invocation (append_mount_options (Some (cmdopts inv)) "rw")
                      (fstype inv) (all inv) (operands inv))
      else if Ascii.eqb opt "a"%char then
        short_options rest (Invocation (cmdopts inv) (fstype inv) true (operands inv))
      else if Ascii.eqb opt "n"%char then
        (if FEATURE_MTAB_SUPPORT cfg then set_useMtab false else ret tt) ;;;
        short_options rest inv
      else if Ascii.eqb opt "f"%char then
        (if FEATURE_MTAB_SUPPORT cfg then set_fakeIt false else ret tt) ;;;
        short_options rest inv
      else if Ascii.eqb opt "v"%char then
        short_options rest inv  (* ignore -v *)
      else bb_show_usage
  end.

End Options.

(** The options [getopt] knows. *)
Definition known_option (r : getopt_result) : bool :=
  existsb (Ascii.eqb (fst r)) (list_ascii_of_string "otrwanfv").

(** The option is -n. *)
Definition is_no_mtab (r : getopt_result) : bool := Ascii.eqb (fst r) "n"%char.

(** * Properties *)

(** ** Machine integers and bit masks *)

Lemma sint32_id (z : Z) : - 2 ^ 31 <= z < 2 ^ 31 -> sint32 z = z.
Proof.
  intros H. unfold sint32.
  rewrite Z.mod_small; lia.
Qed.

Lemma lor_below (n a b : Z) :
  0 <= n -> 0 <= a < 2 ^ n -> 0 <= b < 2 ^ n -> 0 <= Z.lor a b < 2 ^ n.
Proof.
  intros Hn Ha Hb. split.
  - apply Z.lor_nonneg; lia.
  - destruct (Z.eq_dec (Z.lor a b) 0) as [E | E].
    + rewrite E. lia.
    + apply Z.log2_lt_pow2.
      * assert (0 <= Z.lor a b) by (apply Z.lor_nonneg; lia). lia.
      * rewrite Z.log2_lor by lia.
        destruct (Z.eq_dec a 0) as [->|Na]; destruct (Z.eq_dec b 0) as [->|Nb];
          try (exfalso; apply E; reflexivity).
        -- rewrite Z.max_r by (apply Z.log2_nonneg). apply Z.log2_lt_pow2; lia.
        -- rewrite Z.max_l by (apply Z.log2_nonneg). apply Z.log2_lt_pow2; lia.
        -- apply Z.max_lub_lt; apply Z.log2_lt_pow2; lia.
Qed.

Lemma land_below (n a b : Z) :
  0 <= n -> 0 <= a < 2 ^ n -> 0 <= Z.land a b < 2 ^ n.
Proof.
  intros Hn Ha. 
  assert (Hnn : 0 <= Z.land a b) by (apply Z.land_nonneg; lia).
  split; [exact Hnn|].
  destruct (Z.eq_dec (Z.land a b) 0) as [E | E]; [rewrite E; lia|].
  apply Z.log2_lt_pow2; [lia|].
  destruct (Z.eq_dec a 0) as [->|Na]; [rewrite Z.land_0_l in E; congruence|].
  assert (Hla : Z.log2 a < n) by (apply Z.log2_lt_pow2; lia).
  destruct (Z_lt_le_dec (Z.log2 (Z.land a b)) n) as [L|L]; [exact L|].
  exfalso.
  pose proof (Z.bit_log2 (Z.land a b) ltac:(lia)) as Hbit.
  rewrite Z.land_spec in Hbit.
  rewrite (Z.bits_above_log2 a) in Hbit by lia.
  discriminate.
Qed.

(** ** Characters and strings *)

Lemma nat_of_ascii_zero (c : ascii) : nat_of_ascii c = 0%nat -> c = NUL.
Proof.
  intros H. rewrite <- (ascii_nat_embedding c), H. reflexivity.
Qed.

Lemma tolower_nul (c : ascii) : tolower c = NUL -> c = NUL.
Proof.
  destruct c as [[] [] [] [] [] [] [] []]; vm_compute; congruence.
Qed.

Lemma is_nul_false (c : ascii) : is_nul c = false -> c <> NUL.
Proof.
  unfold is_nul. intros H E. subst c. discriminate.
Qed.

Lemma code_diff_nonzero (x y : ascii) :
  x <> y -> Z.of_nat (nat_of_ascii x) - Z.of_nat (nat_of_ascii y) <> 0.
Proof.
  intros N E. apply N.
  rewrite <- (ascii_nat_embedding x), <- (ascii_nat_embedding y).
  f_equal. lia.
Qed.

Lemma strcasecmp_same_name (a b : string) :
  nul_free a = true -> nul_free b = true ->
  (strcasecmp a b =? 0) = same_name a b.
Proof.
  unfold same_name. revert b.
  induction a as [| x a IH]; intros [| y b] Ha Hb; simpl in *.
  - reflexivity.
  - apply andb_prop in Hb as [Hy _]. apply negb_true_iff, is_nul_false in Hy.
    apply Z.eqb_neq. intros E. apply Hy, tolower_nul, nat_of_ascii_zero. lia.
  - apply andb_prop in Ha as [Hx _]. apply negb_true_iff, is_nul_false in Hx.
    apply Z.eqb_neq. intros E. apply Hx, tolower_nul, nat_of_ascii_zero. lia.
  - apply andb_prop in Ha as [_ Ha]. apply andb_prop in Hb as [_ Hb].
    destruct (Ascii.eqb (tolower x) (tolower y)) eqn:E.
    + apply IH; assumption.
    + apply Z.eqb_neq, code_diff_nonzero. apply Ascii.eqb_neq. exact E.
Qed.

Lemma chars_roundtrip (s : string) : string_of_list_ascii (chars s) = s.
Proof. apply string_of_list_ascii_of_string. Qed.

Lemma chars_length (s : string) : List.length (chars s) = String.length s.
Proof. induction s; simpl; congruence. Qed.

Lemma until_nul_chars (s : string) (rest : buffer) :
  nul_free s = true -> until_nul (chars s ++ NUL :: rest) = chars s.
Proof.
  induction s as [| c s IH]; simpl; intros H.
  - reflexivity.
  - apply andb_prop in H as [Hc Hs]. apply negb_true_iff in Hc.
    rewrite Hc. f_equal. apply IH, Hs.
Qed.

Lemma skipn_past {A : Type} (pre l : list A) : skipn (List.length pre) (pre ++ l) = l.
Proof. induction pre; simpl; auto. Qed.

Lemma firstn_past {A : Type} (pre l : list A) : firstn (List.length pre) (pre ++ l) = pre.
Proof. induction pre; simpl; f_equal; auto. Qed.

Lemma c_str_at (pre : buffer) (s : string) (rest : buffer) :
  nul_free s = true ->
  c_str (pre ++ chars s ++ NUL :: rest) (List.length pre) = s.
Proof.
  intros H. unfold c_str. rewrite skipn_past, until_nul_chars by exact H.
  apply chars_roundtrip.
Qed.

Lemma store_at (pre : buffer) (x y : ascii) (rest : buffer) :
  store (pre ++ x :: rest) (List.length pre) y = pre ++ y :: rest.
Proof.
  unfold store. rewrite firstn_past.
  change (S (List.length pre)) with (1 + List.length pre)%nat.
  rewrite <- skipn_skipn, skipn_past. reflexivity.
Qed.

(** ** Tokens *)

Lemma split_commas_cut (s : string) :
  split_commas s =
  first_token s :: match after_comma s with
                   | Some r => split_commas r
                   | None => []
                   end.
Proof.
  induction s as [| c s IH]; simpl.
  - reflexivity.
  - destruct (Ascii.eqb c ","%char); [reflexivity|].
    rewrite IH. reflexivity.
Qed.

Lemma chars_cut (s : string) :
  chars s =
  chars (first_token s) ++ match after_comma s with
                           | Some r => ","%char :: chars r
                           | None => []
                           end.
Proof.
  induction s as [| c s IH]; simpl.
  - reflexivity.
  - destruct (Ascii.eqb c ","%char) eqn:E.
    + apply Ascii.eqb_eq in E. subst c. reflexivity.
    + simpl. f_equal. exact IH.
Qed.

Lemma after_comma_shorter (s r : string) :
  after_comma s = Some r -> (String.length r < String.length s)%nat.
Proof.
  induction s as [| c s IH]; simpl; [discriminate|].
  destruct (Ascii.eqb c ","%char).
  - intros [= ->]. lia.
  - intros H. apply IH in H. lia.
Qed.

Lemma first_token_nul_free (s : string) :
  nul_free s = true -> nul_free (first_token s) = true.
Proof.
  induction s as [| c s IH]; simpl; [reflexivity|].
  intros H. apply andb_prop in H as [Hc Hs].
  destruct (Ascii.eqb c ","%char); simpl; [reflexivity|].
  rewrite Hc. apply IH, Hs.
Qed.

Lemma after_comma_nul_free (s r : string) :
  nul_free s = true -> after_comma s = Some r -> nul_free r = true.
Proof.
  induction s as [| c s IH]; simpl; [discriminate|].
  intros H. apply andb_prop in H as [Hc Hs].
  destruct (Ascii.eqb c ","%char).
  - intros [= ->]. exact Hs.
  - apply IH, Hs.
Qed.

Lemma strchr_from_token (s : string) (tail : buffer) (p : nat) :
  nul_free s = true ->
  strchr_from (chars (first_token s) ++ tail) ","%char p =
  strchr_from tail ","%char (p + String.length (first_token s)).
Proof.
  revert p. induction s as [| c s IH]; simpl; intros p H.
  - f_equal. lia.
  - apply andb_prop in H as [Hc Hs].
    destruct (Ascii.eqb c ","%char) eqn:E; simpl.
    + f_equal. lia.
    + rewrite E. apply negb_true_iff in Hc. rewrite Hc.
      rewrite IH by exact Hs. f_equal. simpl. lia.
Qed.

(** ** The option table *)

Lemma mount_options_ok (cfg : config) : Forall row_ok (mount_options cfg).
Proof.
  destruct cfg as [[] [] [] ? ? ? ?]; unfold mount_options, USE; simpl;
    repeat (apply Forall_cons; [split; [reflexivity | vm_compute; split; congruence] |]);
    apply Forall_nil.
Qed.

Lemma find_option_spec (rows : list mount_option) (tok : string) (i : nat) :
  Forall row_ok rows -> nul_free tok = true ->
  match find (fun row => same_name (fst row) tok) rows with
  | Some row =>
      exists j, find_option rows tok i = (j, Some (snd row))
                /\ (j < i + List.length rows)%nat /\ In row rows
  | None => find_option rows tok i = ((i + List.length rows)%nat, None)
  end.
Proof.
  intros Hrows Htok. revert i.
  induction Hrows as [| [name fl] rows [Hname _] _ IH]; intros i; simpl.
  - f_equal. lia.
  - simpl in Hname. rewrite strcasecmp_same_name by assumption.
    destruct (same_name name tok).
    + exists i. repeat split; [lia | left; reflexivity].
    + specialize (IH (S i)).
      destruct (find (fun row => same_name (fst row) tok) rows) as [row|].
      * destruct IH as (j & E & L & I). exists j. repeat split; [exact E | lia | right; exact I].
      * rewrite IH. f_equal. lia.
Qed.

Lemma apply_mask_int (flags mask : Z) :
  int_flags flags -> - 2 ^ 31 <= mask < 2 ^ 31 -> int_flags (apply_mask flags mask).
Proof.
  unfold int_flags, apply_mask. intros Hf Hm.
  destruct (mask <? 0) eqn:E.
  - apply land_below; lia.
  - apply Z.ltb_ge in E. apply lor_below; lia.
Qed.

Lemma parse_token_resolve (cfg : config) (tok : string) (flags : Z)
    (unrec : option cptr) :
  nul_free tok = true -> int_flags flags ->
  parse_token cfg tok flags unrec = resolve_token cfg (flags, unrec) tok
  /\ int_flags (fst (resolve_token cfg (flags, unrec) tok)).
Proof.
  intros Htok Hflags.
  pose proof (find_option_spec (mount_options cfg) tok 0 (mount_options_ok cfg) Htok) as H.
  unfold parse_token, resolve_token, table_lookup.
  destruct (find (fun row => same_name (fst row) tok) (mount_options cfg)) as [row|]; simpl.
  - destruct H as (j & E & L & I). rewrite E.
    pose proof (mount_options_ok cfg) as Hok.
    rewrite Forall_forall in Hok. destruct (Hok row I) as [_ Hr].
    pose proof (apply_mask_int flags (snd row) Hflags Hr) as Hint.
    unfold apply_mask in *. split.
    + assert (N : (j =? Datatypes.length (mount_options cfg))%nat = false)
        by (apply Nat.eqb_neq; lia).
      rewrite N.
      destruct (snd row <? 0); (rewrite sint32_id by (unfold int_flags in Hint; lia));
        destruct unrec; reflexivity.
    + exact Hint.
  - rewrite H. simpl. split; [|exact Hflags].
    destruct unrec as [p|]; [|reflexivity].
    rewrite Nat.eqb_refl. destruct p as [[| c old] |]; reflexivity.
Qed.

(** ** The loop of parse_mount_options *)

Lemma parse_loop_resolve (cfg : config) (fuel : nat) :
  forall (pre : buffer) (s : string) (post : buffer) (flags : Z) (unrec : option cptr),
    nul_free s = true -> int_flags flags -> (String.length s < fuel)%nat ->
    parse_loop cfg fuel (pre ++ chars s ++ NUL :: post) (List.length pre) flags unrec
    = Some (resolve_from cfg s (flags, unrec), pre ++ chars s ++ NUL :: post)
    /\ int_flags (fst (resolve_from cfg s (flags, unrec))).
Proof.
  induction fuel as [| fuel IH]; intros pre s post flags unrec Hs Hflags Hfuel; [lia|].
  pose proof (first_token_nul_free s Hs) as Htok.
  destruct (parse_token_resolve cfg (first_token s) flags unrec Htok Hflags) as [Ept Hint].
  unfold resolve_from. rewrite split_commas_cut. simpl fold_left.
  cbn [parse_loop]. unfold strchr. rewrite skipn_past.
  rewrite (chars_cut s), <- app_assoc, strchr_from_token by exact Hs.
  destruct (after_comma s) as [r|] eqn:Er.
  - (* a comma follows the token *)
    simpl app. simpl strchr_from.
    rewrite <- chars_length, <- length_app.
    rewrite <- app_comm_cons.
    rewrite (app_assoc pre), store_at, <- app_assoc.
    rewrite c_str_at by exact Htok.
    rewrite Ept. destruct (resolve_token cfg (flags, unrec) (first_token s)) as [flags' unrec'] eqn:Ert.
    rewrite (app_assoc pre), store_at.
    replace (S (List.length (pre ++ chars (first_token s))))
      with (List.length ((pre ++ chars (first_token s)) ++ [","%char]))
      by (rewrite (length_app _ [_]); simpl; lia).
    replace ((pre ++ chars (first_token s)) ++ ","%char :: chars r ++ NUL :: post)
      with (((pre ++ chars (first_token s)) ++ [","%char]) ++ chars r ++ NUL :: post)
      by (rewrite <- !app_assoc; reflexivity).
    pose proof (after_comma_shorter s r Er) as Hlen.
    apply (IH _ r post flags' unrec'); [exact (after_comma_nul_free s r Hs Er) | exact Hint | lia].
  - (* the token is the last one *)
    change ([] ++ NUL :: post) with (NUL :: post). simpl strchr_from. cbv iota.

    rewrite c_str_at by exact Htok.
    rewrite Ept. destruct (resolve_token cfg (flags, unrec) (first_token s)) as [flags' unrec'] eqn:Ert.
    simpl. split; [reflexivity | exact Hint].
Qed.

Lemma until_nul_split (l : buffer) :
  In NUL l -> exists post, l = until_nul l ++ NUL :: post.
Proof.
  induction l as [| c l IH]; simpl; [contradiction|].
  intros H. destruct (is_nul c) eqn:E.
  - exists l. unfold is_nul in E. apply Ascii.eqb_eq in E. subst c. reflexivity.
  - destruct H as [H | H]; [subst c; discriminate|].
    destruct (IH H) as [post Hp]. exists post. simpl. f_equal. exact Hp.
Qed.

Lemma until_nul_nul_free (l : buffer) :
  nul_free (string_of_list_ascii (until_nul l)) = true.
Proof.
  induction l as [| c l IH]; simpl; [reflexivity|].
  destruct (is_nul c) eqn:E; simpl; [reflexivity|].
  rewrite E. exact IH.
Qed.

Lemma until_nul_length (l : buffer) : (List.length (until_nul l) <= List.length l)%nat.
Proof.
  induction l as [| c l IH]; simpl; [lia|].
  destruct (is_nul c); simpl; lia.
Qed.

Lemma int_flags_seed : int_flags MS_SILENT.
Proof. unfold int_flags, MS_SILENT. lia. Qed.

(** The loop on a C string anywhere in a buffer: it returns, with the
    flags and the collector of [resolve] and with the buffer as it was. *)
Lemma parse_mount_options_spec (cfg : config) (mem : buffer) (options : nat)
    (unrec : option cptr) :
  In NUL (skipn options mem) ->
  parse_mount_options cfg mem options unrec
  = Some (resolve cfg (c_str mem options) unrec, mem).
Proof.
  intros Hnul.
  destruct (until_nul_split _ Hnul) as [post Hpost].
  assert (Hlen : (options <= List.length mem)%nat).
  { destruct (Nat.le_gt_cases options (List.length mem)) as [L | L]; [exact L|].
    rewrite skipn_all2 in Hnul by lia. contradiction. }
  pose proof (firstn_skipn options mem) as Hmem.
  set (pre := firstn options mem) in *.
  assert (Hpre : List.length pre = options) by (apply firstn_length_le; exact Hlen).
  set (s := c_str mem options).
  assert (Hchars : chars s = until_nul (skipn options mem))
    by (apply list_ascii_of_string_of_list_ascii).
  assert (Hs : nul_free s = true) by apply until_nul_nul_free.
  assert (Hshape : mem = pre ++ chars s ++ NUL :: post).
  { rewrite Hchars, <- Hpost. symmetry. exact Hmem. }
  unfold parse_mount_options, resolve.
  rewrite Hshape at 2 3. rewrite <- Hpre at 1.
  apply parse_loop_resolve; [exact Hs | exact int_flags_seed |].
  rewrite <- chars_length, Hchars.
  pose proof (until_nul_length (skipn options mem)).
  rewrite length_skipn in H. lia.
Qed.

Lemma c_array_terminated (s : string) : In NUL (skipn 0 (c_array s)).
Proof. unfold c_array. simpl. apply in_or_app. right. left. reflexivity. Qed.

Lemma until_nul_one_token (s : string) (rest : buffer) :
  one_token s = true -> until_nul (chars s ++ NUL :: rest) = chars s.
Proof.
  induction s as [| c s IH]; simpl; intros H; [reflexivity|].
  apply andb_prop in H as [H Hs]. apply andb_prop in H as [_ Hc].
  apply negb_true_iff in Hc. rewrite Hc. f_equal. apply IH, Hs.
Qed.

Lemma one_token_nul_free (s : string) : one_token s = true -> nul_free s = true.
Proof.
  induction s as [| c s IH]; simpl; intros H; [reflexivity|].
  apply andb_prop in H as [H Hs]. apply andb_prop in H as [_ Hc].
  rewrite Hc. apply IH, Hs.
Qed.

Lemma c_str_c_array (s : string) : nul_free s = true -> c_str (c_array s) 0 = s.
Proof.
  intros H. unfold c_array. apply (c_str_at [] s [] H).
Qed.

Lemma flags_of_resolve (cfg : config) (s : string) :
  nul_free s = true -> flags_of cfg s = Some (resolve_flags cfg s).
Proof.
  intros H. unfold flags_of, resolve_flags.
  rewrite parse_mount_options_spec by apply c_array_terminated.
  rewrite c_str_c_array by exact H. reflexivity.
Qed.

(** ** Two options side by side *)

Lemma tolower_comma (c : ascii) : tolower c = ","%char -> c = ","%char.
Proof.
  destruct c as [[] [] [] [] [] [] [] []]; vm_compute; congruence.
Qed.

Lemma lowercase_one_token (a b : string) :
  lowercase a = lowercase b -> one_token a = true -> one_token b = true.
Proof.
  revert b. induction a as [| x a IH]; intros [| y b]; simpl; try discriminate; auto.
  intros [= Exy Eab] H.
  apply andb_prop in H as [H Ha]. apply andb_prop in H as [Hx1 Hx2].
  rewrite (IH b Eab Ha), andb_true_r.
  apply andb_true_intro. split; apply negb_true_iff.
  - apply Ascii.eqb_neq. intros ->.
    apply negb_true_iff, Ascii.eqb_neq in Hx1. apply Hx1, tolower_comma. exact Exy.
  - apply negb_true_iff in Hx2. unfold is_nul in *.
    apply Ascii.eqb_neq. intros ->. apply Ascii.eqb_neq in Hx2.
    apply Hx2, tolower_nul. exact Exy.
Qed.

Lemma mount_options_one_token (cfg : config) :
  Forall (fun row => one_token (fst row) = true) (mount_options cfg).
Proof.
  destruct cfg as [[] [] [] ? ? ? ?]; unfold mount_options, USE; simpl;
    repeat (apply Forall_cons; [reflexivity|]); apply Forall_nil.
Qed.

Lemma table_lookup_row (cfg : config) (tok : string) (mask : Z) :
  table_lookup cfg tok = Some mask ->
  exists name, In (name, mask) (mount_options cfg) /\ same_name name tok = true.
Proof.
  unfold table_lookup. intros H.
  destruct (find (fun row => same_name (fst row) tok) (mount_options cfg))
    as [[name m]|] eqn:E; [|discriminate].
  injection H as <-. apply find_some in E. exists name. exact E.
Qed.

Lemma recognized_one_token (cfg : config) (tok : string) (mask : Z) :
  table_lookup cfg tok = Some mask -> one_token tok = true.
Proof.
  intros H. destruct (table_lookup_row cfg tok mask H) as (name & I & E).
  pose proof (mount_options_one_token cfg) as Hok. rewrite Forall_forall in Hok.
  apply (lowercase_one_token name tok); [|exact (Hok _ I)].
  unfold same_name in E. apply String.eqb_eq. exact E.
Qed.

Lemma recognized_in_range (cfg : config) (tok : string) (mask : Z) :
  table_lookup cfg tok = Some mask -> - 2 ^ 31 <= mask < 2 ^ 31.
Proof.
  intros H. destruct (table_lookup_row cfg tok mask H) as (name & I & _).
  pose proof (mount_options_ok cfg) as Hok. rewrite Forall_forall in Hok.
  exact (proj2 (Hok _ I)).
Qed.

Lemma split_commas_one_token (s : string) :
  one_token s = true -> split_commas s = [s].
Proof.
  induction s as [| c s IH]; simpl; intros H; [reflexivity|].
  apply andb_prop in H as [H Hs]. apply andb_prop in H as [Hc _].
  apply negb_true_iff in Hc. rewrite Hc, (IH Hs). reflexivity.
Qed.

Lemma split_commas_pair (a b : string) :
  one_token a = true -> one_token b = true ->
  split_commas (a ++ "," ++ b) = [a; b].
Proof.
  intros Ha Hb. induction a as [| c a IH]; simpl.
  - rewrite (split_commas_one_token b Hb). reflexivity.
  - simpl in Ha. apply andb_prop in Ha as [H Ha]. apply andb_prop in H as [Hc _].
    apply negb_true_iff in Hc. rewrite Hc.
    simpl in IH. rewrite (IH Ha). reflexivity.
Qed.

Lemma nul_free_pair (a b : string) :
  one_token a = true -> one_token b = true -> nul_free (a ++ "," ++ b) = true.
Proof.
  intros Ha Hb. induction a as [| c a IH]; simpl.
  - apply one_token_nul_free, Hb.
  - simpl in Ha. apply andb_prop in Ha as [H Ha]. apply andb_prop in H as [_ Hc].
    rewrite Hc. apply IH, Ha.
Qed.

(** What the code returns for one recognized option and for two. *)
Lemma flags_of_one (cfg : config) (o : string) (m : Z) :
  table_lookup cfg o = Some m -> flags_of cfg o = Some (apply_mask MS_SILENT m).
Proof.
  intros H. pose proof (recognized_one_token cfg o m H) as Ho.
  rewrite flags_of_resolve by (apply one_token_nul_free, Ho).
  unfold resolve_flags, resolve, resolve_from.
  rewrite (split_commas_one_token o Ho). simpl.
  unfold resolve_token. rewrite H. reflexivity.
Qed.

Lemma flags_of_two (cfg : config) (o1 o2 : string) (m1 m2 : Z) :
  table_lookup cfg o1 = Some m1 -> table_lookup cfg o2 = Some m2 ->
  flags_of cfg (o1 ++ "," ++ o2) = Some (apply_mask (apply_mask MS_SILENT m1) m2).
Proof.
  intros H1 H2.
  pose proof (recognized_one_token cfg o1 m1 H1) as Ho1.
  pose proof (recognized_one_token cfg o2 m2 H2) as Ho2.
  rewrite flags_of_resolve by (apply nul_free_pair; assumption).
  unfold resolve_flags, resolve, resolve_from.
  rewrite (split_commas_pair o1 o2 Ho1 Ho2). simpl.
  unfold resolve_token. rewrite H1. simpl. rewrite H2. reflexivity.
Qed.

(** Bitwise reasoning: compare two integers bit by bit, with the facts
    at hand read at the same bit. *)
Lemma land_zero_bits (a b : Z) :
  Z.land a b = 0 -> forall n, Z.testbit a n && Z.testbit b n = false.
Proof.
  intros H n. rewrite <- Z.land_spec, H. apply Z.bits_0.
Qed.

Lemma clears_seed_bits (m : Z) :
  clears_seed m = false -> m < 0 ->
  forall n, 0 <= n -> Z.testbit MS_SILENT n = true -> Z.testbit m n = true.
Proof.
  unfold clears_seed. intros H Hm n Hn Hs.
  apply Z.ltb_lt in Hm. rewrite Hm in H. simpl in H.
  apply negb_false_iff, Z.eqb_eq in H.
  pose proof (land_zero_bits _ _ H n) as Hb.
  rewrite Z.lnot_spec in Hb by exact Hn. rewrite Hs, andb_true_r in Hb.
  apply negb_false_iff. exact Hb.
Qed.

Lemma apply_mask_commute (s m1 m2 : Z) :
  Z.land (touched_bits m1) (touched_bits m2) = 0 ->
  apply_mask (apply_mask s m1) m2 = apply_mask (apply_mask s m2) m1.
Proof.
  unfold touched_bits, apply_mask. intros H.
  destruct (m1 <? 0) eqn:E1; destruct (m2 <? 0) eqn:E2;
    apply Z.bits_inj'; intros n Hn;
    pose proof (land_zero_bits _ _ H n) as Hb;
    repeat rewrite ?Z.land_spec, ?Z.lor_spec, ?Z.lnot_spec in * by exact Hn;
    destruct (Z.testbit s n), (Z.testbit m1 n), (Z.testbit m2 n);
    simpl in *; congruence.
Qed.

Lemma apply_mask_or (m1 m2 : Z) :
  Z.land (touched_bits m1) (touched_bits m2) = 0 ->
  clears_seed m1 = false -> clears_seed m2 = false ->
  apply_mask (apply_mask MS_SILENT m1) m2
  = Z.lor (apply_mask MS_SILENT m1) (apply_mask MS_SILENT m2).
Proof.
  unfold touched_bits, apply_mask. intros H C1 C2.
  destruct (m1 <? 0) eqn:E1; destruct (m2 <? 0) eqn:E2;
    apply Z.bits_inj'; intros n Hn;
    pose proof (land_zero_bits _ _ H n) as Hb;
    try (pose proof (clears_seed_bits m1 C1 ltac:(apply Z.ltb_lt; exact E1) n Hn) as S1);
    try (pose proof (clears_seed_bits m2 C2 ltac:(apply Z.ltb_lt; exact E2) n Hn) as S2);
    repeat rewrite ?Z.land_spec, ?Z.lor_spec, ?Z.lnot_spec in * by exact Hn;
    destruct (Z.testbit MS_SILENT n), (Z.testbit m1 n), (Z.testbit m2 n);
    simpl in *; try congruence;
    try (specialize (S1 eq_refl)); try (specialize (S2 eq_refl)); congruence.
Qed.

Lemma resolve_no_collector (cfg : config) (opts : string) :
  resolve cfg opts None = (resolve_flags cfg opts, None).
Proof.
  unfold resolve_flags, resolve, resolve_from.
  generalize MS_SILENT as acc. generalize (split_commas opts) as toks.
  induction toks as [| tok toks IH]; intros acc; simpl; [reflexivity|].
  unfold resolve_token at 2 4. simpl.
  destruct (table_lookup cfg tok); simpl; apply IH.
Qed.

(** ** The claims on the option resolver *)

(** *** The collector *)

Lemma string_app_assoc (a b c : string) : ((a ++ b) ++ c = a ++ (b ++ c))%string.
Proof. induction a as [| x a IH]; simpl; [reflexivity | f_equal; exact IH]. Qed.

Lemma concat_cons2 (a b : string) (l : list string) :
  String.concat "," (a :: b :: l) = (a ++ "," ++ String.concat "," (b :: l))%string.
Proof. reflexivity. Qed.

Lemma joined_step (old : cptr) (tok : string) (toks : list string) (new : string) :
  tok <> EmptyString ->
  collect (Some old) tok = Some (Some new) ->
  joined (Some new) toks = joined old (tok :: toks).
Proof.
  intros Htok Hnew.
  destruct tok as [| c rest]; [congruence|].
  destruct old as [[| x o] |]; simpl in Hnew; injection Hnew as <-.
  - destruct toks; reflexivity.
  - unfold joined. destruct toks as [| t ts].
    + reflexivity.
    + rewrite <- !app_comm_cons, !app_nil_l. rewrite !concat_cons2. f_equal.
      change (String x (o ++ String "," (String c rest)))%string
        with ((String x o) ++ ("," ++ String c rest))%string.
      rewrite !string_app_assoc. reflexivity.
  - destruct toks; reflexivity.
Qed.

Lemma collector_joined (cfg : config) (toks : list string) :
  forall (flags : Z) (old : cptr),
    Forall (fun tok => tok <> EmptyString)
           (filter (fun tok => match table_lookup cfg tok with
                               | Some _ => false | None => true end) toks) ->
    snd (fold_left (resolve_token cfg) toks (flags, Some old))
    = Some (joined old
              (filter (fun tok => match table_lookup cfg tok with
                                  | Some _ => false | None => true end) toks)).
Proof.
  induction toks as [| tok toks IH]; intros flags old Hne; cbn [fold_left filter].
  - reflexivity.
  - cbn [filter] in Hne. unfold resolve_token at 2. cbn [fst snd].
    destruct (table_lookup cfg tok) as [mask|].
    + apply IH, Hne.
    + inversion Hne as [| ? ? Htok Hrest]; subst.
      destruct (collect (Some old) tok) as [[new|]|] eqn:E;
        try (destruct old as [[| ? ?] |]; discriminate).
      rewrite (IH flags (Some new) Hrest). f_equal.
      apply joined_step; assumption.
Qed.

(** C1.  On every C string held in a buffer, with or without a collector,
    [parse_mount_options] returns, and returns what [resolve] describes:
    the string is split on commas and the tokens are taken from left to
    right, starting from MS_SILENT; a token that matches an entry of the
    table up to case ORs a non-negative mask into the flags and ANDs a
    negative one with them; a token that matches no entry leaves the flags
    as they are and goes to the collector, when there is one, after what
    the collector holds and a comma (no comma when it holds nothing), and
    is dropped when there is none.  When no unmatched token is empty the
    collector ends up with what it held and the unmatched tokens in input
    order, joined by commas.  For "ro,rw" the result is the seed with the
    read-only bit cleared. *)
Theorem parse_mount_options_resolves
    (cfg : config) (mem : buffer) (options : nat) (unrec : option cptr) :
  In NUL (skipn options mem) ->
  parse_mount_options cfg mem options unrec
  = Some (resolve cfg (c_str mem options) unrec, mem)
  /\ snd (resolve cfg (c_str mem options) None) = None
  /\ (Forall (fun tok => tok <> EmptyString) (unmatched_tokens cfg (c_str mem options)) ->
      forall old,
        snd (resolve cfg (c_str mem options) (Some old))
        = Some (joined old (unmatched_tokens cfg (c_str mem options))))
  /\ parse_mount_options cfg (c_array "ro,rw") 0 unrec
     = Some (Z.land MS_SILENT (Z.lnot MS_RDONLY), unrec, c_array "ro,rw")
  /\ Z.testbit (Z.land MS_SILENT (Z.lnot MS_RDONLY)) 0 = false.
Proof.
  intros Hnul. split; [apply parse_mount_options_spec, Hnul|].
  split; [rewrite resolve_no_collector; reflexivity|].
  split; [intros Hne old; apply collector_joined, Hne|].
  split; [|reflexivity].
  rewrite parse_mount_options_spec by apply c_array_terminated.
  destruct cfg as [[] [] [] ? ? ? ?]; reflexivity.
Qed.

Lemma store_back (mem : buffer) (c : nat) (x y : ascii) :
  nth_error mem c = Some y -> store (store mem c x) c y = mem.
Proof.
  intros H. apply nth_error_split in H as (pre & post & -> & <-).
  rewrite !store_at. reflexivity.
Qed.

(** C10.  [parse_mount_options] returns with the buffer of the option
    string as it found it: a comma that a turn of the loop overwrites with
    NUL is written back at the end of that turn. *)
Theorem parse_mount_options_restores_buffer
    (cfg : config) (mem : buffer) (options : nat) (unrec : option cptr) :
  In NUL (skipn options mem) ->
  (exists flags unrec',
      parse_mount_options cfg mem options unrec = Some (flags, unrec', mem))
  /\ forall comma, nth_error mem comma = Some ","%char ->
       store (store mem comma NUL) comma ","%char = mem.
Proof.
  intros Hnul. split.
  - rewrite parse_mount_options_spec by exact Hnul.
    destruct (resolve cfg (c_str mem options) unrec) as [flags unrec'].
    exists flags, unrec'. reflexivity.
  - intros comma H. apply store_back, H.
Qed.

(** C9, as the code has it.  For two recognized option names whose
    effects touch no common bit, "opt1,opt2" and "opt2,opt1" resolve to the
    same flags; when in addition neither option clears the silent bit of
    the seed, these flags are the bitwise OR of what each option resolves
    to on its own.  The order matters for ro and rw, which touch the same
    bit. *)
Theorem disjoint_options_commute
    (cfg : config) (o1 o2 : string) (m1 m2 : Z) :
  table_lookup cfg o1 = Some m1 ->
  table_lookup cfg o2 = Some m2 ->
  Z.land (touched_bits m1) (touched_bits m2) = 0 ->
  flags_of cfg (o1 ++ "," ++ o2) = flags_of cfg (o2 ++ "," ++ o1)
  /\ (clears_seed m1 = false -> clears_seed m2 = false ->
      exists f1 f2,
        flags_of cfg o1 = Some f1 /\ flags_of cfg o2 = Some f2
        /\ flags_of cfg (o1 ++ "," ++ o2) = Some (Z.lor f1 f2))
  /\ flags_of cfg "ro,rw" <> flags_of cfg "rw,ro".
Proof.
  intros H1 H2 Hdisj. split; [|split].
  - rewrite (flags_of_two cfg o1 o2 m1 m2 H1 H2), (flags_of_two cfg o2 o1 m2 m1 H2 H1).
    f_equal. apply apply_mask_commute, Hdisj.
  - intros C1 C2. exists (apply_mask MS_SILENT m1), (apply_mask MS_SILENT m2).
    rewrite (flags_of_one cfg o1 m1 H1), (flags_of_one cfg o2 m2 H2).
    rewrite (flags_of_two cfg o1 o2 m1 m2 H1 H2).
    repeat split. f_equal. apply apply_mask_or; assumption.
  - rewrite !flags_of_resolve by reflexivity.
    destruct cfg as [[] [] [] ? ? ? ?]; vm_compute; discriminate.
Qed.

(** The claim C9 fails for ro and loud: both are recognized, ro touches
    bit 0 and loud bit 15, and "ro,loud" resolves to 1 while the OR of
    what "ro" and "loud" resolve to is 32769. *)
Lemma ro_loud_is_not_the_or :
  table_lookup full_config "ro" = Some MS_RDONLY
  /\ table_lookup full_config "loud" = Some (Z.lnot MS_SILENT)
  /\ Z.land (touched_bits MS_RDONLY) (touched_bits (Z.lnot MS_SILENT)) = 0
  /\ flags_of full_config "ro" = Some 32769
  /\ flags_of full_config "loud" = Some 0
  /\ flags_of full_config "ro,loud" = Some 1
  /\ Z.lor 32769 0 <> 1.
Proof.
  repeat split; try reflexivity. vm_compute. discriminate.
Qed.

(** The resolver on "ro,bogus,LOUD" with an empty collector. *)
Lemma parse_mount_options_resolves_witness :
  In NUL (skipn 0 (c_array "ro,bogus,LOUD"))
  /\ parse_mount_options full_config (c_array "ro,bogus,LOUD") 0 (Some None)
     = Some (resolve full_config "ro,bogus,LOUD" (Some None), c_array "ro,bogus,LOUD")
  /\ resolve full_config "ro,bogus,LOUD" (Some None) = (1, Some (Some "bogus")).
Proof.
  split; [apply c_array_terminated|]. split; [|reflexivity].
  apply (parse_mount_options_resolves full_config (c_array "ro,bogus,LOUD") 0 (Some None)).
  apply c_array_terminated.
Defined.

(** The option string in the middle of a larger buffer. *)
Lemma parse_mount_options_restores_buffer_witness :
  In NUL (skipn 3 (c_array "-o ro,noexec,uid=5"))
  /\ exists flags unrec',
       parse_mount_options full_config (c_array "-o ro,noexec,uid=5") 3 (Some None)
       = Some (flags, unrec', c_array "-o ro,noexec,uid=5").
Proof.
  assert (H : In NUL (skipn 3 (c_array "-o ro,noexec,uid=5")))
    by (vm_compute; tauto).
  split; [exact H|].
  apply (parse_mount_options_restores_buffer full_config
           (c_array "-o ro,noexec,uid=5") 3 (Some None) H).
Defined.

(** nosuid and RW touch bits 1 and 0. *)
Lemma disjoint_options_commute_witness :
  table_lookup full_config "nosuid" = Some MS_NOSUID
  /\ table_lookup full_config "RW" = Some (Z.lnot MS_RDONLY)
  /\ Z.land (touched_bits MS_NOSUID) (touched_bits (Z.lnot MS_RDONLY)) = 0
  /\ flags_of full_config "nosuid,RW" = flags_of full_config "RW,nosuid".
Proof.
  split; [reflexivity|]. split; [reflexivity|]. split; [reflexivity|].
  apply (disjoint_options_commute full_config "nosuid" "RW" MS_NOSUID (Z.lnot MS_RDONLY));
    reflexivity.
Defined.

(** ** The mount executor *)

Section Executor.

Context {W : Type} {K : Collaborators W}.
Variable cfg : config.

Lemma mount_attempts_app (a b : list event) :
  mount_attempts (a ++ b) = mount_attempts a ++ mount_attempts b.
Proof. apply filter_app. Qed.

(** One turn of the loop of [mount_it_now], unfolded. *)
Lemma mount_loop_step (fuel : nat) (mp : mntent) (vfsflags : Z) (fo : cptr)
    (s : state W) (rc : Z) (w : W) :
  mount (Some (mnt_fsname mp)) (Some (mnt_dir mp)) (mnt_type mp) vfsflags fo (world s)
  = (rc, w) ->
  let attempt := EvMount (Some (mnt_fsname mp)) (Some (mnt_dir mp)) (mnt_type mp)
                         vfsflags fo in
  let s1 := State w (fslist s) (useMtab s) (fakeIt s) (trace s ++ [attempt]) in
  mount_loop (S fuel) mp vfsflags fo s =
  if (rc =? 0) || negb (Z.land vfsflags MS_RDONLY =? 0)
     || (negb (errno w =? EACCES) && negb (errno w =? EROFS))
  then (Ret (rc, vfsflags), s1)
  else mount_loop fuel mp (Z.lor vfsflags MS_RDONLY) fo
         (State w (fslist s) (useMtab s) (fakeIt s)
                (trace s ++ [attempt]
                 ++ [EvErrorMsg (mnt_fsname mp ++ " is write-protected, mounting read-only")])).
Proof.
  intros H. cbn [mount_loop]. unfold bind, emit, call, get_errno, bb_error_msg, emit, ret, with_world.
  cbn [world fslist useMtab fakeIt trace]. rewrite H.
  cbn [world fslist useMtab fakeIt trace].
  destruct ((rc =? 0) || negb (Z.land vfsflags MS_RDONLY =? 0)
            || (negb (errno w =? EACCES) && negb (errno w =? EROFS))); [reflexivity|].
  cbn [world fslist useMtab fakeIt trace]. rewrite <- app_assoc. reflexivity.
Qed.

Lemma rdonly_set (vfsflags : Z) :
  (Z.land (Z.lor vfsflags MS_RDONLY) MS_RDONLY =? 0) = false.
Proof.
  apply Z.eqb_neq. intros H.
  assert (B : Z.testbit (Z.land (Z.lor vfsflags MS_RDONLY) MS_RDONLY) 0 = false)
    by (rewrite H; apply Z.bits_0).
  rewrite Z.land_spec, Z.lor_spec in B. unfold MS_RDONLY in B.
  change (Z.testbit 1 0) with true in B. rewrite orb_true_r in B. discriminate.
Qed.

(** The loop never needs more than two turns: the second attempt carries
    MS_RDONLY and so ends the loop whatever it returns. *)
Lemma mount_loop_two (mp : mntent) (vfsflags : Z) (fo : cptr) (s : state W)
    (rc1 : Z) (w1 : W) :
  mount (Some (mnt_fsname mp)) (Some (mnt_dir mp)) (mnt_type mp) vfsflags fo (world s)
  = (rc1, w1) ->
  let attempt fl := EvMount (Some (mnt_fsname mp)) (Some (mnt_dir mp)) (mnt_type mp) fl fo in
  let msg := EvErrorMsg (mnt_fsname mp ++ " is write-protected, mounting read-only") in
  let retry := negb (rc1 =? 0) && (Z.land vfsflags MS_RDONLY =? 0)
               && ((errno w1 =? EACCES) || (errno w1 =? EROFS)) in
  mount_loop 2 mp vfsflags fo s =
  if retry then
    let '(rc2, w2) := mount (Some (mnt_fsname mp)) (Some (mnt_dir mp)) (mnt_type mp)
                            (Z.lor vfsflags MS_RDONLY) fo w1 in
    (Ret (rc2, Z.lor vfsflags MS_RDONLY),
     State w2 (fslist s) (useMtab s) (fakeIt s)
           (trace s ++ [attempt vfsflags; msg; attempt (Z.lor vfsflags MS_RDONLY)]))
  else
    (Ret (rc1, vfsflags),
     State w1 (fslist s) (useMtab s) (fakeIt s) (trace s ++ [attempt vfsflags])).
Proof.
  intros H attempt msg retry. subst retry.
  rewrite (mount_loop_step 1 mp vfsflags fo s rc1 w1 H).
  destruct (rc1 =? 0); [reflexivity|].
  destruct (Z.land vfsflags MS_RDONLY =? 0); [|reflexivity].
  destruct (errno w1 =? EACCES), (errno w1 =? EROFS); cbn [negb andb orb];
    try reflexivity;
    destruct (mount (Some (mnt_fsname mp)) (Some (mnt_dir mp)) (mnt_type mp)
                    (Z.lor vfsflags MS_RDONLY) fo w1) as [rc2 w2] eqn:E2;
    match goal with
    | |- mount_loop 1 _ _ _ ?s' = _ =>
        rewrite (mount_loop_step 0 mp (Z.lor vfsflags MS_RDONLY) fo s' rc2 w2 E2)
    end;
    rewrite rdonly_set; cbn [negb orb]; rewrite orb_true_r;
    cbn [world fslist useMtab fakeIt trace]; rewrite <- !app_assoc; reflexivity.
Qed.

(** What [mount_it_now] does once its loop has returned. *)
Lemma mount_it_now_after_loop (mp : mntent) (vfsflags : Z) (fo : cptr) (s : state W)
    (rc fl : Z) (s1 : state W) :
  FEATURE_MTAB_SUPPORT cfg && fakeIt s = false ->
  mount_loop 2 mp vfsflags fo s = (Ret (rc, fl), s1) ->
  mount_it_now cfg mp vfsflags fo s =
  if negb (rc =? 0) && (errno (world s1) =? EPERM)
  then (Die bb_msg_perm_denied_are_you_root, s1)
  else if FEATURE_MTAB_SUPPORT cfg && useMtab s1 && (rc =? 0)
  then
    let '(tab, w2) := setmntent bb_path_mtab_file "a+" (world s1) in
    (Ret (rc, mtab_cleanup cfg (mtab_record cfg mp)),
     State w2 (fslist s1) (useMtab s1) (fakeIt s1)
           (trace s1 ++ EvSetmntent bb_path_mtab_file "a+"
              :: match tab with
                 | None => [EvErrorMsg ("no " ++ bb_path_mtab_file)]
                 | Some _ => []
                 end ++ [EvEndmntent]))
  else (Ret (rc, mp), s1).
Proof.
  intros Hfake Hloop. unfold mount_it_now.
  unfold bind at 1. unfold get_fakeIt, get. rewrite Hfake.
  unfold bind at 1. rewrite Hloop.
  unfold bind at 1. unfold get_errno.
  destruct (negb (rc =? 0) && (errno (world s1) =? EPERM)); [reflexivity|].
  unfold bind at 1. unfold get_useMtab, get.
  destruct (FEATURE_MTAB_SUPPORT cfg && useMtab s1 && (rc =? 0)); [|reflexivity].
  unfold bind, emit, call, bb_error_msg, emit, ret, with_world.
  cbn [world fslist useMtab fakeIt trace].
  destruct (setmntent bb_path_mtab_file "a+" (world s1)) as [[tab|] w2];
    cbn [world fslist useMtab fakeIt trace]; rewrite <- ?app_assoc; reflexivity.
Qed.

End Executor.

Section ExecutorClaims.

Context {W : Type} {K : Collaborators W}.
Variable cfg : config.

(** C2.  When the first attempt of [mount_it_now] fails with EACCES or
    EROFS and MS_RDONLY is not among the flags, there is exactly one more
    attempt, with MS_RDONLY added, and its result is what the call ends
    with; in every other case (success, MS_RDONLY already set, another
    errno) the first attempt is the only one and its result is returned, or
    escalated when errno is EPERM. *)
Theorem mount_it_now_retries_once_read_only
    (mp : mntent) (vfsflags : Z) (fo : cptr) (s : state W) (rc1 rc2 : Z) (w1 w2 : W) :
  FEATURE_MTAB_SUPPORT cfg && fakeIt s = false ->
  mount (Some (mnt_fsname mp)) (Some (mnt_dir mp)) (mnt_type mp) vfsflags fo (world s)
  = (rc1, w1) ->
  mount (Some (mnt_fsname mp)) (Some (mnt_dir mp)) (mnt_type mp)
        (Z.lor vfsflags MS_RDONLY) fo w1
  = (rc2, w2) ->
  let attempt fl := EvMount (Some (mnt_fsname mp)) (Some (mnt_dir mp)) (mnt_type mp) fl fo in
  let retry := negb (rc1 =? 0) && (Z.land vfsflags MS_RDONLY =? 0)
               && ((errno w1 =? EACCES) || (errno w1 =? EROFS)) in
  let result := mount_it_now cfg mp vfsflags fo s in
  exists later,
    trace (snd result) = trace s ++ later /\
    if retry
    then mount_attempts later = [attempt vfsflags; attempt (Z.lor vfsflags MS_RDONLY)]
         /\ ends_with rc2 w2 (fst result)
    else mount_attempts later = [attempt vfsflags]
         /\ ends_with rc1 w1 (fst result).
Proof.
  intros Hfake H1 H2 attempt retry result.
  pose proof (mount_loop_two mp vfsflags fo s rc1 w1 H1) as Hloop.
  cbv zeta in Hloop. fold retry in Hloop. rewrite H2 in Hloop.
  subst result.
  destruct retry.
  - rewrite (mount_it_now_after_loop cfg mp vfsflags fo s _ _ _ Hfake Hloop).
    cbn [world fslist useMtab fakeIt trace]. unfold ends_with.
    destruct (negb (rc2 =? 0) && (errno w2 =? EPERM)).
    + eexists. cbn [fst snd trace]. split; [reflexivity|]. split; reflexivity.
    + destruct (FEATURE_MTAB_SUPPORT cfg && useMtab s && (rc2 =? 0)).
      * destruct (setmntent bb_path_mtab_file "a+" w2) as [tab w3].
        eexists. cbn [fst snd trace]. split; [rewrite <- app_assoc; reflexivity|].
        split; [|eexists; reflexivity].
        destruct tab; reflexivity.
      * eexists. cbn [fst snd trace]. split; [reflexivity|].
        split; [reflexivity | eexists; reflexivity].
  - rewrite (mount_it_now_after_loop cfg mp vfsflags fo s _ _ _ Hfake Hloop).
    cbn [world fslist useMtab fakeIt trace]. unfold ends_with.
    destruct (negb (rc1 =? 0) && (errno w1 =? EPERM)).
    + eexists. cbn [fst snd trace]. split; [reflexivity|]. split; reflexivity.
    + destruct (FEATURE_MTAB_SUPPORT cfg && useMtab s && (rc1 =? 0)).
      * destruct (setmntent bb_path_mtab_file "a+" w1) as [tab w3].
        eexists. cbn [fst snd trace]. split; [rewrite <- app_assoc; reflexivity|].
        split; [|eexists; reflexivity].
        destruct tab; reflexivity.
      * eexists. cbn [fst snd trace]. split; [reflexivity|].
        split; [reflexivity | eexists; reflexivity].
Qed.

(** What a call of [mount_it_now] leaves alone: it adds events to the
    trace, none of them a call of [addmntent] or of [fopen], and it does
    not touch the list of filesystems. *)
Lemma mount_it_now_frame
    (mp : mntent) (vfsflags : Z) (fo : cptr) (s : state W) :
  exists later,
    trace (snd (mount_it_now cfg mp vfsflags fo s)) = trace s ++ later
    /\ forallb (fun e => negb (is_addmntent e) && negb (is_fopen e)) later = true
    /\ fslist (snd (mount_it_now cfg mp vfsflags fo s)) = fslist s.
Proof.
  destruct (FEATURE_MTAB_SUPPORT cfg && fakeIt s) eqn:Hfake.
  - exists []. unfold mount_it_now, bind, get_fakeIt, get. rewrite Hfake.
    cbn. rewrite app_nil_r. repeat split; reflexivity.
  - destruct (mount (Some (mnt_fsname mp)) (Some (mnt_dir mp)) (mnt_type mp)
                    vfsflags fo (world s)) as [rc1 w1] eqn:H1.
    pose proof (mount_loop_two mp vfsflags fo s rc1 w1 H1) as Hloop.
    cbv zeta in Hloop.
    destruct (mount (Some (mnt_fsname mp)) (Some (mnt_dir mp)) (mnt_type mp)
                    (Z.lor vfsflags MS_RDONLY) fo w1) as [rc2 w2] eqn:H2.
    destruct (negb (rc1 =? 0) && (Z.land vfsflags MS_RDONLY =? 0)
              && ((errno w1 =? EACCES) || (errno w1 =? EROFS)));
      rewrite (mount_it_now_after_loop cfg mp vfsflags fo s _ _ _ Hfake Hloop);
      cbn [world fslist useMtab fakeIt trace];
      match goal with
      | |- context [if ?c then (Die _, _) else _] => destruct c
      end;
      try (eexists; cbn [fst snd trace fslist]; repeat split; reflexivity);
      match goal with
      | |- context [if ?c then _ else (Ret _, _)] => destruct c
      end;
      try (eexists; cbn [fst snd trace fslist]; repeat split; reflexivity);
      match goal with
      | |- context [setmntent ?a ?b ?w] => destruct (setmntent a b w) as [[tab|] w3]
      end;
      (eexists; cbn [fst snd trace fslist];
       split; [rewrite <- app_assoc; reflexivity | split; reflexivity]).
Qed.

End ExecutorClaims.

(** ** The table loops *)

Lemma strcmp_eqb (a b : string) :
  nul_free a = true -> nul_free b = true -> (strcmp a b =? 0) = String.eqb a b.
Proof.
  revert b. induction a as [| x a IH]; intros [| y b] Ha Hb; simpl in *.
  - reflexivity.
  - apply andb_prop in Hb as [Hy _]. apply negb_true_iff, is_nul_false in Hy.
    apply Z.eqb_neq. intros E. apply Hy, nat_of_ascii_zero. lia.
  - apply andb_prop in Ha as [Hx _]. apply negb_true_iff, is_nul_false in Hx.
    apply Z.eqb_neq. intros E. apply Hx, nat_of_ascii_zero. lia.
  - apply andb_prop in Ha as [_ Ha]. apply andb_prop in Hb as [_ Hb].
    destruct (Ascii.eqb x y) eqn:E.
    + apply IH; assumption.
    + apply Z.eqb_neq, code_diff_nonzero. apply Ascii.eqb_neq. exact E.
Qed.

Lemma flags_of_c_string (cfg : config) (opts : string) :
  flags_of cfg opts = Some (resolve_flags cfg (c_string opts)).
Proof.
  unfold flags_of, resolve_flags, c_string.
  rewrite parse_mount_options_spec by apply c_array_terminated. reflexivity.
Qed.

Section Tables.

Context {W : Type} {K : Collaborators W}.
Variable cfg : config.

Lemma parse_options_of_spec (opts : string) (unrec : option cptr) (s : state W) :
  parse_options_of cfg opts unrec s = (Ret (resolve cfg (c_string opts) unrec), s).
Proof.
  unfold parse_options_of, bind, lift_fuel, c_string.
  rewrite parse_mount_options_spec by apply c_array_terminated.
  unfold ret. destruct (resolve cfg (c_str (c_array opts) 0) unrec). reflexivity.
Qed.

(** One turn of the loop in "mount all" mode. *)
Lemma scan_table_all_step (inv : invocation) (name sp : string) (e : fstab_entry)
    (rest : list fstab_entry) (mtpair : slot * slot) (mtcur : bool) (rc : Z)
    (s : state W) :
  scan_table cfg inv name None sp (e :: rest) mtpair mtcur rc s =
  if skipped cfg inv e
  then scan_table cfg inv name None sp rest
                  (write_slot mtpair mtcur (mntent_of_entry e)) mtcur rc s
  else
    match singlemount cfg (mntent_of_entry e) true s with
    | (Ret (r, m'), s') =>
        scan_table cfg inv name None sp rest
                   (write_slot (write_slot mtpair mtcur (mntent_of_entry e)) mtcur m')
                   mtcur (if negb (r =? 0) then sint32 (rc + 1) else rc) s'
    | (Die msg, s') => (Die msg, s')
    | (OutOfFuel, s') => (OutOfFuel, s')
    end.
Proof.
  cbn [scan_table]. unfold skipped.
  destruct (match fstype inv with
            | Some t => negb (strcmp (fs_vfstype e) t =? 0)
            | None => false
            end); [reflexivity|].
  cbn [orb]. unfold bind at 1.
  rewrite parse_options_of_spec, resolve_no_collector, flags_of_c_string.
  cbn [mnt_opts mntent_of_entry].
  destruct (negb (Z.land (resolve_flags cfg (c_string (fs_mntops e)))
                         (Z.lor MOUNT_NOAUTO MOUNT_SWAP) =? 0)); [reflexivity|].
  unfold bind.
  destruct (singlemount cfg (mntent_of_entry e) true s) as [[[r m']| |] s']; reflexivity.
Qed.

Lemma sint32_succ (n : nat) :
  Z.of_nat n + 1 < 2 ^ 31 -> sint32 (Z.of_nat n + 1) = Z.of_nat (S n).
Proof.
  intros H. rewrite sint32_id by lia. lia.
Qed.

(** "Mount all" is [mount_each] over the records that are not skipped. *)
Lemma scan_table_all (inv : invocation) (name sp : string) (entries : list fstab_entry) :
  forall (mtpair : slot * slot) (mtcur : bool) (failed : nat) (s : state W),
    Z.of_nat (failed + List.length entries) < 2 ^ 31 ->
    scan_table cfg inv name None sp entries mtpair mtcur (Z.of_nat failed) s =
    (n <- mount_each cfg (attempted cfg inv entries) failed ;; ret (Z.of_nat n)) s.
Proof.
  induction entries as [| e rest IH]; intros mtpair mtcur failed s Hlen.
  - reflexivity.
  - rewrite scan_table_all_step. unfold attempted. cbn [filter].
    cbn [List.length] in Hlen.
    destruct (skipped cfg inv e); cbn [negb].
    + apply IH. lia.
    + cbn [map mount_each]. unfold bind at 1. unfold bind at 1.
      destruct (singlemount cfg (mntent_of_entry e) true s) as [[[r m']| |] s'];
        try reflexivity.
      destruct (r =? 0); cbn [negb].
      * apply IH. lia.
      * rewrite sint32_succ by lia. apply IH. lia.
Qed.

Lemma is_what_we_look_for_matches (arg sp : string) (e : fstab_entry) :
  nul_free arg = true -> nul_free sp = true -> entry_nul_free e = true ->
  is_what_we_look_for arg sp (mntent_of_entry e) = matches_request arg sp e.
Proof.
  intros Ha Hs He. unfold entry_nul_free in He.
  apply andb_prop in He as [He _]. apply andb_prop in He as [He _].
  apply andb_prop in He as [H1 H2].
  unfold is_what_we_look_for, matches_request. cbn [mnt_fsname mnt_dir mntent_of_entry].
  rewrite !strcmp_eqb by assumption.
  destruct (String.eqb arg (fs_spec e)), (String.eqb sp (fs_spec e)),
    (String.eqb arg (fs_file e)), (String.eqb sp (fs_file e)); reflexivity.
Qed.

Lemma read_other_slot (mtpair : slot * slot) (mtcur : bool) (m : mntent) :
  read_slot (write_slot mtpair mtcur m) (negb mtcur) = read_slot mtpair (negb mtcur).
Proof. destruct mtpair, mtcur; reflexivity. Qed.

Lemma read_written_slot (mtpair : slot * slot) (mtcur : bool) (m : mntent) :
  read_slot (write_slot mtpair mtcur m) mtcur = Some m.
Proof. destruct mtpair, mtcur; reflexivity. Qed.

(** [append_mount_options] on a string that is there puts the new options
    behind the old ones and a comma, or alone in the place of no options. *)
Lemma append_mount_options_appends (old new : string) :
  append_mount_options (Some old) new = with_caller_options old new.
Proof. destruct old; reflexivity. Qed.

(** A targeted scan ends with the last match of the entries to come, or
    with what the other slot remembers when none of them matches. *)
Lemma scan_table_target (inv : invocation) (name arg sp : string)
    (entries : list fstab_entry) :
  nul_free arg = true -> nul_free sp = true ->
  forallb entry_nul_free entries = true ->
  forall (mtpair : slot * slot) (mtcur : bool) (rc : Z) (s : state W),
    scan_table cfg inv name (Some arg) sp entries mtpair mtcur rc s =
    mount_found cfg inv name arg
      (match last_match arg sp entries with
       | Some e => Some (mntent_of_entry e)
       | None => read_slot mtpair (negb mtcur)
       end) s.
Proof.
  intros Ha Hs. induction entries as [| e rest IH]; intros Hall mtpair mtcur rc s.
  - cbn [scan_table last_match]. unfold mount_found.
    destruct (read_slot mtpair (negb mtcur)) as [m|]; [|reflexivity].
    rewrite append_mount_options_appends. reflexivity.
  - cbn [forallb] in Hall. apply andb_prop in Hall as [He Hrest].
    cbn [scan_table last_match].
    rewrite (is_what_we_look_for_matches arg sp e Ha Hs He).
    destruct (matches_request arg sp e).
    + rewrite (IH Hrest). rewrite negb_involutive, read_written_slot.
      destruct (last_match arg sp rest); reflexivity.
    + rewrite (IH Hrest). rewrite read_other_slot.
      destruct (last_match arg sp rest); reflexivity.
Qed.

End Tables.

(** ** Fuel is never short *)

Section Totality.

Context {W : Type} {K : Collaborators W}.
Variable cfg : config.

Lemma total_ret {A : Type} (a : A) : total (ret (W := W) a).
Proof. intros s. discriminate. Qed.

Lemma total_bind {A B : Type} (m : M W A) (k : A -> M W B) :
  total m -> (forall a, total (k a)) -> total (bind m k).
Proof.
  intros Hm Hk s. unfold bind. specialize (Hm s).
  destruct (m s) as [[a | msg |] s']; cbn [fst] in *.
  - apply Hk.
  - discriminate.
  - congruence.
Qed.

Lemma total_emit (e : event) : total (emit (W := W) e).
Proof. intros s. discriminate. Qed.

Lemma total_call {A : Type} (f : W -> A * W) : total (call f).
Proof. intros s. unfold call. destruct (f (world s)). discriminate. Qed.

Lemma total_get {A : Type} (f : state W -> A) : total (get f).
Proof. intros s. discriminate. Qed.

Lemma total_get_errno : total get_errno.
Proof. intros s. discriminate. Qed.

Lemma total_die {A : Type} (msg : string) :
  total (bb_error_msg_and_die (W := W) (A := A) msg).
Proof. intros s. discriminate. Qed.

Lemma total_set_fslist (l : list string) :
  total (fun s : state W => (Ret tt, with_fslist s l)).
Proof. intros s. discriminate. Qed.

Lemma total_parse_options_of (opts : string) (unrec : option cptr) :
  total (parse_options_of (W := W) cfg opts unrec).
Proof. intros s. rewrite parse_options_of_spec. discriminate. Qed.

Lemma total_mount_it_now (mp : mntent) (vfsflags : Z) (fo : cptr) :
  total (mount_it_now cfg mp vfsflags fo).
Proof.
  intros s.
  destruct (FEATURE_MTAB_SUPPORT cfg && fakeIt s) eqn:Hfake.
  - unfold mount_it_now, bind, get_fakeIt, get. rewrite Hfake. discriminate.
  - destruct (mount (Some (mnt_fsname mp)) (Some (mnt_dir mp)) (mnt_type mp)
                    vfsflags fo (world s)) as [rc1 w1] eqn:H1.
    pose proof (mount_loop_two mp vfsflags fo s rc1 w1 H1) as Hloop.
    cbv zeta in Hloop.
    destruct (mount (Some (mnt_fsname mp)) (Some (mnt_dir mp)) (mnt_type mp)
                    (Z.lor vfsflags MS_RDONLY) fo w1) as [rc2 w2] eqn:H2.
    destruct (negb (rc1 =? 0) && (Z.land vfsflags MS_RDONLY =? 0)
              && ((errno w1 =? EACCES) || (errno w1 =? EROFS)));
      rewrite (mount_it_now_after_loop cfg mp vfsflags fo s _ _ _ Hfake Hloop);
      repeat match goal with
             | |- context [if ?c then _ else _] => destruct c
             | |- context [setmntent ?a ?b ?w] => destruct (setmntent a b w)
             end;
      discriminate.
Qed.

Create HintDb total.
#[local] Hint Resolve total_ret total_emit total_call total_get total_get_errno
  total_die total_set_fslist total_parse_options_of total_mount_it_now : total.

(** Take a computation apart along its binds and its case distinctions. *)
Ltac total_steps :=
  repeat first
    [ match goal with |- forall _, _ => intro end
    | solve [auto with total]
    | match goal with
      | |- total (bind _ _) => apply total_bind
      | |- total (match ?x with _ => _ end) => destruct x
      end ].

Lemma total_report_error (mp : mntent) (ignore_busy : bool) (rc : Z) :
  total (report_error mp ignore_busy rc).
Proof. unfold report_error, bb_error_msg. total_steps. Qed.

Lemma total_try_filesystems (fl : list string) :
  forall mp vfsflags fo rc, total (try_filesystems cfg fl mp vfsflags fo rc).
Proof.
  induction fl as [| data link IH]; intros mp vfsflags fo rc; cbn [try_filesystems].
  - auto with total.
  - total_steps.
Qed.

Lemma total_read_filesystems (files : list string) :
  forall lst, total (read_filesystems files lst).
Proof.
  induction files as [| path files IH]; intros lst; cbn [read_filesystems].
  - auto with total.
  - total_steps.
Qed.

Lemma total_mount_cifs (mp : mntent) (vfsflags : Z) (fo : cptr) :
  total (mount_cifs cfg mp vfsflags fo).
Proof. unfold mount_cifs. total_steps. Qed.

Lemma total_singlemount (mp : mntent) (ignore_busy : bool) :
  total (singlemount cfg mp ignore_busy).
Proof.
  unfold singlemount, get_block_backed_filesystems, bb_error_msg.
  pose proof total_report_error. pose proof total_try_filesystems.
  pose proof total_read_filesystems. pose proof total_mount_cifs.
  total_steps.
Qed.

Lemma total_mount_each (ms : list mntent) :
  forall failed, total (mount_each cfg ms failed).
Proof.
  induction ms as [| m ms IH]; intros failed; cbn [mount_each].
  - auto with total.
  - pose proof total_singlemount. total_steps.
Qed.

Lemma total_mount_found (inv : invocation) (name arg : string) (found : option mntent) :
  total (mount_found cfg inv name arg found).
Proof.
  unfold mount_found. pose proof total_singlemount. total_steps.
Qed.

End Totality.

(** ** Runs that do not maintain the legacy mount table *)

Section TableLeftAlone.

Context {W : Type} {K : Collaborators W}.
Variable cfg : config.
Variable s0 : state W.

Lemma alone_ret {A : Type} (a : A) : leaves_table_alone cfg s0 (ret a).
Proof. intros s H. exact H. Qed.

Lemma alone_bind {A B : Type} (m : M W A) (k : A -> M W B) :
  leaves_table_alone cfg s0 m -> (forall a, leaves_table_alone cfg s0 (k a)) ->
  leaves_table_alone cfg s0 (bind m k).
Proof.
  intros Hm Hk s H. unfold bind. specialize (Hm s H).
  destruct (m s) as [[a | msg |] s']; cbn [snd] in *.
  - apply Hk. exact Hm.
  - exact Hm.
  - exact Hm.
Qed.

Lemma alone_emit (e : event) :
  is_mtab_append e = false -> leaves_table_alone cfg s0 (emit e).
Proof.
  intros He s (Hm & later & Ht & Hq). unfold emit. cbn [snd].
  split; [exact Hm|]. cbn [trace].
  exists (later ++ [e]). rewrite Ht, app_assoc, forallb_app, Hq.
  cbn [forallb]. rewrite He. split; reflexivity.
Qed.

Lemma alone_call {A : Type} (f : W -> A * W) : leaves_table_alone cfg s0 (call f).
Proof.
  intros s H. unfold call. destruct (f (world s)) as [a w]. exact H.
Qed.

Lemma alone_get {A : Type} (f : state W -> A) : leaves_table_alone cfg s0 (get f).
Proof. intros s H. exact H. Qed.

Lemma alone_get_errno : leaves_table_alone cfg s0 get_errno.
Proof. intros s H. exact H. Qed.

Lemma alone_die {A : Type} (msg : string) :
  leaves_table_alone cfg s0 (bb_error_msg_and_die (W := W) (A := A) msg).
Proof. intros s H. exact H. Qed.

Lemma alone_set_fslist (l : list string) :
  leaves_table_alone cfg s0 (fun s : state W => (Ret tt, with_fslist s l)).
Proof. intros s H. exact H. Qed.

Lemma alone_parse_options_of (opts : string) (unrec : option cptr) :
  leaves_table_alone cfg s0 (parse_options_of (W := W) cfg opts unrec).
Proof. intros s H. rewrite parse_options_of_spec. exact H. Qed.

(** [useMtab] is read as false, so that the block for the legacy table is
    passed over. *)
Lemma alone_get_useMtab {B : Type} (k : bool -> M W B) :
  leaves_table_alone cfg s0 (k false) ->
  leaves_table_alone cfg s0 (bind (get_useMtab cfg) k).
Proof.
  intros Hk s H. unfold bind, get_useMtab, get.
  destruct H as (Hm & H). rewrite Hm. apply Hk. split; assumption.
Qed.

Create HintDb alone.
#[local] Hint Resolve alone_ret alone_call alone_get alone_get_errno alone_die
  alone_set_fslist alone_parse_options_of : alone.
#[local] Hint Extern 1 (leaves_table_alone _ _ (emit _)) =>
  (apply alone_emit; reflexivity) : alone.
#[local] Hint Extern 1 (leaves_table_alone _ _ (bb_error_msg _)) =>
  (apply alone_emit; reflexivity) : alone.

(** Take a computation apart along its binds and its case distinctions. *)
Ltac alone_steps :=
  repeat first
    [ match goal with |- forall _, _ => intro end
    | solve [auto with alone]
    | match goal with
      | |- leaves_table_alone _ _ (bind (get_useMtab _) _) =>
          apply alone_get_useMtab; cbn [andb]
      | |- leaves_table_alone _ _ (bind _ _) => apply alone_bind
      | |- leaves_table_alone _ _ (match ?x with _ => _ end) => destruct x
      end ].

Lemma alone_mount_loop (fuel : nat) (mp : mntent) (fo : cptr) :
  forall vfsflags, leaves_table_alone cfg s0 (mount_loop fuel mp vfsflags fo).
Proof.
  induction fuel as [| fuel IH]; intros vfsflags; cbn [mount_loop].
  - intros s H. exact H.
  - alone_steps.
Qed.

Lemma alone_mount_it_now (mp : mntent) (vfsflags : Z) (fo : cptr) :
  leaves_table_alone cfg s0 (mount_it_now cfg mp vfsflags fo).
Proof.
  unfold mount_it_now, get_fakeIt. pose proof alone_mount_loop. alone_steps.
Qed.

Lemma alone_report_error (mp : mntent) (ignore_busy : bool) (rc : Z) :
  leaves_table_alone cfg s0 (report_error mp ignore_busy rc).
Proof. unfold report_error. alone_steps. Qed.

Lemma alone_try_filesystems (fl : list string) :
  forall mp vfsflags fo rc,
    leaves_table_alone cfg s0 (try_filesystems cfg fl mp vfsflags fo rc).
Proof.
  induction fl as [| data link IH]; intros mp vfsflags fo rc; cbn [try_filesystems].
  - auto with alone.
  - pose proof alone_mount_it_now. alone_steps.
Qed.

Lemma alone_read_filesystems (files : list string) :
  forall lst, leaves_table_alone cfg s0 (read_filesystems files lst).
Proof.
  induction files as [| path files IH]; intros lst; cbn [read_filesystems].
  - auto with alone.
  - alone_steps.
Qed.

Lemma alone_mount_cifs (mp : mntent) (vfsflags : Z) (fo : cptr) :
  leaves_table_alone cfg s0 (mount_cifs cfg mp vfsflags fo).
Proof. unfold mount_cifs. pose proof alone_mount_it_now. alone_steps. Qed.

Lemma alone_singlemount (mp : mntent) (ignore_busy : bool) :
  leaves_table_alone cfg s0 (singlemount cfg mp ignore_busy).
Proof.
  unfold singlemount, get_block_backed_filesystems.
  pose proof alone_mount_it_now. pose proof alone_report_error.
  pose proof alone_try_filesystems. pose proof alone_read_filesystems.
  pose proof alone_mount_cifs.
  alone_steps.
Qed.

Lemma alone_mount_each (ms : list mntent) :
  forall failed, leaves_table_alone cfg s0 (mount_each cfg ms failed).
Proof.
  induction ms as [| m ms IH]; intros failed; cbn [mount_each].
  - auto with alone.
  - pose proof alone_singlemount. alone_steps.
Qed.

End TableLeftAlone.

(** ** The claims on the table loops *)

Section TableClaims.

Context {W : Type} {K : Collaborators W}.
Variable cfg : config.

(** [mount_main] with no operand and -a, or with one operand, once the
    table is open. *)
Lemma mount_main_scans (inv : invocation) (s : state W)
    (entries : list fstab_entry) (w1 : W) :
  (operands inv = [] /\ all inv = true) \/ (exists arg, operands inv = [arg]) ->
  shared_subtree cfg inv = false ->
  setmntent (table_name cfg inv) "r" (world s) = (Some entries, w1) ->
  mount_main cfg inv s =
  scan_table cfg inv (table_name cfg inv) (nth_error (operands inv) 0)
             (match nth_error (operands inv) 0 with
              | Some arg => bb_simplify_path arg (world s)
              | None => ""
              end)
             entries (None, None) false 0
             (table_opened s (table_name cfg inv) w1).
Proof.
  intros Hmode Hshared Htab. unfold mount_main.
  assert (E : (match nth_error (operands inv) 0, all inv with
               | None, false => true
               | _, _ => false
               end) = false).
  { destruct Hmode as [[-> ->] | [arg ->]]; reflexivity. }
  assert (Hop : match operands inv with [_; _] => False | _ => True end).
  { destruct Hmode as [[-> _] | [arg ->]]; exact I. }
  unfold shared_subtree in Hshared. unfold table_name in Htab.
  destruct (nth_error (operands inv) 0) as [arg|] eqn:En; [| destruct (all inv); [|discriminate]];
    unfold bind at 1; unfold get;
    destruct (operands inv) as [| a [| b [| c l]]]; try contradiction;
    unfold bind at 1;
    rewrite parse_options_of_spec, resolve_no_collector;
    rewrite Hshared; unfold bind, emit, call, with_world;
    cbn [world fslist useMtab fakeIt trace];
    unfold table_name; rewrite Htab; reflexivity.
Qed.

(** C3.  When the last attempt of [mount_it_now] fails with errno EPERM,
    the call does not return a failure code: it ends the process with the
    "are you root?" message, whatever was to follow the call.  In a "mount
    all" run the table loop ends with the process at the record whose mount
    ended it, in the state of that moment, so that the records after it are
    never attempted. *)
Theorem mount_it_now_dies_on_eperm
    (mp : mntent) (vfsflags : Z) (fo : cptr) (s : state W) (rc fl : Z) (s1 : state W) :
  FEATURE_MTAB_SUPPORT cfg && fakeIt s = false ->
  mount_loop 2 mp vfsflags fo s = (Ret (rc, fl), s1) ->
  rc <> 0 ->
  errno (world s1) = EPERM ->
  mount_it_now cfg mp vfsflags fo s = (Die bb_msg_perm_denied_are_you_root, s1)
  /\ (forall (B : Type) (k : Z * mntent -> M W B),
        bind (mount_it_now cfg mp vfsflags fo) k s
        = (Die bb_msg_perm_denied_are_you_root, s1))
  /\ (forall inv name sp e rest mtpair mtcur n s0 msg s2,
        skipped cfg inv e = false ->
        singlemount cfg (mntent_of_entry e) true s0 = (Die msg, s2) ->
        scan_table cfg inv name None sp (e :: rest) mtpair mtcur n s0 = (Die msg, s2)).
Proof.
  intros Hfake Hloop Hrc Hperm.
  assert (E : mount_it_now cfg mp vfsflags fo s
              = (Die bb_msg_perm_denied_are_you_root, s1)).
  { rewrite (mount_it_now_after_loop cfg mp vfsflags fo s rc fl s1 Hfake Hloop).
    apply Z.eqb_neq in Hrc. rewrite Hrc, Hperm. reflexivity. }
  split; [exact E|]. split.
  - intros B k. unfold bind. rewrite E. reflexivity.
  - intros inv name sp e rest mtpair mtcur n s0 msg s2 Hskip Hdie.
    rewrite scan_table_all_step, Hskip, Hdie. reflexivity.
Qed.

(** C5.  With one operand and the table open, [mount_main] mounts the
    last record in file order whose source or target equals the operand or
    its simplified path: when no record matches the process ends with an
    error; otherwise [singlemount] is called once, on that record with
    its options followed by a comma and the caller's options (the
    caller's options alone when the record has none).  Of two records for
    /mnt, from A and then from B, the one from B is taken. *)
Theorem targeted_mount_takes_last_match
    (inv : invocation) (s : state W) (arg : string)
    (entries : list fstab_entry) (w1 : W) :
  operands inv = [arg] ->
  shared_subtree cfg inv = false ->
  setmntent (table_name cfg inv) "r" (world s) = (Some entries, w1) ->
  nul_free arg = true ->
  nul_free (bb_simplify_path arg (world s)) = true ->
  forallb entry_nul_free entries = true ->
  mount_main cfg inv s =
  match last_match arg (bb_simplify_path arg (world s)) entries with
  | None =>
      (Die ("can't find " ++ arg ++ " in " ++ table_name cfg inv),
       table_opened s (table_name cfg inv) w1)
  | Some e =>
      ('(rc, _) <- singlemount cfg
                     (Mntent (fs_spec e) (fs_file e) (Some (fs_vfstype e))
                             (match fs_mntops e with
                              | EmptyString => cmdopts inv
                              | String _ _ => fs_mntops e ++ "," ++ cmdopts inv
                              end)%string)
                     false ;;
       ret rc) (table_opened s (table_name cfg inv) w1)
  end
  /\ fst (mount_main cfg inv s) <> OutOfFuel
  /\ forall sp A B t1 t2 o1 o2,
       last_match "/mnt" sp [FstabEntry A "/mnt" t1 o1; FstabEntry B "/mnt" t2 o2]
       = Some (FstabEntry B "/mnt" t2 o2).
Proof.
  intros Hop Hshared Htab Harg Hsp Hall.
  assert (E : mount_main cfg inv s =
              mount_found cfg inv (table_name cfg inv) arg
                (option_map mntent_of_entry
                   (last_match arg (bb_simplify_path arg (world s)) entries))
                (table_opened s (table_name cfg inv) w1)).
  { rewrite (mount_main_scans inv s entries w1) by (try right; eauto).
    rewrite Hop. cbn [nth_error].
    rewrite scan_table_target by assumption.
    cbn [read_slot negb snd].
    destruct (last_match arg (bb_simplify_path arg (world s)) entries); reflexivity. }
  split; [|split].
  - rewrite E.
    destruct (last_match arg (bb_simplify_path arg (world s)) entries) as [e|];
      reflexivity.
  - rewrite E. apply total_mount_found.
  - intros sp A B t1 t2 o1 o2. cbn [last_match].
    unfold matches_request. cbn [fs_file fs_spec].
    rewrite (String.eqb_refl "/mnt"). rewrite !orb_true_r. 
    destruct (String.eqb "/mnt" B || String.eqb sp B); reflexivity.
Qed.


End TableClaims.

(** ** The list of filesystems *)

Lemma strncmp_prefix (n : nat) :
  forall a b : string,
    nul_free b = true -> String.length b = n ->
    (strncmp a b n =? 0) = String.eqb (substring 0 n a) b.
Proof.
  induction n as [| n IH]; intros a [| y b] Hb Hlen; simpl in *; try discriminate.
  - destruct a; reflexivity.
  - apply andb_prop in Hb as [Hy Hb]. injection Hlen as Hlen.
    destruct a as [| x a]; simpl.
    + apply negb_true_iff, is_nul_false in Hy.
      apply Z.eqb_neq. intros E. apply Hy, nat_of_ascii_zero. lia.
    + destruct (Ascii.eqb x y) eqn:E.
      * apply IH; assumption.
      * apply Z.eqb_neq, code_diff_nonzero, Ascii.eqb_neq, E.
Qed.

Lemma skip_spaces_nul_free (s : string) :
  nul_free s = true -> nul_free (skip_spaces s) = true.
Proof.
  induction s as [| c s IH]; simpl; intros H; [reflexivity|].
  destruct (isspace c); [|exact H].
  apply andb_prop in H as [_ H]. apply IH, H.
Qed.

(** The loop [while(isspace( *fs)) fs++] leaves the line with its leading
    whitespace trimmed. *)
Lemma skip_spaces_trims (line : string) :
  skip_spaces line = trim_leading_whitespace line.
Proof.
  unfold trim_leading_whitespace.
  induction line as [| c rest IH]; [reflexivity|].
  cbn [skip_spaces list_ascii_of_string leading_whitespace].
  destruct (isspace c).
  - exact IH.
  - cbn [skipn string_of_list_ascii]. rewrite string_of_list_ascii_of_string.
    reflexivity.
Qed.

(** The trimmed text is the line without a prefix of whitespace, and does
    not start with whitespace itself. *)
Lemma trim_leading_whitespace_spec (line : string) :
  exists ws,
    line = (ws ++ trim_leading_whitespace line)%string
    /\ forallb isspace (list_ascii_of_string ws) = true
    /\ match trim_leading_whitespace line with
       | String c _ => isspace c = false
       | EmptyString => True
       end.
Proof.
  rewrite <- skip_spaces_trims.
  induction line as [| c rest (ws & Hline & Hws & Hhead)].
  - exists EmptyString. repeat split.
  - cbn [skip_spaces]. destruct (isspace c) eqn:Hc.
    + exists (String c ws). cbn [String.append list_ascii_of_string forallb].
      rewrite Hc, Hws, <- Hline. repeat split. exact Hhead.
    + exists EmptyString. repeat split. exact Hc.
Qed.

Lemma first_char_tests (buf : string) :
  nul_free buf = true ->
  (Ascii.eqb (char_at (skip_spaces buf) 0) "#"%char
   || Ascii.eqb (char_at (skip_spaces buf) 0) "*"%char) = comment_line buf
  /\ is_nul (char_at (skip_spaces buf) 0) = blank_line buf.
Proof.
  unfold comment_line, blank_line, first_non_whitespace.
  induction buf as [| c rest IH]; intros Hbuf; [split; reflexivity|].
  cbn [nul_free] in Hbuf. apply andb_prop in Hbuf as [Hc Hrest].
  cbn [skip_spaces list_ascii_of_string find forallb].
  destruct (isspace c); cbn [negb andb].
  - exact (IH Hrest).
  - apply negb_true_iff in Hc. split; [reflexivity | exact Hc].
Qed.

Lemma add_filesystems_block_backed (lines : list string) :
  forallb nul_free lines = true ->
  forall lst, add_filesystems lines lst = lst ++ block_backed lines.
Proof.
  unfold block_backed.
  induction lines as [| buf lines IH]; intros Hall lst; cbn [add_filesystems filter map].
  - symmetry. apply app_nil_r.
  - cbn [forallb] in Hall. apply andb_prop in Hall as [Hbuf Hrest].
    rewrite (strncmp_prefix 5 buf "nodev") by reflexivity.
    fold (nodev_line buf).
    destruct (first_char_tests buf Hbuf) as [-> ->].
    destruct (nodev_line buf); cbn [negb andb]; [apply IH, Hrest|].
    destruct (comment_line buf); cbn [negb andb]; [apply IH, Hrest|].
    destruct (blank_line buf); cbn [negb andb]; [apply IH, Hrest|].
    cbn [map]. rewrite (IH Hrest). rewrite <- app_assoc, skip_spaces_trims. reflexivity.
Qed.

Lemma chomped_lines_nul_free (contents : string) :
  nul_free contents = true -> forallb nul_free (chomped_lines contents) = true.
Proof.
  induction contents as [| c rest IH]; simpl; intros H; [reflexivity|].
  apply andb_prop in H as [Hc Hrest]. specialize (IH Hrest).
  destruct (Ascii.eqb c "010"%char).
  - simpl. exact IH.
  - destruct (chomped_lines rest) as [| line lines]; simpl in *.
    + rewrite Hc. reflexivity.
    + rewrite Hc. exact IH.
Qed.

Section Filesystems.

Context {W : Type} {K : Collaborators W}.

Lemma read_filesystems_step (path : string) (files lst : list string)
    (s : state W) (f : option string) (w : W) :
  fopen path (world s) = (f, w) ->
  text_file f = true ->
  read_filesystems (path :: files) lst s =
  read_filesystems files (lst ++ block_backed_of_file f)
    (State w (fslist s) (useMtab s) (fakeIt s) (trace s ++ [EvFopen path])).
Proof.
  intros H T. cbn [read_filesystems].
  unfold bind, emit, call, with_world. cbn [world fslist useMtab fakeIt trace].
  rewrite H. cbn [world fslist useMtab fakeIt trace].
  destruct f as [contents|]; cbn [block_backed_of_file].
  - rewrite add_filesystems_block_backed by (apply chomped_lines_nul_free, T).
    reflexivity.
  - rewrite app_nil_r. reflexivity.
Qed.

(** C7.  The list [get_block_backed_filesystems] returns is made of what
    /etc/filesystems contributes followed by what /proc/filesystems
    contributes, a file that does not open contributing nothing; a file
    contributes, in file order and with nothing removed as a duplicate,
    the text after the leading whitespace of each of its lines except the
    lines that start with "nodev" and a whitespace character, the lines
    whose first non-whitespace character is # or *, and the blank lines.
    The trimmed text of a line is the line without a prefix made of
    whitespace, and it does not start with whitespace.  The example file
    yields the one name ext4. *)
Theorem get_block_backed_filesystems_lists
    (s : state W) (f1 f2 : option string) (w1 w2 : W) :
  fopen "/etc/filesystems" (world s) = (f1, w1) ->
  fopen "/proc/filesystems" w1 = (f2, w2) ->
  text_file f1 = true ->
  text_file f2 = true ->
  fst (get_block_backed_filesystems s)
  = Ret (block_backed_of_file f1 ++ block_backed_of_file f2)
  /\ add_filesystems (chomped_lines example_filesystems) [] = ["ext4"]
  /\ block_backed_of_file (Some example_filesystems) = ["ext4"]
  /\ forall line,
       exists ws,
         line = (ws ++ trim_leading_whitespace line)%string
         /\ forallb isspace (list_ascii_of_string ws) = true
         /\ match trim_leading_whitespace line with
            | String c _ => isspace c = false
            | EmptyString => True
            end.
Proof.
  intros H1 H2 T1 T2.
  split; [| split; [reflexivity | split; [reflexivity | apply trim_leading_whitespace_spec]]].
  unfold get_block_backed_filesystems, filesystems.
  rewrite (read_filesystems_step _ _ _ s f1 w1 H1 T1).
  rewrite (read_filesystems_step "/proc/filesystems" [] _
             (State w1 (fslist s) (useMtab s) (fakeIt s)
                    (trace s ++ [EvFopen "/etc/filesystems"])) f2 w2 H2 T2).
  reflexivity.
Qed.

End Filesystems.

(** ** singlemount *)

Lemma bind_flag_set (vfsflags : Z) :
  (Z.land (Z.lor vfsflags MS_BIND) (Z.lor MS_REMOUNT (Z.lor MS_BIND MS_MOVE)) =? 0) = false.
Proof.
  apply Z.eqb_neq. intros H.
  assert (B : Z.testbit (Z.land (Z.lor vfsflags MS_BIND)
                                (Z.lor MS_REMOUNT (Z.lor MS_BIND MS_MOVE))) 12 = false)
    by (rewrite H; apply Z.bits_0).
  rewrite Z.land_spec, Z.lor_spec in B.
  change (Z.testbit MS_BIND 12) with true in B.
  change (Z.testbit (Z.lor MS_REMOUNT (Z.lor MS_BIND MS_MOVE)) 12) with true in B.
  rewrite orb_true_r in B. discriminate.
Qed.

Section Singlemount.

Context {W : Type} {K : Collaborators W}.
Variable cfg : config.

Lemma report_error_frame (mp : mntent) (ignore_busy : bool) (rc : Z) (s : state W) :
  exists later,
    trace (snd (report_error mp ignore_busy rc s)) = trace s ++ later
    /\ forallb (fun e => negb (is_addmntent e) && negb (is_fopen e)) later = true
    /\ fslist (snd (report_error mp ignore_busy rc s)) = fslist s.
Proof.
  unfold report_error, bind, get_errno, bb_error_msg, emit, ret.
  destruct ((if negb (rc =? 0) && (errno (world s) =? EBUSY) && ignore_busy then 0 else rc) <? 0).
  - eexists. cbn [fst snd trace fslist]. repeat split; reflexivity.
  - exists []. cbn [fst snd trace fslist]. rewrite app_nil_r. repeat split; reflexivity.
Qed.

Lemma no_fopen (l : list event) :
  forallb (fun e => negb (is_addmntent e) && negb (is_fopen e)) l = true ->
  forallb (fun e => negb (is_fopen e)) l = true.
Proof.
  induction l as [| e l IH]; cbn [forallb]; [reflexivity|].
  intros H. apply andb_prop in H as [He Hl]. apply andb_prop in He as [_ He].
  rewrite He. exact (IH Hl).
Qed.

(** C8.  A request whose type is null or "auto", that looks neither like
    CIFS nor like NFS, whose options resolve to flags without MS_REMOUNT,
    MS_BIND and MS_MOVE and whose source [lstat] finds to be a directory is
    mounted by one call of [mount_it_now] with MS_BIND added to the flags
    and the source as it was, followed by the common exit of
    [singlemount]; the list of filesystems is neither read nor built. *)
Theorem singlemount_autodetects_bind
    (mp : mntent) (ignore_busy : bool) (s : state W)
    (vfsflags : Z) (unrec : option cptr) (w1 : W) :
  mnt_type mp = None \/ mnt_type mp = Some "auto" ->
  looks_like_cifs cfg (set_type mp None) = false ->
  looks_like_nfs cfg (set_type mp None) = false ->
  resolve cfg (c_string (mnt_opts mp)) (Some None) = (vfsflags, unrec) ->
  Z.land vfsflags (Z.lor MS_REMOUNT (Z.lor MS_BIND MS_MOVE)) = 0 ->
  lstat (mnt_fsname mp) (world s) = (Some S_IFDIR, w1) ->
  let filteropts := match unrec with Some p => p | None => None end in
  singlemount cfg mp ignore_busy s =
    ('(rc, mp') <- mount_it_now cfg (set_type mp None) (Z.lor vfsflags MS_BIND) filteropts ;;
     report_error mp' ignore_busy rc) (with_world s w1)
  /\ mnt_fsname (set_type mp None) = mnt_fsname mp
  /\ fslist (snd (singlemount cfg mp ignore_busy s)) = fslist s
  /\ exists later,
       trace (snd (singlemount cfg mp ignore_busy s)) = trace s ++ later
       /\ forallb (fun e => negb (is_fopen e)) later = true.
Proof.
  intros Htype Hcifs Hnfs Hres Hact Hstat filteropts.
  unfold filteropts. clear filteropts.
  set (filteropts := match unrec with Some p => p | None => None end).
  assert (Hmp : (if is_str (mnt_type mp) "auto" then set_type mp None else mp)
                = set_type mp None).
  { destruct mp as [f d t o]. cbn in Htype |- *.
    destruct Htype as [-> | ->]; reflexivity. }
  assert (E : singlemount cfg mp ignore_busy s =
    ('(rc, mp') <- mount_it_now cfg (set_type mp None) (Z.lor vfsflags MS_BIND) filteropts ;;
     report_error mp' ignore_busy rc) (with_world s w1)).
  { unfold singlemount. unfold bind at 1. rewrite parse_options_of_spec, Hres.
    fold filteropts. rewrite Hmp, Hcifs, Hnfs.
    unfold bind at 1. unfold call at 1.
    cbn [mnt_fsname set_type]. rewrite Hstat.
    apply Z.eqb_eq in Hact. rewrite Hact.
    cbn [mnt_type set_type].
    unfold bind at 1. unfold ret at 1.
    cbn [mnt_type set_type orb]. rewrite bind_flag_set. cbn [negb].
    unfold bind at 1. unfold bind at 1.
    unfold bind at 1.
    destruct (mount_it_now cfg (set_type mp None) (Z.lor vfsflags MS_BIND) filteropts
                           (with_world s w1)) as [[[rc mp']| |] s']; reflexivity. }
  split; [exact E|]. split; [reflexivity|].
  rewrite E. unfold bind.
  destruct (mount_it_now_frame cfg (set_type mp None) (Z.lor vfsflags MS_BIND) filteropts
                               (with_world s w1)) as (l1 & T1 & Q1 & F1).
  apply no_fopen in Q1.
  destruct (mount_it_now cfg (set_type mp None) (Z.lor vfsflags MS_BIND) filteropts
                         (with_world s w1)) as [[[rc mp']| |] s'];
    cbn [fst snd] in *; try (split; [exact F1 | exists l1; split; assumption]).
  destruct (report_error_frame mp' ignore_busy rc s') as (l2 & T2 & Q2 & F2).
  apply no_fopen in Q2.
  split; [rewrite F2, F1; reflexivity|].
  exists (l1 ++ l2). rewrite T2, T1. cbn [with_world trace].
  rewrite app_assoc, forallb_app, Q1, Q2. split; reflexivity.
Qed.

End Singlemount.

(** ** The program at work *)

(** C4.  [mount_it_now] never calls [addmntent], so that no record reaches
    the legacy mount table.  On /dev/sda1 mounted on /mnt/ as ext2 with
    the table enabled the mount succeeds, the table is opened for
    appending and closed, and the entry is prepared in [*mp] (the names of
    all positive flags added to "rw", the trailing / gone), but nothing is
    written between the opening and the closing. *)
Theorem mount_it_now_appends_no_record
    {W : Type} {K : Collaborators W} (cfg : config)
    (mp : mntent) (vfsflags : Z) (fo : cptr) (s : state W) :
  (exists later,
      trace (snd (mount_it_now cfg mp vfsflags fo s)) = trace s ++ later
      /\ forallb (fun e => negb (is_addmntent e)) later = true)
  /\ mount_it_now (Config true true true true true true false)
                  (Mntent "/dev/sda1" "/mnt/" (Some "ext2") "rw") MS_SILENT None
                  (Sim.start true Sim.calm)
     = (Ret (0, Mntent "/dev/sda1" "/mnt" (Some "ext2")
                  "rw,noauto,swap,nosuid,nodev,noexec,sync,noatime,nodiratime,bind,move,shared,slave,private,unbindable,rshared,rslave,rprivate,runbindable,ro"),
        State Sim.calm [] true false
              [ EvMount (Some "/dev/sda1") (Some "/mnt/") (Some "ext2") MS_SILENT None;
                EvSetmntent "/etc/mtab" "a+";
                EvEndmntent ]).
Proof.
  split; [|reflexivity].
  destruct (mount_it_now_frame cfg mp vfsflags fo s) as (later & T & Q & _).
  exists later. split; [exact T|].
  rewrite forallb_forall in Q |- *. intros e He.
  specialize (Q e He). apply andb_prop in Q as [Q _]. exact Q.
Qed.


(** The count is not the number of records that were not mounted: the
    mount of /dev/A fails with EBUSY, which is tolerated, and //server,
    which names no share, is given up without a call of mount(2) while
    [errno] still is EBUSY, so that this failure counts as busy too. *)
Lemma mount_all_forgives_stale_busy :
  attempted full_config (Invocation "" None true []) Sim.fstab_device_then_share
  = map mntent_of_entry Sim.fstab_device_then_share
  /\ fst (mount_main full_config (Invocation "" None true []) (Sim.start false Sim.busy))
     = Ret 0
  /\ mount_attempts
       (trace (snd (mount_main full_config (Invocation "" None true [])
                               (Sim.start false Sim.busy))))
     = [EvMount (Some "/dev/A") (Some "/a") (Some "ext2") MS_SILENT None].
Proof.
  repeat split; reflexivity.
Qed.

(** A write-protected device: EACCES, then success read-only. *)
Lemma mount_it_now_retries_once_read_only_witness :
  FEATURE_MTAB_SUPPORT full_config && fakeIt (Sim.start false Sim.write_protected) = false
  /\ mount (Some "/dev/sda1") (Some "/mnt") (Some "ext2") MS_SILENT None Sim.write_protected
     = (-1, Sim.Kernel EACCES [(0, 0)] [] [] [])
  /\ mount (Some "/dev/sda1") (Some "/mnt") (Some "ext2") (Z.lor MS_SILENT MS_RDONLY) None
           (Sim.Kernel EACCES [(0, 0)] [] [] [])
     = (0, Sim.Kernel EACCES [] [] [] [])
  /\ exists later,
       trace (snd (mount_it_now full_config (Mntent "/dev/sda1" "/mnt" (Some "ext2") "")
                                MS_SILENT None (Sim.start false Sim.write_protected)))
       = [] ++ later
       /\ mount_attempts later
          = [ EvMount (Some "/dev/sda1") (Some "/mnt") (Some "ext2") MS_SILENT None;
              EvMount (Some "/dev/sda1") (Some "/mnt") (Some "ext2")
                      (Z.lor MS_SILENT MS_RDONLY) None ]
       /\ ends_with 0 (Sim.Kernel EACCES [] [] [] [])
            (fst (mount_it_now full_config (Mntent "/dev/sda1" "/mnt" (Some "ext2") "")
                               MS_SILENT None (Sim.start false Sim.write_protected))).
Proof.
  split; [reflexivity|]. split; [reflexivity|]. split; [reflexivity|].
  exact (mount_it_now_retries_once_read_only full_config
           (Mntent "/dev/sda1" "/mnt" (Some "ext2") "") MS_SILENT None
           (Sim.start false Sim.write_protected)
           (-1) 0 (Sim.Kernel EACCES [(0, 0)] [] [] []) (Sim.Kernel EACCES [] [] [] [])
           eq_refl eq_refl eq_refl).
Defined.

(** Not root: the first record of the table ends the run. *)
Lemma mount_it_now_dies_on_eperm_witness :
  FEATURE_MTAB_SUPPORT full_config && fakeIt (Sim.start false Sim.not_root) = false
  /\ mount_loop 2 (Mntent "/dev/A" "/mnt" (Some "ext2") "defaults") MS_SILENT None
                (Sim.start false Sim.not_root)
     = (Ret (-1, MS_SILENT),
        State (Sim.Kernel EPERM [] [] [] [("/etc/fstab", Sim.fstab_mnt_twice)]) [] false false
              [EvMount (Some "/dev/A") (Some "/mnt") (Some "ext2") MS_SILENT None])
  /\ -1 <> 0
  /\ mount_it_now full_config (Mntent "/dev/A" "/mnt" (Some "ext2") "defaults") MS_SILENT None
                  (Sim.start false Sim.not_root)
     = (Die bb_msg_perm_denied_are_you_root,
        State (Sim.Kernel EPERM [] [] [] [("/etc/fstab", Sim.fstab_mnt_twice)]) [] false false
              [EvMount (Some "/dev/A") (Some "/mnt") (Some "ext2") MS_SILENT None])
  /\ scan_table full_config (Invocation "" None true []) "/etc/fstab" None ""
                Sim.fstab_mnt_twice (None, None) false 0 (Sim.start false Sim.not_root)
     = (Die bb_msg_perm_denied_are_you_root,
        State (Sim.Kernel EPERM [] [] [] [("/etc/fstab", Sim.fstab_mnt_twice)]) [] false false
              [EvMount (Some "/dev/A") (Some "/mnt") (Some "ext2") MS_SILENT None]).
Proof.
  split; [reflexivity|].
  assert (Hloop :
    mount_loop 2 (Mntent "/dev/A" "/mnt" (Some "ext2") "defaults") MS_SILENT None
               (Sim.start false Sim.not_root)
    = (Ret (-1, MS_SILENT),
       State (Sim.Kernel EPERM [] [] [] [("/etc/fstab", Sim.fstab_mnt_twice)]) [] false false
             [EvMount (Some "/dev/A") (Some "/mnt") (Some "ext2") MS_SILENT None]))
    by reflexivity.
  split; [exact Hloop|]. split; [discriminate|].
  destruct (mount_it_now_dies_on_eperm full_config
              (Mntent "/dev/A" "/mnt" (Some "ext2") "defaults") MS_SILENT None
              (Sim.start false Sim.not_root) (-1) MS_SILENT _
              eq_refl Hloop ltac:(discriminate) eq_refl) as (H1 & _ & H3).
  split; [exact H1|].
  apply H3; reflexivity.
Defined.

(** mount -r /mnt with /mnt twice in fstab: the record from /dev/B is
    mounted, read-only. *)
Lemma targeted_mount_takes_last_match_witness :
  operands (Invocation "ro" None false ["/mnt"]) = ["/mnt"]
  /\ shared_subtree full_config (Invocation "ro" None false ["/mnt"]) = false
  /\ setmntent (table_name full_config (Invocation "ro" None false ["/mnt"])) "r" Sim.calm
     = (Some Sim.fstab_mnt_twice, Sim.calm)
  /\ forallb entry_nul_free Sim.fstab_mnt_twice = true
  /\ mount_main full_config (Invocation "ro" None false ["/mnt"]) (Sim.start false Sim.calm)
     = ('(rc, _) <- singlemount full_config
                      (Mntent "/dev/B" "/mnt" (Some "ext2") "defaults,ro") false ;;
        ret rc) (table_opened (Sim.start false Sim.calm) "/etc/fstab" Sim.calm)
  /\ mount_attempts
       (trace (snd (mount_main full_config (Invocation "ro" None false ["/mnt"])
                               (Sim.start false Sim.calm))))
     = [EvMount (Some "/dev/B") (Some "/mnt") (Some "ext2") (Z.lor MS_SILENT MS_RDONLY) None].
Proof.
  split; [reflexivity|]. split; [reflexivity|]. split; [reflexivity|].
  split; [reflexivity|].
  pose proof (proj1 (targeted_mount_takes_last_match full_config
                       (Invocation "ro" None false ["/mnt"]) (Sim.start false Sim.calm)
                       "/mnt" Sim.fstab_mnt_twice Sim.calm
                       eq_refl eq_refl eq_refl eq_refl eq_refl eq_refl)) as H.
  split; [exact H|]. rewrite H. reflexivity.
Defined.


(** /etc/filesystems with indented lines, and /proc/filesystems listing
    ext3 once more: the indentation is gone from the names, the indented
    comment, the line of whitespace and the indented * are left out, a
    line that is nodev alone and an indented nodev line are names, and
    ext3 is there twice. *)
Lemma get_block_backed_filesystems_lists_witness :
  fopen "/etc/filesystems" Sim.indented = (Some indented_filesystems, Sim.indented)
  /\ fopen "/proc/filesystems" Sim.indented = (Some proc_filesystems, Sim.indented)
  /\ text_file (Some indented_filesystems) = true
  /\ text_file (Some proc_filesystems) = true
  /\ block_backed_of_file (Some indented_filesystems) = ["ext3"; "nodev"; "nodev ramfs"]
  /\ block_backed_of_file (Some proc_filesystems) = ["ext3"; "vfat"]
  /\ fst (get_block_backed_filesystems (Sim.start false Sim.indented))
     = Ret ["ext3"; "nodev"; "nodev ramfs"; "ext3"; "vfat"].
Proof.
  split; [reflexivity|]. split; [reflexivity|]. split; [reflexivity|].
  split; [reflexivity|]. split; [reflexivity|]. split; [reflexivity|].
  exact (proj1 (get_block_backed_filesystems_lists (Sim.start false Sim.indented)
                  (Some indented_filesystems) (Some proc_filesystems)
                  Sim.indented Sim.indented
                  eq_refl eq_refl eq_refl eq_refl)).
Defined.

(** mount -o nosuid /srv/www /mnt, where /srv/www is a directory. *)
Lemma singlemount_autodetects_bind_witness :
  looks_like_cifs full_config (set_type (Mntent "/srv/www" "/mnt" (Some "auto") "nosuid") None)
  = false
  /\ looks_like_nfs full_config (set_type (Mntent "/srv/www" "/mnt" (Some "auto") "nosuid") None)
     = false
  /\ resolve full_config (c_string "nosuid") (Some None)
     = (Z.lor MS_SILENT MS_NOSUID, Some None)
  /\ Z.land (Z.lor MS_SILENT MS_NOSUID) (Z.lor MS_REMOUNT (Z.lor MS_BIND MS_MOVE)) = 0
  /\ lstat "/srv/www" Sim.calm = (Some S_IFDIR, Sim.calm)
  /\ singlemount full_config (Mntent "/srv/www" "/mnt" (Some "auto") "nosuid") false
                 (Sim.start false Sim.calm)
     = ('(rc, mp') <- mount_it_now full_config (Mntent "/srv/www" "/mnt" None "nosuid")
                        (Z.lor (Z.lor MS_SILENT MS_NOSUID) MS_BIND) None ;;
        report_error mp' false rc) (Sim.start false Sim.calm).
Proof.
  split; [reflexivity|]. split; [reflexivity|]. split; [reflexivity|].
  split; [reflexivity|]. split; [reflexivity|].
  exact (proj1 (singlemount_autodetects_bind full_config
                  (Mntent "/srv/www" "/mnt" (Some "auto") "nosuid") false
                  (Sim.start false Sim.calm)
                  (Z.lor MS_SILENT MS_NOSUID) (Some None) Sim.calm
                  (or_intror eq_refl) eq_refl eq_refl eq_refl eq_refl eq_refl)).
Defined.

(** * Further properties of the code *)

(** ** parse_mount_options and append_mount_options *)

Lemma resolve_from_flags (cfg : config) (toks : list string) :
  forall (flags : Z) (unrec : option cptr),
    fst (fold_left (resolve_token cfg) toks (flags, unrec))
    = fold_left (flag_step cfg) toks flags.
Proof.
  induction toks as [| tok toks IH]; intros flags unrec; cbn [fold_left]; [reflexivity|].
  unfold resolve_token at 2, flag_step at 2. cbn [fst snd].
  destruct (table_lookup cfg tok); apply IH.
Qed.

(** X1.  The flags [parse_mount_options] returns do not depend on the
    collector: with no collector, an empty one or one that already holds
    text, the same option string gives the same flags. *)
Theorem parse_flags_ignore_collector
    (cfg : config) (mem : buffer) (options : nat) (u1 u2 : option cptr) :
  In NUL (skipn options mem) ->
  exists flags c1 c2,
    parse_mount_options cfg mem options u1 = Some (flags, c1, mem)
    /\ parse_mount_options cfg mem options u2 = Some (flags, c2, mem).
Proof.
  intros Hnul. rewrite !parse_mount_options_spec by exact Hnul.
  unfold resolve, resolve_from.
  exists (fold_left (flag_step cfg) (split_commas (c_str mem options)) MS_SILENT).
  exists (snd (fold_left (resolve_token cfg) (split_commas (c_str mem options)) (MS_SILENT, u1))).
  exists (snd (fold_left (resolve_token cfg) (split_commas (c_str mem options)) (MS_SILENT, u2))).
  rewrite <- !resolve_from_flags with (unrec := u1) at 1.
  split.
  - rewrite <- surjective_pairing. reflexivity.
  - rewrite (resolve_from_flags cfg _ MS_SILENT u1).
    rewrite <- (resolve_from_flags cfg _ MS_SILENT u2).
    rewrite <- surjective_pairing. reflexivity.
Qed.

Lemma parse_flags_ignore_collector_witness :
  In NUL (skipn 0 (c_array "Ro,uid=0,noexec"))
  /\ exists flags c1 c2,
       parse_mount_options full_config (c_array "Ro,uid=0,noexec") 0 None
       = Some (flags, c1, c_array "Ro,uid=0,noexec")
       /\ parse_mount_options full_config (c_array "Ro,uid=0,noexec") 0 (Some (Some "gid=1"))
          = Some (flags, c2, c_array "Ro,uid=0,noexec").
Proof.
  split; [apply c_array_terminated|].
  apply (parse_flags_ignore_collector full_config (c_array "Ro,uid=0,noexec") 0
           None (Some (Some "gid=1"))).
  apply c_array_terminated.
Defined.

(** *** Case *)

Lemma tolower_idempotent (c : ascii) : tolower (tolower c) = tolower c.
Proof. destruct c as [[] [] [] [] [] [] [] []]; reflexivity. Qed.

Lemma lowercase_idempotent (s : string) : lowercase (lowercase s) = lowercase s.
Proof.
  induction s as [| c s IH]; simpl; [reflexivity|].
  rewrite tolower_idempotent, IH. reflexivity.
Qed.

Lemma tolower_is_comma (c : ascii) :
  Ascii.eqb (tolower c) ","%char = Ascii.eqb c ","%char.
Proof. destruct c as [[] [] [] [] [] [] [] []]; reflexivity. Qed.

Lemma split_commas_lowercase (s : string) :
  split_commas (lowercase s) = map lowercase (split_commas s).
Proof.
  induction s as [| c s IH]; simpl; [reflexivity|].
  rewrite tolower_is_comma.
  destruct (Ascii.eqb c ","%char); simpl; rewrite IH; [reflexivity|].
  destruct (split_commas s); reflexivity.
Qed.

Lemma table_lookup_lowercase (cfg : config) (tok : string) :
  table_lookup cfg (lowercase tok) = table_lookup cfg tok.
Proof.
  unfold table_lookup. f_equal.
  induction (mount_options cfg) as [| row rows IH]; cbn [find]; [reflexivity|].
  unfold same_name at 1 3. rewrite lowercase_idempotent.
  destruct (String.eqb (lowercase (fst row)) (lowercase tok)); [reflexivity | exact IH].
Qed.

Lemma resolve_flags_fold (cfg : config) (s : string) :
  resolve_flags cfg s = fold_left (flag_step cfg) (split_commas s) MS_SILENT.
Proof. unfold resolve_flags, resolve, resolve_from. apply resolve_from_flags. Qed.

Lemma resolve_flags_lowercase (cfg : config) (s : string) :
  resolve_flags cfg (lowercase s) = resolve_flags cfg s.
Proof.
  rewrite !resolve_flags_fold, split_commas_lowercase.
  generalize MS_SILENT as flags. generalize (split_commas s) as toks.
  induction toks as [| tok toks IH]; intros flags; cbn [map fold_left]; [reflexivity|].
  unfold flag_step at 2 4. rewrite table_lookup_lowercase. apply IH.
Qed.

(** X2.  Two option strings that differ only in the case of their letters
    give the same flags. *)
Theorem parse_flags_case_insensitive (cfg : config) (s t : string) :
  lowercase s = lowercase t ->
  nul_free s = true -> nul_free t = true ->
  flags_of cfg s = flags_of cfg t.
Proof.
  intros E Hs Ht. rewrite !flags_of_resolve by assumption.
  rewrite <- (resolve_flags_lowercase cfg s), <- (resolve_flags_lowercase cfg t), E.
  reflexivity.
Qed.

Lemma parse_flags_case_insensitive_witness :
  lowercase "RO,NoSuid,Bogus" = lowercase "ro,nosuid,bogus"
  /\ flags_of full_config "RO,NoSuid,Bogus" = flags_of full_config "ro,nosuid,bogus".
Proof.
  split; [reflexivity|].
  apply (parse_flags_case_insensitive full_config "RO,NoSuid,Bogus" "ro,nosuid,bogus");
    reflexivity.
Defined.

(** *** Bits *)

Lemma table_bits_seed (rows : list mount_option) (n : Z) :
  Z.testbit MS_SILENT n = true ->
  Z.testbit (fold_right (fun row acc => if snd row <? 0 then acc else Z.lor (snd row) acc)
                        MS_SILENT rows) n = true.
Proof.
  intros H. induction rows as [| row rows IH]; cbn [fold_right]; [exact H|].
  destruct (snd row <? 0); [exact IH|].
  rewrite Z.lor_spec, IH. apply orb_true_r.
Qed.

Lemma table_bits_row (rows : list mount_option) (row : mount_option) (n : Z) :
  In row rows -> 0 <= snd row ->
  Z.testbit (snd row) n = true ->
  Z.testbit (fold_right (fun row acc => if snd row <? 0 then acc else Z.lor (snd row) acc)
                        MS_SILENT rows) n = true.
Proof.
  intros Hin Hpos Hbit. induction rows as [| r rows IH]; [contradiction|].
  cbn [fold_right]. destruct Hin as [-> | Hin].
  - apply Z.ltb_ge in Hpos. rewrite Hpos, Z.lor_spec, Hbit. reflexivity.
  - destruct (snd r <? 0); [apply IH, Hin|].
    rewrite Z.lor_spec, (IH Hin). apply orb_true_r.
Qed.

Lemma flag_step_within (cfg : config) (flags : Z) (tok : string) :
  (forall n, Z.testbit flags n = true -> Z.testbit (table_bits cfg) n = true) ->
  forall n, Z.testbit (flag_step cfg flags tok) n = true ->
            Z.testbit (table_bits cfg) n = true.
Proof.
  intros Hf n. unfold flag_step.
  destruct (table_lookup cfg tok) as [mask|] eqn:E; [|apply Hf].
  destruct (table_lookup_row cfg tok mask E) as (name & Hin & _).
  unfold apply_mask. destruct (mask <? 0) eqn:Em.
  - rewrite Z.land_spec. intros H. apply andb_prop in H as [H _]. apply Hf, H.
  - rewrite Z.lor_spec. intros H. apply orb_prop in H as [H | H]; [apply Hf, H|].
    apply Z.ltb_ge in Em.
    exact (table_bits_row (mount_options cfg) (name, mask) n Hin Em H).
Qed.

Lemma table_bits_no_mandlock (cfg : config) : Z.land (table_bits cfg) MS_MANDLOCK = 0.
Proof. destruct cfg as [[] [] [] ? ? ? ?]; reflexivity. Qed.

(** X3.  Whatever the option string, the flags [parse_mount_options]
    returns are a non-negative [int] whose bits all come from the seed or
    from a non-negative mask of the table; MS_MANDLOCK, which no entry of
    the table carries, is never among them. *)
Theorem parse_flags_within_table
    (cfg : config) (mem : buffer) (options : nat) (unrec unrec' : option cptr)
    (flags : Z) (mem' : buffer) :
  In NUL (skipn options mem) ->
  parse_mount_options cfg mem options unrec = Some (flags, unrec', mem') ->
  0 <= flags < 2 ^ 31
  /\ (forall n, Z.testbit flags n = true -> Z.testbit (table_bits cfg) n = true)
  /\ Z.land flags MS_MANDLOCK = 0.
Proof.
  intros Hnul Hparse.
  assert (Hbits : forall n, Z.testbit flags n = true -> Z.testbit (table_bits cfg) n = true).
  { rewrite parse_mount_options_spec in Hparse by exact Hnul.
    injection Hparse as Hres _.
    assert (Hf : flags = fold_left (flag_step cfg) (split_commas (c_str mem options)) MS_SILENT).
    { rewrite <- (resolve_from_flags cfg _ MS_SILENT unrec).
      unfold resolve, resolve_from in Hres. rewrite Hres. reflexivity. }
    rewrite Hf. clear.
    assert (G : forall toks f,
               (forall n, Z.testbit f n = true -> Z.testbit (table_bits cfg) n = true) ->
               forall n, Z.testbit (fold_left (flag_step cfg) toks f) n = true ->
                         Z.testbit (table_bits cfg) n = true).
    { induction toks as [| tok toks IH]; intros f Hf; cbn [fold_left]; [exact Hf|].
      apply IH. apply flag_step_within, Hf. }
    apply G. intros n. apply table_bits_seed. }
  split; [|split; [exact Hbits|]].
  - destruct (until_nul_split _ Hnul) as [post Hpost].
    assert (Hlen : (options <= List.length mem)%nat).
    { destruct (Nat.le_gt_cases options (List.length mem)) as [L | L]; [exact L|].
      rewrite skipn_all2 in Hnul by lia. contradiction. }
    pose proof (firstn_skipn options mem) as Hmem.
    assert (Hpre : List.length (firstn options mem) = options)
      by (apply firstn_length_le; exact Hlen).
    assert (Hchars : chars (c_str mem options) = until_nul (skipn options mem))
      by (apply list_ascii_of_string_of_list_ascii).
    destruct (parse_loop_resolve cfg (S (List.length mem)) (firstn options mem)
                (c_str mem options) post MS_SILENT unrec
                (until_nul_nul_free _) int_flags_seed) as [_ Hint].
    { rewrite <- chars_length, Hchars.
      pose proof (until_nul_length (skipn options mem)) as H.
      rewrite length_skipn in H. lia. }
    rewrite parse_mount_options_spec in Hparse by exact Hnul.
    injection Hparse as Hres _. unfold resolve in Hres. rewrite Hres in Hint. exact Hint.
  - apply Z.bits_inj'. intros n Hn. rewrite Z.land_spec, Z.bits_0.
    destruct (Z.testbit flags n) eqn:Ef; [|reflexivity].
    pose proof (Hbits n Ef) as Hb.
    pose proof (land_zero_bits _ _ (table_bits_no_mandlock cfg) n) as Hz.
    rewrite Hb in Hz. exact Hz.
Qed.

Lemma parse_flags_within_table_witness :
  In NUL (skipn 0 (c_array "mand,sync,rw"))
  /\ parse_mount_options full_config (c_array "mand,sync,rw") 0 (Some None)
     = Some (Z.lor MS_SILENT MS_SYNCHRONOUS, Some (Some "mand"), c_array "mand,sync,rw")
  /\ Z.land (Z.lor MS_SILENT MS_SYNCHRONOUS) MS_MANDLOCK = 0.
Proof.
  split; [apply c_array_terminated|].
  assert (H : parse_mount_options full_config (c_array "mand,sync,rw") 0 (Some None)
              = Some (Z.lor MS_SILENT MS_SYNCHRONOUS, Some (Some "mand"),
                      c_array "mand,sync,rw")) by reflexivity.
  split; [exact H|].
  apply (parse_flags_within_table full_config (c_array "mand,sync,rw") 0 (Some None)
           (Some (Some "mand")) (Z.lor MS_SILENT MS_SYNCHRONOUS) (c_array "mand,sync,rw")
           (c_array_terminated _) H).
Defined.

(** *** Merged option strings *)

Lemma split_commas_nonempty (s : string) : split_commas s <> [].
Proof.
  destruct s as [| c s]; simpl; [discriminate|].
  destruct (Ascii.eqb c ","%char); [discriminate|].
  destruct (split_commas s); discriminate.
Qed.

Lemma split_commas_app (a b : string) :
  split_commas (a ++ "," ++ b) = split_commas a ++ split_commas b.
Proof.
  induction a as [| c a IH]; simpl.
  - reflexivity.
  - destruct (Ascii.eqb c ","%char).
    + simpl in IH. rewrite IH. reflexivity.
    + simpl in IH. rewrite IH.
      pose proof (split_commas_nonempty a) as Hne.
      destruct (split_commas a); [congruence | reflexivity].
Qed.

Lemma nul_free_app (a b : string) :
  nul_free a = true -> nul_free b = true -> nul_free (a ++ b) = true.
Proof.
  intros Ha Hb. induction a as [| c a IH]; simpl in *; [exact Hb|].
  apply andb_prop in Ha as [Hc Ha]. rewrite Hc. apply IH, Ha.
Qed.

Lemma append_mount_options_nul_free (p : cptr) (b : string) :
  match p with Some a => nul_free a = true | None => True end ->
  nul_free b = true ->
  nul_free (append_mount_options p b) = true.
Proof.
  intros Hp Hb. unfold append_mount_options.
  destruct p as [a|]; [|exact Hb].
  destruct (0 <? String.length a)%nat; [|exact Hb].
  apply nul_free_app; [exact Hp|]. apply (nul_free_app "," b eq_refl Hb).
Qed.

Lemma resolve_from_int_flags (cfg : config) (s : string) (flags : Z) (unrec : option cptr) :
  nul_free s = true -> int_flags flags ->
  parse_loop cfg (S (List.length (c_array s))) (c_array s) 0 flags unrec
  = Some (resolve_from cfg s (flags, unrec), c_array s)
  /\ int_flags (fst (resolve_from cfg s (flags, unrec))).
Proof.
  intros Hs Hf. unfold c_array.
  apply (parse_loop_resolve cfg _ [] s [] flags unrec Hs Hf).
  rewrite length_app, chars_length. simpl. lia.
Qed.

(** X4.  Parsing a string that [append_mount_options] made of a
    non-empty [a] and of [b] is parsing [a] and then going on with [b] from
    the flags and the collector reached: the appended options are applied
    after the old ones. *)
Theorem parse_appended_options
    (cfg : config) (a b : string) (unrec : option cptr) :
  nul_free a = true -> nul_free b = true -> a <> EmptyString ->
  exists f1 u1 f2 u2,
    parse_mount_options cfg (c_array a) 0 unrec = Some (f1, u1, c_array a)
    /\ parse_loop cfg (S (List.length (c_array b))) (c_array b) 0 f1 u1
       = Some (f2, u2, c_array b)
    /\ parse_mount_options cfg (c_array (append_mount_options (Some a) b)) 0 unrec
       = Some (f2, u2, c_array (append_mount_options (Some a) b)).
Proof.
  intros Ha Hb Hne.
  destruct (resolve_from_int_flags cfg a MS_SILENT unrec Ha int_flags_seed) as [Pa Ia].
  destruct (resolve_from cfg a (MS_SILENT, unrec)) as [f1 u1] eqn:Ea.
  destruct (resolve_from_int_flags cfg b f1 u1 Hb Ia) as [Pb _].
  destruct (resolve_from cfg b (f1, u1)) as [f2 u2] eqn:Eb.
  exists f1, u1, f2, u2. split; [exact Pa|]. split; [exact Pb|].
  assert (Happ : append_mount_options (Some a) b = (a ++ "," ++ b)%string).
  { destruct a; [congruence | reflexivity]. }
  rewrite parse_mount_options_spec by apply c_array_terminated.
  rewrite c_str_c_array
    by (rewrite Happ; apply nul_free_app; [exact Ha | apply (nul_free_app "," b eq_refl Hb)]).
  rewrite Happ. unfold resolve, resolve_from in *.
  rewrite split_commas_app, fold_left_app, Ea, Eb. reflexivity.
Qed.

Lemma parse_appended_options_witness :
  nul_free "ro,uid=5" = true /\ nul_free "rw,gid=7" = true /\ "ro,uid=5" <> EmptyString
  /\ exists f1 u1 f2 u2,
       parse_mount_options full_config (c_array "ro,uid=5") 0 (Some None)
       = Some (f1, u1, c_array "ro,uid=5")
       /\ parse_loop full_config (S (List.length (c_array "rw,gid=7")))
                     (c_array "rw,gid=7") 0 f1 u1
          = Some (f2, u2, c_array "rw,gid=7")
       /\ parse_mount_options full_config
            (c_array (append_mount_options (Some "ro,uid=5") "rw,gid=7")) 0 (Some None)
          = Some (f2, u2, c_array (append_mount_options (Some "ro,uid=5") "rw,gid=7")).
Proof.
  split; [reflexivity|]. split; [reflexivity|]. split; [discriminate|].
  apply (parse_appended_options full_config "ro,uid=5" "rw,gid=7" (Some None));
    [reflexivity | reflexivity | discriminate].
Defined.

Lemma lor_keeps_mask (x m : Z) : Z.land (Z.lor x m) m = m.
Proof.
  apply Z.bits_inj'. intros n _. rewrite Z.land_spec, Z.lor_spec.
  destruct (Z.testbit x n), (Z.testbit m n); reflexivity.
Qed.

Lemma land_clears_mask (x m : Z) : Z.land (Z.land x m) (Z.lnot m) = 0.
Proof.
  apply Z.bits_inj'. intros n Hn.
  rewrite !Z.land_spec, Z.lnot_spec, Z.bits_0 by exact Hn.
  destruct (Z.testbit x n), (Z.testbit m n); reflexivity.
Qed.

(** X5.  The option appended last decides its bits: after any option
    string, a recognized option that sets bits leaves them set and one that
    clears bits leaves them clear, whatever the earlier options asked
    for. *)
Theorem last_option_wins
    (cfg : config) (s o : string) (mask flags : Z) :
  nul_free s = true ->
  table_lookup cfg o = Some mask ->
  flags_of cfg (append_mount_options (Some s) o) = Some flags ->
  if mask <? 0 then Z.land flags (Z.lnot mask) = 0 else Z.land flags mask = mask.
Proof.
  intros Hs Ho Hf.
  pose proof (recognized_one_token cfg o mask Ho) as Htok.
  assert (E : flags = apply_mask (resolve_flags cfg s) mask
              \/ flags = apply_mask MS_SILENT mask).
  { destruct s as [| c s].
    - right. cbn [append_mount_options String.length Nat.ltb Nat.leb] in Hf.
      rewrite (flags_of_one cfg o mask Ho) in Hf. congruence.
    - left.
      assert (Hsp : split_commas (append_mount_options (Some (String c s)) o)
                    = split_commas (String c s) ++ [o]).
      { rewrite <- (split_commas_one_token o Htok). apply (split_commas_app (String c s) o). }
      assert (Hnf : nul_free (append_mount_options (Some (String c s)) o) = true)
        by (apply append_mount_options_nul_free;
            [exact Hs | apply one_token_nul_free, Htok]).
      revert Hf Hsp Hnf.
      generalize (append_mount_options (Some (String c s)) o) as t.
      intros t Hf Hsp Hnf.
      rewrite (flags_of_resolve cfg t Hnf) in Hf. injection Hf as <-.
      rewrite resolve_flags_fold, Hsp, fold_left_app, <- resolve_flags_fold.
      cbn [fold_left]. unfold flag_step. rewrite Ho. reflexivity. }
  unfold apply_mask in E.
  destruct (mask <? 0); destruct E as [-> | ->];
    first [apply land_clears_mask | apply lor_keeps_mask].
Qed.

Lemma last_option_wins_witness :
  nul_free "ro,nosuid" = true
  /\ table_lookup full_config "rw" = Some (Z.lnot MS_RDONLY)
  /\ flags_of full_config (append_mount_options (Some "ro,nosuid") "rw")
     = Some (Z.lor MS_SILENT MS_NOSUID)
  /\ Z.land (Z.lor MS_SILENT MS_NOSUID) (Z.lnot (Z.lnot MS_RDONLY)) = 0.
Proof.
  split; [reflexivity|]. split; [reflexivity|]. split; [reflexivity|].
  apply (last_option_wins full_config "ro,nosuid" "rw" (Z.lnot MS_RDONLY)
           (Z.lor MS_SILENT MS_NOSUID)); reflexivity.
Defined.

(** *** The collector *)

Lemma collector_grows (cfg : config) (toks : list string) :
  forall (flags : Z) (old x : string),
    (exists sfx, x = (old ++ sfx)%string) ->
    exists new sfx,
      snd (fold_left (resolve_token cfg) toks (flags, Some (Some x))) = Some (Some new)
      /\ new = (old ++ sfx)%string.
Proof.
  induction toks as [| tok toks IH]; intros flags old x [sfx Hx]; cbn [fold_left].
  - exists x, sfx. split; [reflexivity | exact Hx].
  - unfold resolve_token at 2. cbn [fst snd].
    destruct (table_lookup cfg tok).
    + apply IH. exists sfx. exact Hx.
    + cbn [collect]. destruct (String.eqb x "") eqn:E.
      * apply IH. apply String.eqb_eq in E. subst x.
        destruct old; [|discriminate]. exists tok. reflexivity.
      * apply IH. exists (sfx ++ "," ++ tok)%string.
        rewrite Hx. apply string_app_assoc.
Qed.

(** X6.  A collector that already holds text is only added to: what it
    holds after [parse_mount_options] starts with what it held before. *)
Theorem parse_keeps_collected
    (cfg : config) (mem : buffer) (options : nat) (old : string) :
  In NUL (skipn options mem) ->
  exists flags new sfx,
    parse_mount_options cfg mem options (Some (Some old)) = Some (flags, Some (Some new), mem)
    /\ new = (old ++ sfx)%string.
Proof.
  intros Hnul. rewrite parse_mount_options_spec by exact Hnul.
  unfold resolve, resolve_from.
  destruct (collector_grows cfg (split_commas (c_str mem options)) MS_SILENT old old)
    as (new & sfx & Hnew & Hsfx).
  { exists EmptyString. clear. induction old; simpl; congruence. }
  exists (fst (fold_left (resolve_token cfg) (split_commas (c_str mem options))
                         (MS_SILENT, Some (Some old)))), new, sfx.
  split; [|exact Hsfx].
  rewrite <- Hnew, <- surjective_pairing. reflexivity.
Qed.

Lemma parse_keeps_collected_witness :
  In NUL (skipn 0 (c_array "ip=10.0.0.1"))
  /\ exists flags new sfx,
       parse_mount_options full_config (c_array "ip=10.0.0.1") 0 (Some (Some "user=me"))
       = Some (flags, Some (Some new), c_array "ip=10.0.0.1")
       /\ new = ("user=me" ++ sfx)%string.
Proof.
  split; [apply c_array_terminated|].
  apply (parse_keeps_collected full_config (c_array "ip=10.0.0.1") 0 "user=me").
  apply c_array_terminated.
Defined.

(** ** get_block_backed_filesystems *)

Lemma skip_spaces_head (s : string) :
  match skip_spaces s with
  | String c _ => isspace c = false
  | EmptyString => True
  end.
Proof.
  induction s as [| c s IH]; simpl; [exact I|].
  destruct (isspace c) eqn:E; [exact IH | exact E].
Qed.

Lemma add_filesystems_names (lines : list string) :
  forall lst,
    forallb filesystem_name lst = true ->
    forallb filesystem_name (add_filesystems lines lst) = true
    /\ exists added, add_filesystems lines lst = lst ++ added.
Proof.
  induction lines as [| buf lines IH]; intros lst Hlst; cbn [add_filesystems].
  - split; [exact Hlst|]. exists []. symmetry. apply app_nil_r.
  - destruct ((strncmp buf "nodev" 5 =? 0) && isspace (char_at buf 5)); [apply IH, Hlst|].
    pose proof (skip_spaces_head buf) as Hhead.
    destruct (skip_spaces buf) as [| c fs] eqn:E.
    + cbn. apply IH, Hlst.
    + cbn [char_at String.get].
      destruct (Ascii.eqb c "#"%char || Ascii.eqb c "*"%char) eqn:Ec; [apply IH, Hlst|].
      destruct (is_nul c) eqn:En; [apply IH, Hlst|].
      destruct (IH (lst ++ [String c fs])) as [Hall [added Hadded]].
      * rewrite forallb_app, Hlst. cbn. rewrite Hhead, En.
        apply orb_false_elim in Ec as [-> ->]. reflexivity.
      * split; [exact Hall|]. exists (String c fs :: added).
        rewrite Hadded, <- app_assoc. reflexivity.
Qed.

Section FilesystemNames.

Context {W : Type} {K : Collaborators W}.

Lemma read_filesystems_names (files : list string) :
  forall lst s,
    forallb filesystem_name lst = true ->
    exists l, fst (read_filesystems files lst s) = Ret l
              /\ forallb filesystem_name l = true.
Proof.
  induction files as [| path files IH]; intros lst s Hlst; cbn [read_filesystems].
  - exists lst. split; [reflexivity | exact Hlst].
  - unfold bind, emit, call, with_world. cbn [world fslist useMtab fakeIt trace].
    destruct (fopen path (world s)) as [[contents|] w]; cbn [world fslist useMtab fakeIt trace].
    + apply IH. apply add_filesystems_names, Hlst.
    + apply IH, Hlst.
Qed.

(** X7.  [get_block_backed_filesystems] always returns, and every name in
    the list it returns is non-empty and starts with a character that is
    not whitespace, not # and not *: no blank, comment or indented entry
    ever becomes a filesystem type to try. *)
Theorem block_backed_filesystems_are_names (s : state W) :
  exists l,
    fst (get_block_backed_filesystems s) = Ret l
    /\ forall name, In name l -> filesystem_name name = true.
Proof.
  destruct (read_filesystems_names filesystems [] s eq_refl) as (l & Hl & Hall).
  exists l. split; [exact Hl|].
  rewrite forallb_forall in Hall. exact Hall.
Qed.

End FilesystemNames.

(** ** mount_it_now *)

Section ExecutorFrame.

Context {W : Type} {K : Collaborators W}.
Variable cfg : config.

(** What a call of [mount_it_now] that returns has made of the request:
    nothing, or the entry for the legacy mount table after a successful
    mount with the table maintained. *)
Lemma mount_it_now_result
    (mp mp' : mntent) (vfsflags rc : Z) (fo : cptr) (s s' : state W) :
  mount_it_now cfg mp vfsflags fo s = (Ret (rc, mp'), s') ->
  mp' = mp
  \/ (rc = 0 /\ FEATURE_MTAB_SUPPORT cfg && useMtab s = true
      /\ mp' = mtab_cleanup cfg (mtab_record cfg mp)).
Proof.
  intros Hrun.
  destruct (FEATURE_MTAB_SUPPORT cfg && fakeIt s) eqn:Hfake.
  - unfold mount_it_now, bind, get_fakeIt, get in Hrun. rewrite Hfake in Hrun.
    unfold ret in Hrun. left. congruence.
  - destruct (mount (Some (mnt_fsname mp)) (Some (mnt_dir mp)) (mnt_type mp)
                    vfsflags fo (world s)) as [rc1 w1] eqn:H1.
    pose proof (mount_loop_two mp vfsflags fo s rc1 w1 H1) as Hloop.
    cbv zeta in Hloop.
    destruct (mount (Some (mnt_fsname mp)) (Some (mnt_dir mp)) (mnt_type mp)
                    (Z.lor vfsflags MS_RDONLY) fo w1) as [rc2 w2] eqn:H2.
    destruct (negb (rc1 =? 0) && (Z.land vfsflags MS_RDONLY =? 0)
              && ((errno w1 =? EACCES) || (errno w1 =? EROFS)));
      rewrite (mount_it_now_after_loop cfg mp vfsflags fo s _ _ _ Hfake Hloop) in Hrun;
      cbn [world fslist useMtab fakeIt trace] in Hrun;
      match type of Hrun with
      | (if ?c then (Die _, _) else _) = _ => destruct c; [discriminate|]
      end;
      match type of Hrun with
      | (if ?c && (?r =? 0) then _ else _) = _ =>
          destruct c eqn:Emtab; destruct (r =? 0) eqn:Erc; cbn [andb] in Hrun;
          try (injection Hrun as _ <- _; left; reflexivity)
      end;
      right; apply Z.eqb_eq in Erc;
      destruct (setmntent bb_path_mtab_file "a+" _) in Hrun;
      injection Hrun as Hr Hm _; repeat split; congruence.
Qed.

(** X8.  A call of [mount_it_now] that returns a failure leaves the
    request as it was, and so does every call when the legacy mount table
    is not maintained: the fields of [*mp] are rewritten only after a
    successful mount with the table enabled. *)
Theorem mount_it_now_failure_keeps_request
    (mp mp' : mntent) (vfsflags rc : Z) (fo : cptr) (s s' : state W) :
  mount_it_now cfg mp vfsflags fo s = (Ret (rc, mp'), s') ->
  rc <> 0 \/ FEATURE_MTAB_SUPPORT cfg && useMtab s = false ->
  mp' = mp.
Proof.
  intros Hrun Hcase.
  destruct (mount_it_now_result mp mp' vfsflags rc fo s s' Hrun)
    as [Hsame | (Hrc & Hmtab & _)].
  - exact Hsame.
  - destruct Hcase as [Hne | Hoff].
    + contradiction.
    + rewrite Hoff in Hmtab. discriminate.
Qed.

End ExecutorFrame.

Lemma mount_it_now_failure_keeps_request_witness :
  mount_it_now full_config (Mntent "/dev/sda1" "/mnt/" None "rw") MS_SILENT None
               (Sim.start true (Sim.Kernel 0 [(-1, 22)] [] [] []))
  = (Ret (-1, Mntent "/dev/sda1" "/mnt/" None "rw"),
     State (Sim.Kernel 22 [] [] [] []) [] true false
           [EvMount (Some "/dev/sda1") (Some "/mnt/") None MS_SILENT None])
  /\ -1 <> 0
  /\ Mntent "/dev/sda1" "/mnt/" None "rw" = Mntent "/dev/sda1" "/mnt/" None "rw".
Proof.
  assert (H : mount_it_now full_config (Mntent "/dev/sda1" "/mnt/" None "rw") MS_SILENT None
                (Sim.start true (Sim.Kernel 0 [(-1, 22)] [] [] []))
              = (Ret (-1, Mntent "/dev/sda1" "/mnt/" None "rw"),
                 State (Sim.Kernel 22 [] [] [] []) [] true false
                       [EvMount (Some "/dev/sda1") (Some "/mnt/") None MS_SILENT None]))
    by reflexivity.
  assert (Hne : -1 <> 0) by discriminate.
  split; [exact H|]. split; [exact Hne|].
  exact (mount_it_now_failure_keeps_request full_config
           (Mntent "/dev/sda1" "/mnt/" None "rw") (Mntent "/dev/sda1" "/mnt/" None "rw")
           MS_SILENT (-1) None
           (Sim.start true (Sim.Kernel 0 [(-1, 22)] [] [] []))
           (State (Sim.Kernel 22 [] [] [] []) [] true false
                  [EvMount (Some "/dev/sda1") (Some "/mnt/") None MS_SILENT None])
           H (or_introl Hne)).
Defined.

(** *** The entry prepared for the legacy mount table *)

Lemma add_vfs_string_flags_app (pre rest : list mount_option) :
  forallb (fun row => negb (snd row =? MS_REMOUNT)) pre = true ->
  forall opts,
    add_vfs_string_flags (pre ++ rest) opts
    = add_vfs_string_flags rest (add_vfs_string_flags pre opts).
Proof.
  induction pre as [| [name fl] pre IH]; intros Hpre opts; [reflexivity|].
  cbn [forallb snd] in Hpre. apply andb_prop in Hpre as [Hfl Hpre].
  apply negb_true_iff in Hfl.
  rewrite <- app_comm_cons. cbn [add_vfs_string_flags]. rewrite Hfl. apply IH, Hpre.
Qed.

Lemma add_vfs_string_flags_nul_free (rows : list mount_option) :
  Forall row_ok rows ->
  forall opts, nul_free opts = true -> nul_free (add_vfs_string_flags rows opts) = true.
Proof.
  induction 1 as [| [name fl] rows [Hname _] _ IH]; intros opts Hopts; [exact Hopts|].
  cbn [add_vfs_string_flags]. destruct (fl =? MS_REMOUNT); [exact Hopts|].
  apply IH. destruct (0 <? fl); [|exact Hopts].
  apply append_mount_options_nul_free; [exact Hopts | exact Hname].
Qed.

Lemma mount_options_split (cfg : config) :
  exists pre,
    mount_options cfg
    = pre ++ [("ro", MS_RDONLY); ("rw", Z.lnot MS_RDONLY); ("remount", MS_REMOUNT)]
    /\ forallb (fun row => negb (snd row =? MS_REMOUNT)) pre = true
    /\ Forall row_ok pre.
Proof.
  unfold mount_options.
  exists (USE (FEATURE_MOUNT_LOOP cfg) [("loop", 0)]
          ++ USE (FEATURE_MOUNT_FSTAB cfg)
               [("defaults", 0); ("quiet", 0); ("noauto", MOUNT_NOAUTO); ("swap", MOUNT_SWAP)]
          ++ USE (FEATURE_MOUNT_FLAGS cfg)
               [("nosuid", MS_NOSUID); ("suid", Z.lnot MS_NOSUID); ("dev", Z.lnot MS_NODEV);
                ("nodev", MS_NODEV); ("exec", Z.lnot MS_NOEXEC); ("noexec", MS_NOEXEC);
                ("sync", MS_SYNCHRONOUS); ("async", Z.lnot MS_SYNCHRONOUS);
                ("atime", Z.lnot MS_NOATIME); ("noatime", MS_NOATIME);
                ("diratime", Z.lnot MS_NODIRATIME); ("nodiratime", MS_NODIRATIME);
                ("loud", Z.lnot MS_SILENT); ("bind", MS_BIND); ("move", MS_MOVE);
                ("shared", MS_SHARED); ("slave", MS_SLAVE); ("private", MS_PRIVATE);
                ("unbindable", MS_UNBINDABLE); ("rshared", Z.lor MS_SHARED MS_RECURSIVE);
                ("rslave", Z.lor MS_SLAVE MS_RECURSIVE);
                ("rprivate", Z.lor MS_SLAVE MS_RECURSIVE);
                ("runbindable", Z.lor MS_UNBINDABLE MS_RECURSIVE)]).
  split; [rewrite <- !app_assoc; reflexivity|].
  split.
  - destruct cfg as [[] [] [] ? ? ? ?]; reflexivity.
  - destruct cfg as [[] [] [] ? ? ? ?]; unfold USE; simpl;
      repeat (apply Forall_cons; [split; [reflexivity | vm_compute; split; congruence] |]);
      apply Forall_nil.
Qed.

Lemma empty_token_unmatched (cfg : config) : table_lookup cfg "" = None.
Proof. destruct cfg as [[] [] [] ? ? ? ?]; reflexivity. Qed.

(** The flags after one more recognized option. *)
Lemma resolve_flags_appended (cfg : config) (s o : string) (mask : Z) :
  table_lookup cfg o = Some mask ->
  resolve_flags cfg (append_mount_options (Some s) o)
  = apply_mask (resolve_flags cfg s) mask.
Proof.
  intros Ho. pose proof (recognized_one_token cfg o mask Ho) as Htok.
  destruct s as [| c s].
  - cbn [append_mount_options String.length Nat.ltb Nat.leb].
    rewrite !resolve_flags_fold, (split_commas_one_token o Htok).
    cbn [split_commas fold_left]. unfold flag_step.
    rewrite Ho, empty_token_unmatched. reflexivity.
  - assert (Hsp : split_commas (append_mount_options (Some (String c s)) o)
                  = split_commas (String c s) ++ [o]).
    { rewrite <- (split_commas_one_token o Htok). apply (split_commas_app (String c s) o). }
    rewrite resolve_flags_fold, Hsp, fold_left_app, <- resolve_flags_fold.
    cbn [fold_left]. unfold flag_step. rewrite Ho. reflexivity.
Qed.

(** X9.  The options [mount_it_now] prepares for the legacy mount table
    do not tell how the filesystem was mounted: whatever the options of the
    request were, parsing the prepared options gives flags with MS_RDONLY
    set, because the name of every positive entry of the table up to
    "remount" is appended and "ro" is the last of them. *)
Theorem mtab_options_parse_read_only (cfg : config) (mp : mntent) :
  nul_free (mnt_opts mp) = true ->
  exists flags,
    flags_of cfg (mnt_opts (mtab_record cfg mp)) = Some flags
    /\ Z.land flags MS_RDONLY = MS_RDONLY.
Proof.
  intros Hopts.
  destruct (mount_options_split cfg) as (pre & Hsplit & Hpre & Hok).
  assert (E : mnt_opts (mtab_record cfg mp)
              = append_mount_options (Some (add_vfs_string_flags pre (mnt_opts mp))) "ro").
  { unfold mtab_record.
    destruct (null_or_empty _); cbn [mnt_opts set_type set_dir set_opts];
      rewrite Hsplit, (add_vfs_string_flags_app pre _ Hpre); reflexivity. }
  assert (Hro : table_lookup cfg "ro" = Some MS_RDONLY)
    by (destruct cfg as [[] [] [] ? ? ? ?]; reflexivity).
  pose proof (add_vfs_string_flags_nul_free pre Hok (mnt_opts mp) Hopts) as Hnf.
  exists (resolve_flags cfg (mnt_opts (mtab_record cfg mp))). split.
  - apply flags_of_resolve. rewrite E.
    apply append_mount_options_nul_free; [exact Hnf | reflexivity].
  - rewrite E, (resolve_flags_appended cfg _ "ro" MS_RDONLY Hro).
    apply lor_keeps_mask.
Qed.

Lemma mtab_options_parse_read_only_witness :
  nul_free (mnt_opts (Mntent "/dev/sda1" "/mnt" (Some "ext2") "rw")) = true
  /\ exists flags,
       flags_of full_config
         (mnt_opts (mtab_record full_config (Mntent "/dev/sda1" "/mnt" (Some "ext2") "rw")))
       = Some flags
       /\ Z.land flags MS_RDONLY = MS_RDONLY.
Proof.
  split; [reflexivity|].
  apply (mtab_options_parse_read_only full_config
           (Mntent "/dev/sda1" "/mnt" (Some "ext2") "rw")).
  reflexivity.
Defined.

Lemma last_char_split (d : string) :
  forall c,
    String c d
    = (substring 0 (String.length d) (String c d)
       ++ String (char_at (String c d) (String.length d)) EmptyString)%string.
Proof.
  induction d as [| c' d' IH]; intros c; [reflexivity|].
  cbn [String.length substring]. unfold char_at. cbn [String.get].
  cbn [String.append]. f_equal. apply IH.
Qed.

(** X10.  [mount_it_now] removes at most one trailing / from the
    directory and never the only character: the directory either stays as
    it is or is the non-empty result followed by one /; in particular / stays
    /. *)
Theorem remove_trailing_slash_removes_one (dir : string) :
  (remove_trailing_slash dir = dir
   \/ (dir = (remove_trailing_slash dir ++ "/")%string
       /\ remove_trailing_slash dir <> EmptyString))
  /\ remove_trailing_slash "/" = "/".
Proof.
  split; [|reflexivity].
  unfold remove_trailing_slash, strlen.
  destruct ((1 <? String.length dir)%nat) eqn:Elen; [|left; reflexivity].
  destruct (Ascii.eqb (char_at dir (String.length dir - 1)) "/"%char) eqn:Ec;
    [|left; reflexivity].
  right. apply Nat.ltb_lt in Elen. apply Ascii.eqb_eq in Ec.
  cbn [andb].
  destruct dir as [| c d]; [cbn in Elen; lia|].
  cbn [String.length] in *.
  replace (S (String.length d) - 1)%nat with (String.length d) in * by lia.
  split.
  - rewrite <- Ec. apply last_char_split.
  - destruct d as [| c' d]; [cbn in Elen; lia|].
    cbn [String.length substring]. discriminate.
Qed.


(** ** singlemount: the paths to the mount *)

Section SinglemountPaths.

Context {W : Type} {K : Collaborators W}.
Variable cfg : config.

Lemma set_type_twice (mp : mntent) (a b : cptr) :
  set_type (set_type mp a) b = set_type mp b.
Proof. reflexivity. Qed.

(** X11.  A request of type "auto" is handled as the same request with no
    type at all: the two runs of [singlemount] agree in result, in what
    they leave of the request and in the state. *)
Theorem singlemount_auto_is_untyped
    (mp : mntent) (ignore_busy : bool) (s : state W) :
  mnt_type mp = Some "auto" ->
  singlemount cfg mp ignore_busy s = singlemount cfg (set_type mp None) ignore_busy s.
Proof.
  intros Htype. unfold singlemount.
  rewrite Htype. cbn [mnt_opts mnt_type set_type is_str].
  change (strcmp "auto" "auto" =? 0) with true. cbv iota.
  reflexivity.
Qed.


End SinglemountPaths.

(** mount -t auto -o nosuid /srv/www /mnt *)
Lemma singlemount_auto_is_untyped_witness :
  mnt_type (Mntent "/srv/www" "/mnt" (Some "auto") "nosuid") = Some "auto"
  /\ singlemount full_config (Mntent "/srv/www" "/mnt" (Some "auto") "nosuid") false
                 (Sim.start false Sim.calm)
     = singlemount full_config (Mntent "/srv/www" "/mnt" None "nosuid") false
                   (Sim.start false Sim.calm).
Proof.
  split; [reflexivity|].
  exact (singlemount_auto_is_untyped full_config
           (Mntent "/srv/www" "/mnt" (Some "auto") "nosuid") false
           (Sim.start false Sim.calm) eq_refl).
Defined.


Section SinglemountLoop.

Context {W : Type} {K : Collaborators W}.
Variable cfg : config.

Lemma mount_it_now_keeps_fsname
    (mp mp' : mntent) (vfsflags rc : Z) (fo : cptr) (s s' : state W) :
  mount_it_now cfg mp vfsflags fo s = (Ret (rc, mp'), s') ->
  mnt_fsname mp' = mnt_fsname mp.
Proof.
  intros Hrun.
  destruct (mount_it_now_result cfg mp mp' vfsflags rc fo s s' Hrun) as [-> | (_ & _ & ->)].
  - reflexivity.
  - unfold mtab_cleanup, mtab_record.
    repeat match goal with
           | |- context [if ?c then _ else _] => destruct c
           end; reflexivity.
Qed.


(** X14.  When [set_loop] returns anything but 0 and 1, [singlemount]
    gives one diagnostic and returns [errno]: nothing is mounted, and the
    common exit with its "mounting ... failed" message is not reached. *)
Theorem singlemount_loop_setup_failure
    (mp : mntent) (ignore_busy : bool) (s : state W)
    (vfsflags : Z) (unrec : option cptr) (w1 w2 : W) (r : Z) (device : string) :
  let mp0 := if is_str (mnt_type mp) "auto" then set_type mp None else mp in
  let file := bb_simplify_path (mnt_fsname mp) w1 in
  FEATURE_MOUNT_LOOP cfg = true ->
  looks_like_cifs cfg mp0 = false ->
  looks_like_nfs cfg mp0 = false ->
  resolve cfg (c_string (mnt_opts mp)) (Some None) = (vfsflags, unrec) ->
  Z.land vfsflags (Z.lor MS_REMOUNT (Z.lor MS_BIND MS_MOVE)) = 0 ->
  lstat (mnt_fsname mp) (world s) = (Some S_IFREG, w1) ->
  set_loop file w1 = (r, device, w2) ->
  r <> 0 -> r <> 1 ->
  singlemount cfg mp ignore_busy s =
    (Ret (errno w2, set_fsname mp0 device),
     State w2 (fslist s) (useMtab s) (fakeIt s)
           (trace s ++ [EvSetLoop file;
                        EvErrorMsg (if (errno w2 =? EPERM) || (errno w2 =? EACCES)
                                    then bb_msg_perm_denied_are_you_root
                                    else "cannot setup loop device")])).
Proof.
  intros mp0 file Hloop Hcifs Hnfs Hres Hact Hstat Hset Hr0 Hr1.
  assert (Hname : mnt_fsname mp0 = mnt_fsname mp).
  { unfold mp0. destruct (is_str (mnt_type mp) "auto"); reflexivity. }
  assert (Hbad : (r =? 0) || (r =? 1) = false).
  { apply Z.eqb_neq in Hr0, Hr1. rewrite Hr0, Hr1. reflexivity. }
  unfold singlemount. unfold bind at 1. rewrite parse_options_of_spec, Hres.
  fold mp0. rewrite Hcifs, Hnfs.
  unfold bind at 1. unfold call at 1. rewrite Hname, Hstat.
  apply Z.eqb_eq in Hact. rewrite Hact, Hloop.
  unfold bind, get, emit, call, get_errno, bb_error_msg, emit, ret, with_world.
  cbn [world fslist useMtab fakeIt trace]. fold file. rewrite Hset, Hbad.
  cbn [world fslist useMtab fakeIt trace].
  rewrite <- app_assoc. reflexivity.
Qed.

End SinglemountLoop.


(** mount -t ext2 /tmp/disk.img /mnt when no loop device can be had. *)
Lemma singlemount_loop_setup_failure_witness :
  FEATURE_MOUNT_LOOP full_config = true
  /\ looks_like_cifs full_config (Mntent "/tmp/disk.img" "/mnt" (Some "ext2") "defaults")
     = false
  /\ looks_like_nfs full_config (Mntent "/tmp/disk.img" "/mnt" (Some "ext2") "defaults")
     = false
  /\ resolve full_config (c_string "defaults") (Some None) = (MS_SILENT, Some None)
  /\ Z.land MS_SILENT (Z.lor MS_REMOUNT (Z.lor MS_BIND MS_MOVE)) = 0
  /\ lstat "/tmp/disk.img" SimLoop.no_loop = (Some S_IFREG, SimLoop.no_loop)
  /\ set_loop "/tmp/disk.img" SimLoop.no_loop
     = (-1, "/dev/loop0", SimLoop.Kernel 6 [] ["/tmp/disk.img"] (-1) 6)
  /\ singlemount full_config (Mntent "/tmp/disk.img" "/mnt" (Some "ext2") "defaults") false
                 (SimLoop.start SimLoop.no_loop)
     = (Ret (6, Mntent "/dev/loop0" "/mnt" (Some "ext2") "defaults"),
        State (SimLoop.Kernel 6 [] ["/tmp/disk.img"] (-1) 6) [] false false
              [EvSetLoop "/tmp/disk.img"; EvErrorMsg "cannot setup loop device"]).
Proof.
  assert (H0 : -1 <> 0) by discriminate.
  assert (H1 : -1 <> 1) by discriminate.
  split; [reflexivity|]. split; [reflexivity|]. split; [reflexivity|].
  split; [reflexivity|]. split; [reflexivity|]. split; [reflexivity|].
  split; [reflexivity|].
  exact (singlemount_loop_setup_failure full_config
           (Mntent "/tmp/disk.img" "/mnt" (Some "ext2") "defaults") false
           (SimLoop.start SimLoop.no_loop)
           MS_SILENT (Some None) SimLoop.no_loop
           (SimLoop.Kernel 6 [] ["/tmp/disk.img"] (-1) 6) (-1) "/dev/loop0"
           eq_refl eq_refl eq_refl eq_refl eq_refl eq_refl eq_refl H0 H1).
Defined.

(** ** What a mount leaves of the globals *)

Section Steady.

Context {W : Type} {K : Collaborators W}.
Variable cfg : config.
Variable s0 : state W.

Lemma steady_refl : steady s0 s0.
Proof.
  repeat split. exists []. rewrite app_nil_r. split; reflexivity.
Qed.

Lemma keeps_ret {A : Type} (a : A) : keeps s0 (ret a).
Proof. intros s H. exact H. Qed.

Lemma keeps_bind {A B : Type} (m : M W A) (k : A -> M W B) :
  keeps s0 m -> (forall a, keeps s0 (k a)) -> keeps s0 (bind m k).
Proof.
  intros Hm Hk s H. unfold bind. specialize (Hm s H).
  destruct (m s) as [[a | msg |] s']; cbn [snd] in *.
  - apply Hk. exact Hm.
  - exact Hm.
  - exact Hm.
Qed.

Lemma keeps_emit (e : event) : is_fopen e = false -> keeps s0 (emit e).
Proof.
  intros He s (Hl & Hm & Hf & later & Ht & Hq). unfold emit. cbn [snd].
  repeat split; cbn [fslist useMtab fakeIt trace]; try assumption.
  exists (later ++ [e]). rewrite Ht, app_assoc, forallb_app, Hq.
  cbn [forallb]. rewrite He. split; reflexivity.
Qed.

Lemma keeps_call {A : Type} (f : W -> A * W) : keeps s0 (call f).
Proof.
  intros s H. unfold call. destruct (f (world s)) as [a w]. exact H.
Qed.

Lemma keeps_get {A : Type} (f : state W -> A) : keeps s0 (get f).
Proof. intros s H. exact H. Qed.

Lemma keeps_get_errno : keeps s0 get_errno.
Proof. intros s H. exact H. Qed.

Lemma keeps_die {A : Type} (msg : string) :
  keeps s0 (bb_error_msg_and_die (W := W) (A := A) msg).
Proof. intros s H. exact H. Qed.

Lemma keeps_parse_options_of (opts : string) (unrec : option cptr) :
  keeps s0 (parse_options_of (W := W) cfg opts unrec).
Proof. intros s H. rewrite parse_options_of_spec. exact H. Qed.

(** The list of filesystems is read from the global, which is as in [s0]. *)
Lemma keeps_get_fslist {B : Type} (k : list string -> M W B) :
  keeps s0 (k (fslist s0)) -> keeps s0 (bind (get fslist) k).
Proof.
  intros Hk s H. unfold bind, get.
  destruct H as (Hl & H). rewrite Hl. apply Hk. split; assumption.
Qed.

Lemma keeps_mount_loop (fuel : nat) (mp : mntent) (fo : cptr) :
  forall vfsflags, keeps s0 (mount_loop fuel mp vfsflags fo).
Proof.
  induction fuel as [| fuel IH]; intros vfsflags; cbn [mount_loop].
  - intros s H. exact H.
  - apply keeps_bind; [apply keeps_emit; reflexivity|]. intros _.
    apply keeps_bind; [apply keeps_call|]. intros rc.
    apply keeps_bind; [apply keeps_get_errno|]. intros e.
    match goal with |- keeps _ (if ?c then _ else _) => destruct c end.
    + apply keeps_ret.
    + apply keeps_bind; [apply keeps_emit; reflexivity|]. intros _. apply IH.
Qed.

Create HintDb keeps.
#[local] Hint Resolve keeps_ret keeps_call keeps_get keeps_get_errno keeps_die
  keeps_parse_options_of keeps_mount_loop : keeps.
#[local] Hint Extern 1 (keeps _ (emit _)) => (apply keeps_emit; reflexivity) : keeps.
#[local] Hint Extern 1 (keeps _ (bb_error_msg _)) => (apply keeps_emit; reflexivity) : keeps.

(** Take a computation apart along its binds and its case distinctions. *)
Ltac keeps_steps :=
  repeat first
    [ match goal with |- forall _, _ => intro end
    | solve [auto with keeps]
    | match goal with
      | |- keeps _ (bind (get fslist) _) =>
          apply keeps_get_fslist;
          try match goal with H : fslist _ = _ :: _ |- _ => rewrite H end;
          cbv beta iota
      | |- keeps _ (bind _ _) => apply keeps_bind
      | |- keeps _ (match ?x with _ => _ end) => destruct x
      end ].

Lemma keeps_mount_it_now (mp : mntent) (vfsflags : Z) (fo : cptr) :
  keeps s0 (mount_it_now cfg mp vfsflags fo).
Proof. unfold mount_it_now, get_fakeIt, get_useMtab. keeps_steps. Qed.

Lemma keeps_report_error (mp : mntent) (ignore_busy : bool) (rc : Z) :
  keeps s0 (report_error mp ignore_busy rc).
Proof. unfold report_error. keeps_steps. Qed.

Lemma keeps_try_filesystems (fl : list string) :
  forall mp vfsflags fo rc, keeps s0 (try_filesystems cfg fl mp vfsflags fo rc).
Proof.
  induction fl as [| data link IH]; intros mp vfsflags fo rc; cbn [try_filesystems].
  - auto with keeps.
  - pose proof keeps_mount_it_now. keeps_steps.
Qed.

Lemma keeps_mount_cifs (mp : mntent) (vfsflags : Z) (fo : cptr) :
  keeps s0 (mount_cifs cfg mp vfsflags fo).
Proof. unfold mount_cifs. pose proof keeps_mount_it_now. keeps_steps. Qed.

Lemma keeps_singlemount (mp : mntent) (ignore_busy : bool) :
  fslist s0 <> [] -> keeps s0 (singlemount cfg mp ignore_busy).
Proof.
  intros Hlist. unfold singlemount.
  pose proof keeps_mount_it_now. pose proof keeps_report_error.
  pose proof keeps_try_filesystems. pose proof keeps_mount_cifs.
  destruct (fslist s0) as [| f fl] eqn:Hfl; [congruence|].
  keeps_steps.
Qed.

End Steady.

Section Autodetection.

Context {W : Type} {K : Collaborators W}.
Variable cfg : config.



End Autodetection.



(** ** mount_main: the modes *)

Section Modes.

Context {W : Type} {K : Collaborators W}.
Variable cfg : config.

Lemma show_mounted_lists (inv : invocation) (entries : list fstab_entry) :
  fstype_nul_free inv = true ->
  forallb entry_nul_free entries = true ->
  forall s : state W,
    show_mounted inv entries s
    = (Ret tt,
       State (world s) (fslist s) (useMtab s) (fakeIt s)
             (trace s ++ map (fun e => EvPrintf (mounted_line e))
                             (filter (listed inv) entries))).
Proof.
  intros Ht. induction entries as [| e rest IH]; intros Hall s.
  - cbn [show_mounted filter map]. rewrite app_nil_r. destruct s; reflexivity.
  - cbn [forallb] in Hall. apply andb_prop in Hall as [He Hrest].
    unfold entry_nul_free in He.
    apply andb_prop in He as [He _]. apply andb_prop in He as [He Hty].
    apply andb_prop in He as [Hspec _].
    cbn [show_mounted filter]. unfold listed at 1.
    rewrite (strcmp_eqb (fs_spec e) "rootfs") by (exact Hspec || reflexivity).
    unfold bind at 1.
    destruct (String.eqb (fs_spec e) "rootfs"); cbn [negb andb].
    + unfold ret at 1. apply (IH Hrest).
    + assert (Hsame : match fstype inv with
                      | Some t => strcmp (fs_vfstype e) t =? 0
                      | None => true
                      end
                      = match fstype inv with
                        | Some t => String.eqb (fs_vfstype e) t
                        | None => true
                        end).
      { unfold fstype_nul_free in Ht. destruct (fstype inv) as [t|]; [|reflexivity].
        apply strcmp_eqb; assumption. }
      rewrite Hsame.
      destruct (match fstype inv with
                | Some t => String.eqb (fs_vfstype e) t
                | None => true
                end).
      * unfold emit at 1. rewrite (IH Hrest). cbn [world fslist useMtab fakeIt trace map].
        rewrite <- app_assoc. reflexivity.
      * unfold ret at 1. apply (IH Hrest).
Qed.

(** X17.  With no operand and without -a, [mount_main] mounts nothing:
    it reads the legacy mount table and prints, in the order of the table,
    one line for each entry that is not rootfs and is of the -t type when
    one was given, and returns 0, also when no line is printed; when the
    table does not open the process ends with "no /etc/mtab". *)
Theorem mount_main_lists_mounted
    (inv : invocation) (s : state W) (tab : option (list fstab_entry)) (w1 : W) :
  operands inv = [] ->
  all inv = false ->
  setmntent bb_path_mtab_file "r" (world s) = (tab, w1) ->
  fstype_nul_free inv = true ->
  match tab with
  | Some entries =>
      forallb entry_nul_free entries = true ->
      mount_main cfg inv s
      = (Ret 0,
         State w1 (fslist s) (useMtab s) (fakeIt s)
               (trace s ++ [EvSetmntent bb_path_mtab_file "r"]
                ++ map (fun e => EvPrintf (mounted_line e)) (filter (listed inv) entries)
                ++ (if FEATURE_CLEAN_UP cfg then [EvEndmntent] else [])))
  | None =>
      mount_main cfg inv s
      = (Die ("no " ++ bb_path_mtab_file),
         State w1 (fslist s) (useMtab s) (fakeIt s)
               (trace s ++ [EvSetmntent bb_path_mtab_file "r"]))
  end.
Proof.
  intros Hop Hall Htab Ht.
  assert (E : mount_main cfg inv s
              = match tab with
                | Some entries =>
                    (show_mounted inv entries ;;;
                     (if FEATURE_CLEAN_UP cfg then emit EvEndmntent else ret tt) ;;;
                     ret 0) (table_opened s bb_path_mtab_file w1)
                | None =>
                    (Die ("no " ++ bb_path_mtab_file), table_opened s bb_path_mtab_file w1)
                end).
  { unfold mount_main. rewrite Hop, Hall. cbn [nth_error].
    unfold bind at 1. unfold emit at 1.
    unfold bind at 1. unfold call at 1.
    cbn [world fslist useMtab fakeIt trace with_world]. rewrite Htab.
    destruct tab; reflexivity. }
  rewrite E. destruct tab as [entries|]; [|reflexivity].
  intros Hentries.
  unfold bind at 1. rewrite (show_mounted_lists inv entries Ht Hentries).
  unfold table_opened. cbn [world fslist useMtab fakeIt trace].
  unfold bind, emit, ret. destruct (FEATURE_CLEAN_UP cfg);
    cbn [world fslist useMtab fakeIt trace];
    rewrite <- ?app_assoc, ?app_nil_r; reflexivity.
Qed.

(** X18.  A shared subtree flag among the caller's options, with at most
    one operand, keeps [mount_main] away from the tables: there is one call
    of mount(2) with empty source, type and data on the operand (a null
    pointer when there is none), and the result is 0 or the end of the
    process. *)
Theorem mount_main_changes_propagation
    (inv : invocation) (s : state W) (rc : Z) (w1 : W) :
  let target := nth_error (operands inv) 0 in
  let flags := resolve_flags cfg (c_string (cmdopts inv)) in
  (operands inv = [] /\ all inv = true) \/ (exists arg, operands inv = [arg]) ->
  shared_subtree cfg inv = true ->
  mount (Some "") target (Some "") flags (Some "") (world s) = (rc, w1) ->
  mount_main cfg inv s
  = (if rc =? 0 then Ret 0
     else Die (match target with Some arg => arg | None => "(null)" end),
     State w1 (fslist s) (useMtab s) (fakeIt s)
           (trace s ++ [EvMount (Some "") target (Some "") flags (Some "")])).
Proof.
  intros target flags Hmode Hshared Hmount. unfold mount_main.
  unfold shared_subtree in Hshared. fold flags in Hshared.
  subst target.
  destruct Hmode as [[Hop Hall] | [arg Hop]]; rewrite Hop in *; cbn [nth_error] in *.
  - rewrite Hall. unfold bind at 1. unfold get at 1.
    unfold bind at 1. rewrite parse_options_of_spec, resolve_no_collector.
    fold flags. rewrite Hshared.
    unfold bind, emit, call, with_world. cbn [world fslist useMtab fakeIt trace].
    rewrite Hmount.
    destruct (rc =? 0) eqn:Hrc; [apply Z.eqb_eq in Hrc; subst rc|]; reflexivity.
  - unfold bind at 1. unfold get at 1.
    unfold bind at 1. rewrite parse_options_of_spec, resolve_no_collector.
    fold flags. rewrite Hshared.
    unfold bind, emit, call, with_world. cbn [world fslist useMtab fakeIt trace].
    rewrite Hmount.
    destruct (rc =? 0) eqn:Hrc; [apply Z.eqb_eq in Hrc; subst rc|]; reflexivity.
Qed.

End Modes.

(** mount -t ext2, with rootfs, the root device and proc mounted. *)
Lemma mount_main_lists_mounted_witness :
  operands (Invocation "" (Some "ext2") false []) = []
  /\ all (Invocation "" (Some "ext2") false []) = false
  /\ setmntent bb_path_mtab_file "r" (Sim.Kernel 0 [] [] [] [("/etc/mtab", mounted_example)])
     = (Some mounted_example, Sim.Kernel 0 [] [] [] [("/etc/mtab", mounted_example)])
  /\ fstype_nul_free (Invocation "" (Some "ext2") false []) = true
  /\ forallb entry_nul_free mounted_example = true
  /\ mount_main full_config (Invocation "" (Some "ext2") false [])
                (Sim.start false (Sim.Kernel 0 [] [] [] [("/etc/mtab", mounted_example)]))
     = (Ret 0,
        State (Sim.Kernel 0 [] [] [] [("/etc/mtab", mounted_example)]) [] false false
              [ EvSetmntent "/etc/mtab" "r";
                EvPrintf "/dev/root on / type ext2 (rw)";
                EvEndmntent ]).
Proof.
  split; [reflexivity|]. split; [reflexivity|]. split; [reflexivity|].
  split; [reflexivity|]. split; [reflexivity|].
  exact (mount_main_lists_mounted full_config (Invocation "" (Some "ext2") false [])
           (Sim.start false (Sim.Kernel 0 [] [] [] [("/etc/mtab", mounted_example)]))
           (Some mounted_example)
           (Sim.Kernel 0 [] [] [] [("/etc/mtab", mounted_example)])
           eq_refl eq_refl eq_refl eq_refl eq_refl).
Defined.

(** mount --shared /mnt *)
Lemma mount_main_changes_propagation_witness :
  shared_subtree full_config (Invocation "shared" None false ["/mnt"]) = true
  /\ mount (Some "") (Some "/mnt") (Some "") (Z.lor MS_SILENT MS_SHARED) (Some "") Sim.calm
     = (0, Sim.calm)
  /\ mount_main full_config (Invocation "shared" None false ["/mnt"])
                (Sim.start false Sim.calm)
     = (Ret 0,
        State Sim.calm [] false false
              [EvMount (Some "") (Some "/mnt") (Some "") (Z.lor MS_SILENT MS_SHARED) (Some "")]).
Proof.
  split; [reflexivity|]. split; [reflexivity|].
  exact (mount_main_changes_propagation full_config
           (Invocation "shared" None false ["/mnt"]) (Sim.start false Sim.calm)
           0 Sim.calm
           (or_intror (ex_intro _ "/mnt" eq_refl)) eq_refl eq_refl).
Defined.

Section TableModes.

Context {W : Type} {K : Collaborators W}.
Variable cfg : config.

(** [mount_main] with no operand and -a, or with one operand, and no
    shared subtree flag, up to the opening of the table. *)
Lemma mount_main_opens (inv : invocation) (s : state W) :
  (operands inv = [] /\ all inv = true) \/ (exists arg, operands inv = [arg]) ->
  shared_subtree cfg inv = false ->
  mount_main cfg inv s =
  match setmntent (table_name cfg inv) "r" (world s) with
  | (Some entries, w1) =>
      scan_table cfg inv (table_name cfg inv) (nth_error (operands inv) 0)
                 (match nth_error (operands inv) 0 with
                  | Some arg => bb_simplify_path arg (world s)
                  | None => ""
                  end)
                 entries (None, None) false 0
                 (table_opened s (table_name cfg inv) w1)
  | (None, w1) =>
      (Die ("cannot read " ++ table_name cfg inv), table_opened s (table_name cfg inv) w1)
  end.
Proof.
  intros Hmode Hshared.
  destruct (setmntent (table_name cfg inv) "r" (world s)) as [[entries|] w1] eqn:Htab.
  - apply mount_main_scans; assumption.
  - unfold mount_main.
    assert (Hop : match operands inv with [_; _] => False | _ => True end).
    { destruct Hmode as [[-> _] | [arg ->]]; exact I. }
    unfold shared_subtree in Hshared. unfold table_name in Htab.
    destruct (nth_error (operands inv) 0) as [arg|] eqn:En;
      [| destruct Hmode as [[_ ->] | [arg Harg]];
         [| rewrite Harg in En; discriminate]];
      unfold bind at 1; unfold get;
      destruct (operands inv) as [| a [| b [| c l]]]; try contradiction;
      unfold bind at 1;
      rewrite parse_options_of_spec, resolve_no_collector;
      rewrite Hshared; unfold bind, emit, call, with_world;
      cbn [world fslist useMtab fakeIt trace];
      unfold table_name; rewrite Htab; reflexivity.
Qed.

(** X19.  When the table to scan does not open, the process ends with
    "cannot read" and the name of the table, the legacy mount table for a
    remount and fstab otherwise; nothing has been mounted. *)
Theorem mount_main_unreadable_table (inv : invocation) (s : state W) (w1 : W) :
  (operands inv = [] /\ all inv = true) \/ (exists arg, operands inv = [arg]) ->
  shared_subtree cfg inv = false ->
  setmntent (table_name cfg inv) "r" (world s) = (None, w1) ->
  mount_main cfg inv s
  = (Die ("cannot read "
          ++ (if negb (Z.land (resolve_flags cfg (c_string (cmdopts inv))) MS_REMOUNT =? 0)
              then "/etc/mtab" else "/etc/fstab")),
     State w1 (fslist s) (useMtab s) (fakeIt s)
           (trace s ++ [EvSetmntent (table_name cfg inv) "r"])).
Proof.
  intros Hmode Hshared Htab.
  rewrite (mount_main_opens inv s Hmode Hshared), Htab.
  unfold table_name, table_opened.
  destruct (negb (Z.land (resolve_flags cfg (c_string (cmdopts inv))) MS_REMOUNT =? 0));
    reflexivity.
Qed.

Lemma scan_table_target_only (inv inv' : invocation) (name arg sp : string)
    (entries : list fstab_entry) :
  cmdopts inv = cmdopts inv' ->
  forall (mtpair : slot * slot) (mtcur : bool) (rc : Z) (s : state W),
    scan_table cfg inv name (Some arg) sp entries mtpair mtcur rc s
    = scan_table cfg inv' name (Some arg) sp entries mtpair mtcur rc s.
Proof.
  intros Hopts. induction entries as [| e rest IH]; intros mtpair mtcur rc s.
  - cbn [scan_table]. rewrite Hopts. reflexivity.
  - cbn [scan_table].
    destruct (is_what_we_look_for arg sp (mntent_of_entry e)); apply IH.
Qed.

(** X20.  With one operand the -t type and -a play no part: two command
    lines with the same operand and the same options run alike, so that
    the record found is mounted whatever its type. *)
Theorem targeted_mount_ignores_type_filter
    (inv inv' : invocation) (arg : string) (s : state W) :
  operands inv = [arg] ->
  operands inv' = [arg] ->
  cmdopts inv = cmdopts inv' ->
  mount_main cfg inv s = mount_main cfg inv' s.
Proof.
  intros Hop Hop' Hopts.
  assert (Hshared : shared_subtree cfg inv = shared_subtree cfg inv').
  { unfold shared_subtree. rewrite Hopts. reflexivity. }
  assert (Hname : table_name cfg inv = table_name cfg inv').
  { unfold table_name. rewrite Hopts. reflexivity. }
  destruct (shared_subtree cfg inv) eqn:Hs.
  - destruct (mount (Some "") (Some arg) (Some "")
                    (resolve_flags cfg (c_string (cmdopts inv))) (Some "") (world s))
      as [rc w1] eqn:Hmount.
    pose proof (mount_main_changes_propagation cfg inv s rc w1) as H1.
    pose proof (mount_main_changes_propagation cfg inv' s rc w1) as H2.
    cbv zeta in H1, H2. rewrite Hop in H1. rewrite Hop', <- Hopts in H2.
    cbn [nth_error] in H1, H2.
    rewrite H1, H2; eauto.
  - rewrite (mount_main_opens inv s), (mount_main_opens inv' s); eauto.
    rewrite <- Hname, Hop, Hop'. cbn [nth_error].
    destruct (setmntent (table_name cfg inv) "r" (world s)) as [[entries|] w1];
      [|reflexivity].
    apply scan_table_target_only, Hopts.
Qed.

Lemma scan_table_all_only (inv inv' : invocation) (name name' sp : string)
    (entries : list fstab_entry) :
  fstype inv = fstype inv' ->
  forall (mtpair : slot * slot) (mtcur : bool) (rc : Z) (s : state W),
    scan_table cfg inv name None sp entries mtpair mtcur rc s
    = scan_table cfg inv' name' None sp entries mtpair mtcur rc s.
Proof.
  intros Hty. induction entries as [| e rest IH]; intros mtpair mtcur rc s.
  - reflexivity.
  - rewrite !scan_table_all_step.
    assert (Hskip : skipped cfg inv e = skipped cfg inv' e).
    { unfold skipped. rewrite Hty. reflexivity. }
    rewrite <- Hskip. destruct (skipped cfg inv e); [apply IH|].
    destruct (singlemount cfg (mntent_of_entry e) true s) as [[[r m']| |] s'];
      try reflexivity.
    apply IH.
Qed.

(** X21.  In "mount all" mode the caller's options are applied to no
    record: two command lines that differ in their options only, neither
    with a shared subtree flag and both for the same table, run alike, so
    that mount -a -o ro mounts every record as fstab has it. *)
Theorem mount_all_ignores_options
    (inv inv' : invocation) (s : state W) :
  operands inv = [] -> all inv = true ->
  operands inv' = [] -> all inv' = true ->
  fstype inv = fstype inv' ->
  shared_subtree cfg inv = false ->
  shared_subtree cfg inv' = false ->
  table_name cfg inv = table_name cfg inv' ->
  mount_main cfg inv s = mount_main cfg inv' s.
Proof.
  intros Hop Hall Hop' Hall' Hty Hs Hs' Hname.
  rewrite (mount_main_opens inv s), (mount_main_opens inv' s); eauto.
  rewrite <- Hname, Hop, Hop'. cbn [nth_error].
  destruct (setmntent (table_name cfg inv) "r" (world s)) as [[entries|] w1];
    [|reflexivity].
  apply scan_table_all_only, Hty.
Qed.

End TableModes.

(** mount -a with no /etc/fstab. *)
Lemma mount_main_unreadable_table_witness :
  shared_subtree full_config (Invocation "" None true []) = false
  /\ setmntent (table_name full_config (Invocation "" None true [])) "r" Sim.write_protected
     = (None, Sim.write_protected)
  /\ mount_main full_config (Invocation "" None true []) (Sim.start false Sim.write_protected)
     = (Die "cannot read /etc/fstab",
        State Sim.write_protected [] false false [EvSetmntent "/etc/fstab" "r"]).
Proof.
  split; [reflexivity|]. split; [reflexivity|].
  exact (mount_main_unreadable_table full_config (Invocation "" None true [])
           (Sim.start false Sim.write_protected) Sim.write_protected
           (or_introl (conj eq_refl eq_refl)) eq_refl eq_refl).
Defined.

(** mount -a -t vfat /mnt mounts the ext2 record for /mnt as mount /mnt
    does. *)
Lemma targeted_mount_ignores_type_filter_witness :
  mount_main full_config (Invocation "" (Some "vfat") true ["/mnt"]) (Sim.start false Sim.calm)
  = mount_main full_config (Invocation "" None false ["/mnt"]) (Sim.start false Sim.calm)
  /\ mount_attempts
       (trace (snd (mount_main full_config (Invocation "" (Some "vfat") true ["/mnt"])
                               (Sim.start false Sim.calm))))
     = [EvMount (Some "/dev/B") (Some "/mnt") (Some "ext2") MS_SILENT (Some "")].
Proof.
  split; [|reflexivity].
  exact (targeted_mount_ignores_type_filter full_config
           (Invocation "" (Some "vfat") true ["/mnt"]) (Invocation "" None false ["/mnt"])
           "/mnt" (Sim.start false Sim.calm) eq_refl eq_refl eq_refl).
Defined.

(** mount -a -o ro runs as mount -a does: /dev/B is not mounted
    read-only. *)
Lemma mount_all_ignores_options_witness :
  shared_subtree full_config (Invocation "ro" None true []) = false
  /\ shared_subtree full_config (Invocation "" None true []) = false
  /\ table_name full_config (Invocation "ro" None true [])
     = table_name full_config (Invocation "" None true [])
  /\ mount_main full_config (Invocation "ro" None true []) (Sim.start false Sim.one_bad_entry)
     = mount_main full_config (Invocation "" None true []) (Sim.start false Sim.one_bad_entry)
  /\ mount_attempts
       (trace (snd (mount_main full_config (Invocation "ro" None true [])
                               (Sim.start false Sim.one_bad_entry))))
     = [ EvMount (Some "/dev/B") (Some "/b") (Some "ext2") MS_SILENT None;
         EvMount (Some "/dev/C") (Some "/c") (Some "ext2") (Z.lor MS_SILENT MS_RDONLY) None ].
Proof.
  split; [reflexivity|]. split; [reflexivity|]. split; [reflexivity|].
  split; [|reflexivity].
  exact (mount_all_ignores_options full_config
           (Invocation "ro" None true []) (Invocation "" None true [])
           (Sim.start false Sim.one_bad_entry)
           eq_refl eq_refl eq_refl eq_refl eq_refl eq_refl eq_refl eq_refl).
Defined.

(** ** mount_main: the options *)

Lemma long_options_kept (argv : list string) :
  forall cmdopts,
    snd (long_options argv cmdopts) = filter (fun a => negb (is_long_option a)) argv.
Proof.
  induction argv as [| arg argv IH]; intros cmdopts; [reflexivity|].
  cbn [long_options filter]. destruct (is_long_option arg); cbn [negb].
  - apply IH.
  - specialize (IH cmdopts). destruct (long_options argv cmdopts) as [c kept].
    cbn [snd] in *. rewrite IH. reflexivity.
Qed.

Lemma long_options_merged (argv : list string) :
  forall cmdopts,
    fst (long_options argv cmdopts)
    = fold_left (fun acc a => append_mount_options (Some acc) (after_dashes a))
                (filter is_long_option argv) cmdopts.
Proof.
  induction argv as [| arg argv IH]; intros cmdopts; [reflexivity|].
  cbn [long_options filter]. destruct (is_long_option arg).
  - cbn [fold_left]. apply IH.
  - specialize (IH cmdopts). destruct (long_options argv cmdopts) as [c kept].
    exact IH.
Qed.

Section OptionLoops.

Context {W : Type} {K : Collaborators W}.
Variable cfg : config.

Lemma short_options_o (xs : list string) :
  forall (inv : invocation) (s : state W),
    short_options cfg (map (fun x => ("o"%char, x)) xs) inv s
    = (Ret (Invocation (fold_left (fun acc x => append_mount_options (Some acc) x)
                                  xs (cmdopts inv))
                       (fstype inv) (all inv) (operands inv)), s).
Proof.
  induction xs as [| x xs IH]; intros inv s.
  - destruct inv; reflexivity.
  - cbn [map short_options]. change (Ascii.eqb "o" "o") with true. cbv iota.
    rewrite IH. reflexivity.
Qed.


(** X23.  No option turns the fake mode on: after the second loop of
    [mount_main] [fakeIt] is 0 when it was 0 before, -f or not.  The
    legacy mount table is maintained afterwards exactly when it was
    before and -n is not among the options; the loop does nothing else to
    the state, and it ends the process exactly when [getopt] delivers an
    option character it does not know. *)
Theorem short_options_never_fake
    (results : list getopt_result) (inv : invocation) (s : state W) :
  let s' := snd (short_options cfg results inv s) in
  (FEATURE_MTAB_SUPPORT cfg && fakeIt s = false ->
   FEATURE_MTAB_SUPPORT cfg && fakeIt s' = false)
  /\ (forallb known_option results = true ->
      (exists inv', fst (short_options cfg results inv s) = Ret inv')
      /\ FEATURE_MTAB_SUPPORT cfg && useMtab s'
         = FEATURE_MTAB_SUPPORT cfg && useMtab s && negb (existsb is_no_mtab results))
  /\ (forallb known_option results = false ->
      fst (short_options cfg results inv s) = Die "usage")
  /\ world s' = world s /\ fslist s' = fslist s /\ trace s' = trace s.
Proof.
  cbv zeta. revert inv s.
  induction results as [| [opt optarg] rest IH]; intros inv s.
  - cbn [short_options forallb existsb negb]. unfold ret. cbn [fst snd].
    rewrite andb_true_r.
    repeat split; try discriminate; try (intros H; exact H). eexists; reflexivity.
  - cbn [short_options forallb existsb]. unfold known_option at 1 3, is_no_mtab at 1.
    cbn [fst list_ascii_of_string existsb].
    destruct (Ascii.eqb opt "o") eqn:Eo.
    { apply Ascii.eqb_eq in Eo. subst opt. cbn [Ascii.eqb Bool.eqb andb orb]. apply IH. }
    destruct (Ascii.eqb opt "t") eqn:Et.
    { apply Ascii.eqb_eq in Et. subst opt. cbn [Ascii.eqb Bool.eqb andb orb]. apply IH. }
    destruct (Ascii.eqb opt "r") eqn:Er.
    { apply Ascii.eqb_eq in Er. subst opt. cbn [Ascii.eqb Bool.eqb andb orb]. apply IH. }
    destruct (Ascii.eqb opt "w") eqn:Ew.
    { apply Ascii.eqb_eq in Ew. subst opt. cbn [Ascii.eqb Bool.eqb andb orb]. apply IH. }
    destruct (Ascii.eqb opt "a") eqn:Ea.
    { apply Ascii.eqb_eq in Ea. subst opt. cbn [Ascii.eqb Bool.eqb andb orb]. apply IH. }
    destruct (Ascii.eqb opt "n") eqn:En.
    { apply Ascii.eqb_eq in En. subst opt. cbn [Ascii.eqb Bool.eqb andb orb negb].
      destruct (FEATURE_MTAB_SUPPORT cfg) eqn:Hf; cbn [andb];
        unfold bind, ret, set_useMtab; cbv beta iota.
      - 
        specialize (IH inv (State (world s) (fslist s) false (fakeIt s) (trace s))).
        try rewrite Hf in IH. cbn [world fslist useMtab fakeIt trace andb] in IH.
        rewrite andb_false_r. exact IH.
      - specialize (IH inv s). try rewrite Hf in IH. cbn [andb] in IH.
        exact IH. }
    destruct (Ascii.eqb opt "f") eqn:Ef.
    { apply Ascii.eqb_eq in Ef. subst opt. cbn [Ascii.eqb Bool.eqb andb orb negb].
      destruct (FEATURE_MTAB_SUPPORT cfg) eqn:Hf; cbn [andb];
        unfold bind, ret, set_fakeIt; cbv beta iota.
      - 
        specialize (IH inv (State (world s) (fslist s) (useMtab s) false (trace s))).
        try rewrite Hf in IH. cbn [world fslist useMtab fakeIt trace andb] in IH.
        destruct IH as (I1 & I2 & I3 & I4 & I5 & I6).
        repeat split; try assumption.
        + intros _. apply I1. reflexivity.
        + apply (proj1 (I2 H)).
        + apply (proj2 (I2 H)).
      - specialize (IH inv s). try rewrite Hf in IH. cbn [andb] in IH.
        exact IH. }
    destruct (Ascii.eqb opt "v") eqn:Ev.
    { apply Ascii.eqb_eq in Ev. subst opt. cbn [Ascii.eqb Bool.eqb andb orb negb]. apply IH. }
    cbn [orb andb]. unfold bb_show_usage. cbn [fst snd].
    repeat split; try discriminate. intros H; exact H.
Qed.

End OptionLoops.

(** mount -f -n -r: the mount is not faked, the legacy mount table is no
    longer maintained, and ro is among the options. *)
Lemma short_options_never_fake_witness :
  FEATURE_MTAB_SUPPORT full_config && fakeIt (Sim.start true Sim.calm) = false
  /\ short_options full_config [("f"%char, ""); ("n"%char, ""); ("r"%char, "")]
                   (Invocation "" None false []) (Sim.start true Sim.calm)
     = (Ret (Invocation "ro" None false []), State Sim.calm [] false false [])
  /\ FEATURE_MTAB_SUPPORT full_config
     && fakeIt (snd (short_options full_config [("f"%char, ""); ("n"%char, ""); ("r"%char, "")]
                                   (Invocation "" None false []) (Sim.start true Sim.calm)))
     = false.
Proof.
  assert (H : FEATURE_MTAB_SUPPORT full_config && fakeIt (Sim.start true Sim.calm) = false)
    by reflexivity.
  split; [exact H|]. split; [reflexivity|].
  exact (proj1 (short_options_never_fake full_config
                  [("f"%char, ""); ("n"%char, ""); ("r"%char, "")]
                  (Invocation "" None false []) (Sim.start true Sim.calm)) H).
Defined.

(** ** singlemount: a network share that cannot be reached *)

Section Shares.

Context {W : Type} {K : Collaborators W}.
Variable cfg : config.

(** X24.  A request that looks like CIFS and whose name holds no share,
    or whose host does not resolve, fails in silence: [singlemount]
    returns 1 (0 when busy is tolerated and [errno] is EBUSY) with the
    slashes of the name turned to backslashes, nothing is mounted and no
    message is given. *)
Theorem singlemount_unreachable_share
    (mp : mntent) (ignore_busy : bool) (s : state W) (w1 : W) :
  let mp0 := if is_str (mnt_type mp) "auto" then set_type mp None else mp in
  let unc := slashes_to_backslashes (mnt_fsname mp0) in
  looks_like_cifs cfg mp0 = true ->
  match str_rindex unc "\"%char 0 with
  | Some i =>
      if (i =? 1)%nat then w1 = world s
      else gethostbyname (substring 2 (i - 2) unc) (world s) = (None, w1)
  | None => w1 = world s
  end ->
  singlemount cfg mp ignore_busy s
  = (Ret (if (errno w1 =? EBUSY) && ignore_busy then 0 else 1, set_fsname mp0 unc),
     State w1 (fslist s) (useMtab s) (fakeIt s) (trace s)).
Proof.
  intros mp0 unc Hcifs Hhost.
  unfold singlemount. unfold bind at 1. rewrite parse_options_of_spec.
  destruct (resolve cfg (c_string (mnt_opts mp)) (Some None)) as [vfsflags unrec].
  fold mp0. rewrite Hcifs.
  assert (Hend : forall w,
             report_error (set_fsname mp0 unc) ignore_busy 1
                          (State w (fslist s) (useMtab s) (fakeIt s) (trace s))
             = (Ret (if (errno w =? EBUSY) && ignore_busy then 0 else 1, set_fsname mp0 unc),
                State w (fslist s) (useMtab s) (fakeIt s) (trace s))).
  { intros w. unfold report_error, bind, get_errno, ret. cbn [world negb andb Z.eqb].
    destruct ((errno w =? EBUSY) && ignore_busy); reflexivity. }
  unfold bind at 1. unfold mount_cifs. cbn [mnt_fsname set_fsname]. fold unc.
  destruct (str_rindex unc "\"%char 0) as [i|].
  - destruct (i =? 1)%nat.
    + subst w1. unfold ret at 1. rewrite <- Hend. destruct s; reflexivity.
    + unfold bind at 1. unfold call at 1. rewrite Hhost.
      unfold ret at 1. unfold with_world. apply Hend.
  - subst w1. unfold ret at 1. rewrite <- Hend. destruct s; reflexivity.
Qed.

End Shares.

(** mount //server/share /mnt when the name server does not know the
    server. *)
Lemma singlemount_unreachable_share_witness :
  looks_like_cifs full_config (Mntent "//server/share" "/mnt" None "") = true
  /\ gethostbyname "server" Sim.calm = (None, Sim.calm)
  /\ singlemount full_config (Mntent "//server/share" "/mnt" None "") false
                 (Sim.start false Sim.calm)
     = (Ret (1, Mntent "\\server\share" "/mnt" None ""), Sim.start false Sim.calm).
Proof.
  split; [reflexivity|]. split; [reflexivity|].
  exact (singlemount_unreachable_share full_config
           (Mntent "//server/share" "/mnt" None "") false
           (Sim.start false Sim.calm) Sim.calm eq_refl eq_refl).
Defined.
